(** * Compliance platform core: detection, remediation, audit trail, reports

    A shallow embedding of the Python services under [backend/app]:
    [services/detection_engine.py], [services/remediation_engine.py],
    [services/evidence_engine.py], the control interface of
    [controls/base.py] and the ORM models of [models/].

    Conventions of the embedding.
    - Python values that travel through JSON columns and response
      dictionaries are values of [pyval]; a [dict] is an association list
      in insertion order.
    - [async] methods run to completion one after the other, so each is a
      function on an explicit [World]: the ORM session, the committed
      database, the provider-side cloud state, the object store, the clock
      and a trace of the externally visible calls.
    - A raised exception is the [Raise] outcome; the world it leaves behind
      is kept, because a raise does not undo what already happened.
    - [datetime] values are integer ticks of the world clock. *)

From Stdlib Require Import ZArith List String Ascii Bool Lia.
From Stdlib Require Import DecimalString.
From Stdlib Require Import Sorted Permutation.
From Stdlib Require Import PrimFloat FloatOps SpecFloat Uint63.
Import ListNotations.

#[local] Set Warnings "-register-all,-inexact-float".

Local Open Scope Z_scope.
Local Open Scope list_scope.

Infix "+++" := String.append (at level 60, right associativity).

(** ** Python values *)

Inductive pyval : Type :=
| PNone
| PBool (b : bool)
| PInt (n : Z)
| PFloat (x : float)
| PStr (s : string)
| PBytes (bs : list ascii)
| PList (xs : list pyval)
| PDict (kvs : list (pyval * pyval)).

(** [bool(v)], the truth value Python's [if v], [not v] and [v or d] use. *)
Definition truthy (v : pyval) : bool :=
  match v with
  | PNone => false
  | PBool b => b
  | PInt n => negb (n =? 0)
  | PFloat x => negb (PrimFloat.eqb x 0%float)
  | PStr s => negb (String.eqb s EmptyString)
  | PBytes bs => match bs with [] => false | _ => true end
  | PList xs => match xs with [] => false | _ => true end
  | PDict kvs => match kvs with [] => false | _ => true end
  end.

(** Truth value of an [Optional[str]]. *)
Definition truthy_str (o : option string) : bool :=
  match o with
  | None => false
  | Some s => negb (String.eqb s EmptyString)
  end.

(** Truth value of an [Optional[int]]. *)
Definition truthy_int (o : option Z) : bool :=
  match o with
  | None => false
  | Some n => negb (n =? 0)
  end.

(** An [Optional[str]] as a Python value. *)
Definition of_opt_str (o : option string) : pyval :=
  match o with
  | None => PNone
  | Some s => PStr s
  end.

(** Is the key of a dictionary entry the string [k]? *)
Definition key_is (k : string) (key : pyval) : bool :=
  match key with
  | PStr s => String.eqb s k
  | _ => false
  end.

(** [d.get(k)] on the entries of a dictionary, for a string key. *)
Fixpoint dict_get (k : string) (kvs : list (pyval * pyval)) : option pyval :=
  match kvs with
  | [] => None
  | (key, v) :: rest => if key_is k key then Some v else dict_get k rest
  end.

(** [d[k] = v]: an existing key keeps its place, a new one goes last. *)
Fixpoint dict_set (k : string) (v : pyval) (kvs : list (pyval * pyval))
  : list (pyval * pyval) :=
  match kvs with
  | [] => [(PStr k, v)]
  | (key, v0) :: rest =>
      if key_is k key then (key, v) :: rest else (key, v0) :: dict_set k v rest
  end.

(** [v.get(k)] when [v] is a dictionary. *)
Definition py_get (k : string) (v : pyval) : option pyval :=
  match v with
  | PDict kvs => dict_get k kvs
  | _ => None
  end.

(** ** Numbers and text *)

(** [str(n)] for an [int]. *)
Definition str_int (n : Z) : string := NilZero.string_of_int (Z.to_int n).

(** Half-to-even rounding of the rational [num / den], [den > 0], [num >= 0]. *)
Definition round_half_even (num den : Z) : Z :=
  let q := num / den in
  let r := num mod den in
  match Z.compare (2 * r) den with
  | Lt => q
  | Gt => q + 1
  | Eq => if Z.even q then q else q + 1
  end.

(** [round(x, 2)] on a float: the exact binary value of [x] is rounded
    half-to-even to two decimals (CPython's [double_round] goes through the
    correctly rounded decimal string) and the decimal [n / 100] is read back
    as the nearest double, which is the correctly rounded quotient of the
    two exactly representable numbers [n] and [100].  Non-finite values are
    returned as they are. *)
Definition round2 (x : float) : float :=
  match Prim2SF x with
  | S754_zero _ => x
  | S754_infinity _ => x
  | S754_nan => x
  | S754_finite neg m e =>
      let scaled :=
        if 0 <=? e then Z.pos m * 2 ^ e * 100
        else round_half_even (Z.pos m * 100) (2 ^ (- e)) in
      let y := PrimFloat.div (PrimFloat.of_uint63 (Uint63.of_Z scaled)) 100%float in
      if neg then PrimFloat.opp y else y
  end.

(** [float(n)] for an [int]; exact below [2^53] in absolute value. *)
Definition float_of_int (n : Z) : float :=
  if n <? 0 then PrimFloat.opp (PrimFloat.of_uint63 (Uint63.of_Z (- n)))
  else PrimFloat.of_uint63 (Uint63.of_Z n).

(** [t.isoformat()] and [t.strftime(...)]: the text of a clock tick. *)
Definition isoformat (t : Z) : string := str_int t.
Definition strftime (t : Z) : string := str_int t.

(** [sum(xs)]. *)
Definition py_sum (xs : list Z) : Z := fold_left Z.add xs 0.

(** [len(xs)]. *)
Definition len {A : Type} (xs : list A) : Z := Z.of_nat (List.length xs).

(** ** Exceptions and outcomes *)

(** An exception: its class and [str(e)]. *)
Record exn : Type := mkExn { exc_class : string; exc_str : string }.

Definition ValueError (msg : string) : exn := mkExn "ValueError" msg.
Definition TypeError (msg : string) : exn := mkExn "TypeError" msg.
Definition AttributeError (msg : string) : exn := mkExn "AttributeError" msg.
Definition KeyError (key : string) : exn := mkExn "KeyError" ("'" +++ key +++ "'").

Inductive outcome (A : Type) : Type :=
| Ok (a : A)
| Raise (e : exn).

Arguments Ok {A} a.
Arguments Raise {A} e.

(** ** Persisted models ([models/])

    One record per ORM class, one field per column, with the column's name.
    A nullable column is an [option]; a nullable JSON column holds [PNone]
    for SQL NULL.  [DateTime] columns hold clock ticks. *)

Module Organization.
Record t : Type := mk {
  id : Z;
  name : string;
  industry : option string;
  compliance_frameworks : pyval;
  contact_email : option string;
  is_active : option bool;
  settings : pyval;
  created_at : option Z;
  updated_at : option Z
}.
End Organization.

Module CloudAccount.
Record t : Type := mk {
  id : Z;
  organization_id : Z;
  name : string;
  provider : string;
  account_id : string;
  region : option string;
  credentials : pyval;
  is_active : option bool;
  last_scan_at : option Z;
  last_scan_status : option string;
  account_metadata : pyval;
  created_at : option Z;
  updated_at : option Z
}.

Definition set_last_scan_status (v : option string) (a : t) : t :=
  mk (id a) (organization_id a) (name a) (provider a) (account_id a) (region a)
     (credentials a) (is_active a) (last_scan_at a) v (account_metadata a)
     (created_at a) (updated_at a).

Definition set_last_scan_at (v : option Z) (a : t) : t :=
  mk (id a) (organization_id a) (name a) (provider a) (account_id a) (region a)
     (credentials a) (is_active a) v (last_scan_status a) (account_metadata a)
     (created_at a) (updated_at a).

(** [onupdate=func.now()]: an UPDATE stamps [updated_at]. *)
Definition touch (now : Z) (a : t) : t :=
  mk (id a) (organization_id a) (name a) (provider a) (account_id a) (region a)
     (credentials a) (is_active a) (last_scan_at a) (last_scan_status a)
     (account_metadata a) (created_at a) (Some now).
End CloudAccount.

Module ControlResult.
Record t : Type := mk {
  id : Z;
  cloud_account_id : Z;
  control_id : string;
  status : string;
  risk_level : option string;
  resource_id : option string;
  resource_type : option string;
  finding_details : pyval;
  evidence_before : pyval;
  evidence_after : pyval;
  evidence_s3_key : option string;
  remediation_status : option string;
  remediation_approved_by : option string;
  remediation_executed_at : option Z;
  remediation_details : pyval;
  rollback_data : pyval;
  scan_id : option string;
  detected_at : option Z;
  resolved_at : option Z;
  result_metadata : pyval
}.

Definition set_status (v : string) (r : t) : t :=
  mk (id r) (cloud_account_id r) (control_id r) v (risk_level r) (resource_id r)
     (resource_type r) (finding_details r) (evidence_before r) (evidence_after r)
     (evidence_s3_key r) (remediation_status r) (remediation_approved_by r)
     (remediation_executed_at r) (remediation_details r) (rollback_data r)
     (scan_id r) (detected_at r) (resolved_at r) (result_metadata r).

Definition set_remediation_status (v : option string) (r : t) : t :=
  mk (id r) (cloud_account_id r) (control_id r) (status r) (risk_level r) (resource_id r)
     (resource_type r) (finding_details r) (evidence_before r) (evidence_after r)
     (evidence_s3_key r) v (remediation_approved_by r)
     (remediation_executed_at r) (remediation_details r) (rollback_data r)
     (scan_id r) (detected_at r) (resolved_at r) (result_metadata r).

Definition set_remediation_approved_by (v : option string) (r : t) : t :=
  mk (id r) (cloud_account_id r) (control_id r) (status r) (risk_level r) (resource_id r)
     (resource_type r) (finding_details r) (evidence_before r) (evidence_after r)
     (evidence_s3_key r) (remediation_status r) v
     (remediation_executed_at r) (remediation_details r) (rollback_data r)
     (scan_id r) (detected_at r) (resolved_at r) (result_metadata r).

Definition set_remediation_executed_at (v : option Z) (r : t) : t :=
  mk (id r) (cloud_account_id r) (control_id r) (status r) (risk_level r) (resource_id r)
     (resource_type r) (finding_details r) (evidence_before r) (evidence_after r)
     (evidence_s3_key r) (remediation_status r) (remediation_approved_by r)
     v (remediation_details r) (rollback_data r)
     (scan_id r) (detected_at r) (resolved_at r) (result_metadata r).

Definition set_evidence_after (v : pyval) (r : t) : t :=
  mk (id r) (cloud_account_id r) (control_id r) (status r) (risk_level r) (resource_id r)
     (resource_type r) (finding_details r) (evidence_before r) v
     (evidence_s3_key r) (remediation_status r) (remediation_approved_by r)
     (remediation_executed_at r) (remediation_details r) (rollback_data r)
     (scan_id r) (detected_at r) (resolved_at r) (result_metadata r).

Definition set_rollback_data (v : pyval) (r : t) : t :=
  mk (id r) (cloud_account_id r) (control_id r) (status r) (risk_level r) (resource_id r)
     (resource_type r) (finding_details r) (evidence_before r) (evidence_after r)
     (evidence_s3_key r) (remediation_status r) (remediation_approved_by r)
     (remediation_executed_at r) (remediation_details r) v
     (scan_id r) (detected_at r) (resolved_at r) (result_metadata r).

Definition set_resolved_at (v : option Z) (r : t) : t :=
  mk (id r) (cloud_account_id r) (control_id r) (status r) (risk_level r) (resource_id r)
     (resource_type r) (finding_details r) (evidence_before r) (evidence_after r)
     (evidence_s3_key r) (remediation_status r) (remediation_approved_by r)
     (remediation_executed_at r) (remediation_details r) (rollback_data r)
     (scan_id r) (detected_at r) v (result_metadata r).

Definition set_remediation_details (v : pyval) (r : t) : t :=
  mk (id r) (cloud_account_id r) (control_id r) (status r) (risk_level r) (resource_id r)
     (resource_type r) (finding_details r) (evidence_before r) (evidence_after r)
     (evidence_s3_key r) (remediation_status r) (remediation_approved_by r)
     (remediation_executed_at r) v (rollback_data r)
     (scan_id r) (detected_at r) (resolved_at r) (result_metadata r).
End ControlResult.

Module AuditLog.
Record t : Type := mk {
  id : Z;
  control_result_id : option Z;
  event_type : string;
  action : string;
  actor : option string;
  cloud_account_id : option Z;
  organization_id : option Z;
  control_id : option string;
  resource_id : option string;
  event_data : pyval;
  before_state : pyval;
  after_state : pyval;
  ip_address : option string;
  user_agent : option string;
  timestamp : Z;
  success : option string;
  error_message : option string
}.
End AuditLog.

(** ** The world the services run in *)

(** The four tables the core reads and writes, and the two things the
    database server decides by itself: [server_now t] is what its [now()]
    yields when the clock of the service reads [t] (nothing ties the two
    clocks together: the server may stamp many rows with the same time),
    and [ties_first a b] says whether a query with [ORDER BY timestamp DESC]
    returns the row [a] before the row [b] when both carry the same
    timestamp. *)
Record DB : Type := mkDB {
  organizations : list Organization.t;
  cloud_accounts : list CloudAccount.t;
  control_results : list ControlResult.t;
  audit_logs : list AuditLog.t;
  server_now : Z -> Z;
  ties_first : AuditLog.t -> AuditLog.t -> bool
}.

(** An S3 object as [put_object] stores it. *)
Record StoredObject : Type := mkObject {
  Body : list ascii;
  ContentType : string;
  ServerSideEncryption : string;
  Metadata : list (string * string)
}.

(** The evidence bucket behind [boto3.client('s3')].  [put_object_error] and
    [presign_error] say whether the next call of that kind raises. *)
Record ObjectStore : Type := mkStore {
  put_object_error : option exn;
  presign_error : option exn;
  objects : list (string * string * StoredObject)
}.

(** Calls that are visible outside the service, in the order they happen. *)
Inductive Event : Type :=
| EvCommit (d : DB)
| EvDetect (control_id : string)
| EvRemediate (control_id : string) (dry_run : bool)
| EvRollback (control_id : string).

Record World : Type := mkWorld {
  session : DB;
  committed : DB;
  cloud : pyval;
  store : ObjectStore;
  clock : Z;
  uuids : nat;
  trace : list Event
}.

Definition with_session (d : DB) (w : World) : World :=
  mkWorld d (committed w) (cloud w) (store w) (clock w) (uuids w) (trace w).

Definition with_cloud (c : pyval) (w : World) : World :=
  mkWorld (session w) (committed w) c (store w) (clock w) (uuids w) (trace w).

Definition with_store (s : ObjectStore) (w : World) : World :=
  mkWorld (session w) (committed w) (cloud w) s (clock w) (uuids w) (trace w).

Definition emit (ev : Event) (w : World) : World :=
  mkWorld (session w) (committed w) (cloud w) (store w) (clock w) (uuids w)
          (trace w ++ [ev]).

(** A service step: an outcome and the world after it. *)
Definition M (A : Type) : Type := World -> outcome A * World.

Definition ret {A : Type} (a : A) : M A := fun w => (Ok a, w).

Definition raise {A : Type} (e : exn) : M A := fun w => (Raise e, w).

Definition bind {A B : Type} (m : M A) (k : A -> M B) : M B :=
  fun w =>
    match m w with
    | (Ok a, w') => k a w'
    | (Raise e, w') => (Raise e, w')
    end.

(** [try: body  except Exception as e: handler(e)]. *)
Definition try_except {A : Type} (body : M A) (handler : exn -> M A) : M A :=
  fun w =>
    match body w with
    | (Ok a, w') => (Ok a, w')
    | (Raise e, w') => handler e w'
    end.

Definition gets {A : Type} (f : World -> A) : M A := fun w => (Ok (f w), w).

Definition modify (f : World -> World) : M unit := fun w => (Ok tt, f w).

Notation "x <- m ;; k" := (bind m (fun x => k))
  (at level 61, m at next level, right associativity).
Notation "m ;;; k" := (bind m (fun _ => k))
  (at level 61, right associativity).

(** [datetime.utcnow()]: read the clock of the service; time moves on. *)
Definition utcnow : M Z :=
  fun w => (Ok (clock w),
            mkWorld (session w) (committed w) (cloud w) (store w) (clock w + 1)
                    (uuids w) (trace w)).

(** [str(uuid.uuid4())]: a token no earlier call returned. *)
Definition uuid4 : M string :=
  fun w => (Ok ("uuid-" +++ str_int (Z.of_nat (uuids w))),
            mkWorld (session w) (committed w) (cloud w) (store w) (clock w)
                    (S (uuids w)) (trace w)).

(** [await self.db.commit()]. *)
Definition commit : M unit :=
  fun w => (Ok tt,
            mkWorld (session w) (session w) (cloud w) (store w) (clock w)
                    (uuids w) (trace w ++ [EvCommit (session w)])).

(** *** Queries and writes of the session *)

(** The next value of an autoincrement primary key. *)
Definition next_id (ids : list Z) : Z := 1 + fold_right Z.max 0 ids.

(** [select(CloudAccount).where(CloudAccount.id == account_id)],
    [scalar_one_or_none()]. *)
Definition get_account (account_id : Z) (d : DB) : option CloudAccount.t :=
  find (fun a => CloudAccount.id a =? account_id) (cloud_accounts d).

(** [select(ControlResult).where(ControlResult.id == finding_id)],
    [scalar_one_or_none()]. *)
Definition get_finding (finding_id : Z) (d : DB) : option ControlResult.t :=
  find (fun r => ControlResult.id r =? finding_id) (control_results d).

(** [select(Organization).where(Organization.id == organization_id)],
    [scalar_one_or_none()]. *)
Definition get_organization (organization_id : Z) (d : DB) : option Organization.t :=
  find (fun o => Organization.id o =? organization_id) (organizations d).

Definition opt_str_eqb (a b : option string) : bool :=
  match a, b with
  | None, None => true
  | Some x, Some y => String.eqb x y
  | _, _ => false
  end.

(** Attribute writes on a loaded [CloudAccount]: the row with that primary
    key changes in the session; a write that changes the value makes the
    row dirty, and its UPDATE stamps [updated_at]. *)
Definition update_account (account_id : Z) (f : CloudAccount.t -> CloudAccount.t)
  (now : Z) (d : DB) : DB :=
  mkDB (organizations d)
       (map (fun a => if CloudAccount.id a =? account_id
                      then CloudAccount.touch now (f a) else a)
            (cloud_accounts d))
       (control_results d) (audit_logs d) (server_now d) (ties_first d).

Definition opt_int_eqb (a b : option Z) : bool :=
  match a, b with
  | None, None => true
  | Some x, Some y => x =? y
  | _, _ => false
  end.

Definition assign_account (account_id : Z) (unchanged : CloudAccount.t -> bool)
  (f : CloudAccount.t -> CloudAccount.t) : M unit :=
  fun w =>
    match get_account account_id (session w) with
    | Some a =>
        if unchanged a then (Ok tt, w)
        else (Ok tt, with_session
                       (update_account account_id f
                          (server_now (session w) (clock w)) (session w)) w)
    | None => (Ok tt, w)
    end.

(** [account.last_scan_status = v]. *)
Definition assign_last_scan_status (account_id : Z) (v : string) : M unit :=
  assign_account account_id
    (fun a => opt_str_eqb (CloudAccount.last_scan_status a) (Some v))
    (CloudAccount.set_last_scan_status (Some v)).

(** [account.last_scan_at = t]. *)
Definition assign_last_scan_at (account_id : Z) (t : Z) : M unit :=
  assign_account account_id
    (fun a => opt_int_eqb (CloudAccount.last_scan_at a) (Some t))
    (CloudAccount.set_last_scan_at (Some t)).

(** Attribute writes on a loaded [ControlResult]. *)
Definition update_finding (finding_id : Z) (f : ControlResult.t -> ControlResult.t)
  : M unit :=
  modify (fun w =>
    let d := session w in
    with_session
      (mkDB (organizations d) (cloud_accounts d)
            (map (fun r => if ControlResult.id r =? finding_id then f r else r)
                 (control_results d))
            (audit_logs d) (server_now d) (ties_first d)) w).

(** [self.db.add(result)] for a new [ControlResult]: the database fills in
    the primary key and the server default of [detected_at], its own
    [now()].  The write takes time on the clock of the service. *)
Definition add_control_result (mk_row : Z -> Z -> ControlResult.t) : M unit :=
  now <- utcnow ;;
  modify (fun w =>
    let d := session w in
    let rid := next_id (map ControlResult.id (control_results d)) in
    with_session
      (mkDB (organizations d) (cloud_accounts d)
            (control_results d ++ [mk_row rid (server_now d now)]) (audit_logs d)
            (server_now d) (ties_first d)) w).

(** [self.db.add(log)] for a new [AuditLog]: the database fills in the
    primary key and the server default of [timestamp], its own [now()]; two
    rows written one after the other may carry the same timestamp. *)
Definition add_audit_log (mk_row : Z -> Z -> AuditLog.t) : M unit :=
  now <- utcnow ;;
  modify (fun w =>
    let d := session w in
    let lid := next_id (map AuditLog.id (audit_logs d)) in
    with_session
      (mkDB (organizations d) (cloud_accounts d) (control_results d)
            (audit_logs d ++ [mk_row lid (server_now d now)])
            (server_now d) (ties_first d)) w).

(** Keyword arguments read into typed columns. *)
Definition kw_int (k : string) (kwargs : list (pyval * pyval)) : option Z :=
  match dict_get k kwargs with
  | Some (PInt n) => Some n
  | _ => None
  end.

Definition kw_str (k : string) (kwargs : list (pyval * pyval)) : option string :=
  match dict_get k kwargs with
  | Some (PStr s) => Some s
  | _ => None
  end.

Definition kw_json (k : string) (kwargs : list (pyval * pyval)) : pyval :=
  match dict_get k kwargs with
  | Some v => v
  | None => PNone
  end.

(** ** Controls ([controls/base.py]) *)

(** The dataclass [ControlFinding]. *)
Module ControlFinding.
Record t : Type := mk {
  status : string;
  resource_id : string;
  resource_type : string;
  finding_details : pyval;
  evidence : pyval;
  can_auto_remediate : bool;
  remediation_risk : string
}.
End ControlFinding.

(** The object [remediate_finding] rebuilds from a persisted row:
    [type('Finding', (), {...})()]. *)
Module Finding.
Record t : Type := mk {
  resource_id : option string;
  resource_type : option string;
  evidence : pyval;
  finding_details : pyval
}.
End Finding.

(** The dataclass [RemediationResult]. *)
Module RemediationResult.
Record t : Type := mk {
  success : bool;
  resource_id : pyval;
  before_state : pyval;
  after_state : pyval;
  rollback_data : pyval;
  error_message : option string
}.
End RemediationResult.

(** [AWSClient(credentials)]; building one never raises, every failure of
    [_create_session] falls back to a default session. *)
Record AWSClient : Type := mkAWSClient { aws_credentials : pyval }.

(** A control class: its descriptor attributes and its three methods.  The
    methods get the client the instance was built with ([None] when the
    account is not an AWS one) and act on the provider-side state: [detect]
    reads it; [remediate] and [rollback] may change it. *)
Record Control : Type := mkControl {
  control_id : string;
  title : string;
  description : string;
  severity : string;
  category : string;
  frameworks : pyval;
  detect : option AWSClient -> pyval -> outcome (list ControlFinding.t);
  remediate : option AWSClient -> Finding.t -> bool -> pyval
              -> outcome RemediationResult.t * pyval;
  rollback : option AWSClient -> pyval -> pyval
             -> outcome RemediationResult.t * pyval
}.

(** [BaseControl.remediate]. *)
Definition BaseControl_remediate (client : option AWSClient) (finding : Finding.t)
  (dry_run : bool) (c : pyval) : outcome RemediationResult.t * pyval :=
  (Ok (RemediationResult.mk false
         (of_opt_str (Finding.resource_id finding))
         (Finding.evidence finding)
         PNone PNone
         (Some "Remediation not implemented for this control"%string)), c).

(** [BaseControl.rollback]. *)
Definition BaseControl_rollback (client : option AWSClient) (rollback_data : pyval)
  (c : pyval) : outcome RemediationResult.t * pyval :=
  match rollback_data with
  | PDict kvs =>
      (Ok (RemediationResult.mk false
             (match dict_get "resource_id" kvs with
              | Some v => v
              | None => PStr "unknown"
              end)
             (PDict []) PNone PNone
             (Some "Rollback not implemented for this control"%string)), c)
  | _ => (Raise (AttributeError "object has no attribute 'get'"), c)
  end.

(** [await control.detect()], [await control.remediate(finding, dry_run)]
    and [await control.rollback(rollback_data)] as steps of the service. *)
Definition call_detect (control : Control) (client : option AWSClient)
  : M (list ControlFinding.t) :=
  fun w =>
    (detect control client (cloud w), emit (EvDetect (control_id control)) w).

Definition call_remediate (control : Control) (client : option AWSClient)
  (finding : Finding.t) (dry_run : bool) : M RemediationResult.t :=
  fun w =>
    let (r, c) := remediate control client finding dry_run (cloud w) in
    (r, with_cloud c (emit (EvRemediate (control_id control) dry_run) w)).

Definition call_rollback (control : Control) (client : option AWSClient)
  (rollback_data : pyval) : M RemediationResult.t :=
  fun w =>
    let (r, c) := rollback control client rollback_data (cloud w) in
    (r, with_cloud c (emit (EvRollback (control_id control)) w)).

(** ** Provider clients and counters *)

(** [v[k]] for a string key. *)
Definition subscript (credentials : pyval) (k : string) : outcome pyval :=
  match credentials with
  | PDict kvs =>
      match dict_get k kvs with
      | Some v => Ok v
      | None => Raise (KeyError k)
      end
  | _ => Raise (TypeError "object is not subscriptable")
  end.

(** [AzureClient(credentials)]: three subscriptions, then the SDK's
    credential object. *)
Definition AzureClient (ClientSecretCredential : pyval -> pyval -> pyval -> option exn)
  (credentials : pyval) : outcome unit :=
  match subscript credentials "tenant_id" with
  | Raise e => Raise e
  | Ok tenant_id =>
      match subscript credentials "client_id" with
      | Raise e => Raise e
      | Ok client_id =>
          match subscript credentials "client_secret" with
          | Raise e => Raise e
          | Ok client_secret =>
              match ClientSecretCredential tenant_id client_id client_secret with
              | Some e => Raise e
              | None => Ok tt
              end
          end
      end
  end.

(** [Counter(keys)] as a dictionary: first occurrence fixes the place. *)
Fixpoint counter_add (k : option string) (cnts : list (option string * Z))
  : list (option string * Z) :=
  match cnts with
  | [] => [(k, 1)]
  | (k0, n) :: rest =>
      if opt_str_eqb k0 k then (k0, n + 1) :: rest else (k0, n) :: counter_add k rest
  end.

Definition Counter (keys : list (option string)) : list (option string * Z) :=
  fold_left (fun cnts k => counter_add k cnts) keys [].

(** ** Detection engine ([services/detection_engine.py]) *)

Module DetectionEngine.
Section Engine.

(** The registry the engine imports from [controls/aws_controls.py], and the
    Azure SDK's credential constructor ([None]: it built the object). *)
Variable AWS_CONTROLS : list Control.
Variable ClientSecretCredential : pyval -> pyval -> pyval -> option exn.

Definition _log_audit (event_type action : string) (kwargs : list (pyval * pyval))
  : M unit :=
  add_audit_log (fun lid now =>
    AuditLog.mk lid None event_type action (Some "system"%string)
      (kw_int "cloud_account_id" kwargs)
      (kw_int "organization_id" kwargs)
      (kw_str "control_id" kwargs)
      (kw_str "resource_id" kwargs)
      (match dict_get "event_data" kwargs with Some v => v | None => PDict [] end)
      PNone PNone None None now (Some "success"%string) None) ;;;
  commit.

(** The [metadata=] keyword of the constructor names no column of the
    table, so [result_metadata] keeps its default. *)
Definition _save_result (account_id : Z) (control : Control)
  (finding : option ControlFinding.t) (status : string) (scan_id : string)
  (error_msg : option string) : M unit :=
  add_control_result (fun rid now =>
    ControlResult.mk rid account_id (control_id control) status
      (Some (severity control))
      (match finding with Some f => Some (ControlFinding.resource_id f) | None => None end)
      (match finding with Some f => Some (ControlFinding.resource_type f) | None => None end)
      (match finding with
       | Some f => ControlFinding.finding_details f
       | None =>
           if truthy_str error_msg then PDict [(PStr "error", of_opt_str error_msg)]
           else PDict []
       end)
      (match finding with Some f => ControlFinding.evidence f | None => PDict [] end)
      PNone None None None None (PDict []) PNone (Some scan_id) (Some now) None
      (PDict [])) ;;;
  commit ;;;
  _log_audit "detection" ("Control " +++ control_id control +++ ": " +++ status)
    [ (PStr "cloud_account_id", PInt account_id);
      (PStr "control_id", PStr (control_id control));
      (PStr "resource_id",
        match finding with Some f => PStr (ControlFinding.resource_id f) | None => PNone end);
      (PStr "event_data",
        PDict [ (PStr "status", PStr status);
                (PStr "severity", PStr (severity control));
                (PStr "finding",
                  match finding with
                  | Some f => ControlFinding.finding_details f
                  | None => PDict []
                  end) ]) ].

(** The counters of the scan loop. *)
Record Counts : Type := mkCounts {
  total_findings : Z;
  pass_count : Z;
  fail_count : Z;
  error_count : Z
}.

(** [for finding in findings: await self._save_result(...)]. *)
Fixpoint save_findings (account_id : Z) (control : Control) (scan_id : string)
  (findings : list ControlFinding.t) : M unit :=
  match findings with
  | [] => ret tt
  | finding :: rest =>
      _save_result account_id control (Some finding) (ControlFinding.status finding)
        scan_id None ;;;
      save_findings account_id control scan_id rest
  end.

(** One turn of the loop: the [try] around [detect] and its [except]. *)
Definition run_control (account_id : Z) (scan_id : string) (client : option AWSClient)
  (control : Control) (n : Counts) : M Counts :=
  try_except
    (findings <- call_detect control client ;;
     match findings with
     | [] =>
         _save_result account_id control None "PASS" scan_id None ;;;
         ret (mkCounts (total_findings n) (pass_count n + 1) (fail_count n)
                (error_count n))
     | _ =>
         save_findings account_id control scan_id findings ;;;
         ret (mkCounts (total_findings n + len findings) (pass_count n)
                (fail_count n + len findings) (error_count n))
     end)
    (fun e =>
       _save_result account_id control None "ERROR" scan_id (Some (exc_str e)) ;;;
       ret (mkCounts (total_findings n) (pass_count n) (fail_count n)
              (error_count n + 1))).

(** [for control in controls: ...]. *)
Fixpoint run_controls (account_id : Z) (scan_id : string) (client : option AWSClient)
  (controls : list Control) (n : Counts) : M Counts :=
  match controls with
  | [] => ret n
  | control :: rest =>
      n' <- run_control account_id scan_id client control n ;;
      run_controls account_id scan_id client rest n'
  end.

(** [if control_ids: controls = [c for c in controls if c.control_id in control_ids]]. *)
Definition filter_controls (control_ids : option (list string)) (controls : list Control)
  : list Control :=
  match control_ids with
  | Some ((_ :: _) as ids) =>
      filter (fun c => existsb (String.eqb (control_id c)) ids) controls
  | _ => controls
  end.

(** The client and the control instances for the account's provider. *)
Definition provider_controls (account : CloudAccount.t)
  : M (option AWSClient * list Control) :=
  if String.eqb (CloudAccount.provider account) "aws" then
    ret (Some (mkAWSClient (CloudAccount.credentials account)), AWS_CONTROLS)
  else if String.eqb (CloudAccount.provider account) "azure" then
    match AzureClient ClientSecretCredential (CloudAccount.credentials account) with
    | Ok _ => ret (None, [])
    | Raise e => raise e
    end
  else raise (ValueError ("Unsupported provider: " +++ CloudAccount.provider account)).

(** The body of the [try] after the account is marked: run the controls,
    mark the account, log the scan, build the summary. *)
Definition run_scan (account : CloudAccount.t) (account_id : Z)
  (control_ids : option (list string)) (scan_id : string) (scan_start : Z) : M pyval :=
  cc <- provider_controls account ;;
  let client := fst cc in
  let controls := filter_controls control_ids (snd cc) in
  n <- run_controls account_id scan_id client controls (mkCounts 0 0 0 0) ;;
  finished <- utcnow ;;
  assign_last_scan_at account_id finished ;;;
  assign_last_scan_status account_id "success" ;;;
  commit ;;;
  logged <- utcnow ;;
  _log_audit "scan" ("Completed scan " +++ scan_id)
    [ (PStr "cloud_account_id", PInt account_id);
      (PStr "organization_id", PInt (CloudAccount.organization_id account));
      (PStr "event_data",
        PDict [ (PStr "scan_id", PStr scan_id);
                (PStr "controls_run", PInt (len controls));
                (PStr "total_findings", PInt (total_findings n));
                (PStr "pass", PInt (pass_count n));
                (PStr "fail", PInt (fail_count n));
                (PStr "error", PInt (error_count n));
                (PStr "duration_seconds",
                  PFloat (float_of_int (logged - scan_start))) ]) ] ;;;
  completed <- utcnow ;;
  ret (PDict [ (PStr "scan_id", PStr scan_id);
               (PStr "account_id", PInt account_id);
               (PStr "status", PStr "completed");
               (PStr "summary",
                 PDict [ (PStr "total_controls", PInt (len controls));
                         (PStr "pass", PInt (pass_count n));
                         (PStr "fail", PInt (fail_count n));
                         (PStr "error", PInt (error_count n));
                         (PStr "total_findings", PInt (total_findings n)) ]);
               (PStr "started_at", PStr (isoformat scan_start));
               (PStr "completed_at", PStr (isoformat completed)) ]).

Definition scan_account (account_id : Z) (control_ids : option (list string))
  : M pyval :=
  found <- gets (fun w => get_account account_id (session w)) ;;
  match found with
  | None => raise (ValueError ("Account " +++ str_int account_id +++ " not found"))
  | Some account =>
      scan_id <- uuid4 ;;
      scan_start <- utcnow ;;
      try_except
        (assign_last_scan_status account_id "in_progress" ;;;
         commit ;;;
         run_scan account account_id control_ids scan_id scan_start)
        (fun e =>
           assign_last_scan_status account_id "failed" ;;;
           commit ;;;
           raise e)
  end.

(** [_get_by_severity]. *)
Definition _get_by_severity (results : list ControlResult.t) : pyval :=
  PDict (map (fun kn => (of_opt_str (fst kn), PInt (snd kn)))
           (Counter (map ControlResult.risk_level
                       (filter (fun r => String.eqb (ControlResult.status r) "FAIL")
                          results)))).

(** The rows the query of [get_compliance_score] selects. *)
Definition scoped_results (account_id organization_id : option Z) (d : DB)
  : list ControlResult.t :=
  if truthy_int account_id then
    filter (fun r => opt_int_eqb (Some (ControlResult.cloud_account_id r)) account_id)
      (control_results d)
  else if truthy_int organization_id then
    filter (fun r =>
              existsb (fun a =>
                         (CloudAccount.id a =? ControlResult.cloud_account_id r)
                         && opt_int_eqb (Some (CloudAccount.organization_id a))
                              organization_id)
                (cloud_accounts d))
      (control_results d)
  else control_results d.

(** [sum(1 for r in results if r.status == s)]. *)
Definition count_status (s : string) (results : list ControlResult.t) : Z :=
  py_sum (map (fun _ => 1)
            (filter (fun r => String.eqb (ControlResult.status r) s) results)).

Definition get_compliance_score (account_id organization_id : option Z) : M pyval :=
  results <- gets (fun w => scoped_results account_id organization_id (session w)) ;;
  match results with
  | [] =>
      ret (PDict [ (PStr "score", PInt 0); (PStr "total", PInt 0);
                   (PStr "pass", PInt 0); (PStr "fail", PInt 0);
                   (PStr "fixed", PInt 0) ])
  | _ =>
      let pass_count := count_status "PASS" results in
      let fail_count := count_status "FAIL" results in
      let fixed_count := count_status "FIXED" results in
      let total := len results in
      let score :=
        if total >? 0 then
          PFloat (round2 (PrimFloat.mul
                            (PrimFloat.div (float_of_int (pass_count + fixed_count))
                               (float_of_int total))
                            100%float))
        else PInt 0 in
      ret (PDict [ (PStr "score", score);
                   (PStr "total", PInt total);
                   (PStr "pass", PInt pass_count);
                   (PStr "fail", PInt fail_count);
                   (PStr "fixed", PInt fixed_count);
                   (PStr "by_severity", _get_by_severity results) ])
  end.

End Engine.
End DetectionEngine.

(** ** Remediation engine ([services/remediation_engine.py]) *)

Module RemediationEngine.
Section Engine.

Variable AWS_CONTROLS : list Control.

Definition _log_audit (event_type action : string) (actor : string)
  (kwargs : list (pyval * pyval)) : M unit :=
  add_audit_log (fun lid now =>
    AuditLog.mk lid (kw_int "control_result_id" kwargs) event_type action (Some actor)
      (kw_int "cloud_account_id" kwargs)
      (kw_int "organization_id" kwargs)
      (kw_str "control_id" kwargs)
      (kw_str "resource_id" kwargs)
      (match dict_get "event_data" kwargs with Some v => v | None => PDict [] end)
      (kw_json "before_state" kwargs)
      (kw_json "after_state" kwargs)
      None None now
      (match dict_get "success" kwargs with
       | Some (PStr s) => Some s
       | Some _ => None
       | None => Some "success"%string
       end)
      (kw_str "error_message" kwargs)) ;;;
  commit.

(** [next((c for c in AWS_CONTROLS if c.control_id == cid), None)]. *)
Definition find_control (cid : string) : option Control :=
  find (fun c => String.eqb (control_id c) cid) AWS_CONTROLS.

(** [approved_by or "system"]. *)
Definition actor_of (approved_by : option string) : string :=
  match approved_by with
  | Some s => if truthy_str approved_by then s else "system"%string
  | None => "system"%string
  end.

(** [AWSClient(account.credentials) if account.provider == "aws" else None]. *)
Definition client_for (account : CloudAccount.t) : option AWSClient :=
  if String.eqb (CloudAccount.provider account) "aws"
  then Some (mkAWSClient (CloudAccount.credentials account))
  else None.

(** What [account.provider] raises when no account row was found. *)
Definition no_account : exn :=
  AttributeError "'NoneType' object has no attribute 'provider'".

Definition remediable (status : string) : bool :=
  existsb (String.eqb status) ["FAIL"%string; "ERROR"%string].

Definition remediate_finding (finding_id : Z) (dry_run : bool)
  (approved_by : option string) : M pyval :=
  found <- gets (fun w => get_finding finding_id (session w)) ;;
  match found with
  | None => raise (ValueError ("Finding " +++ str_int finding_id +++ " not found"))
  | Some finding_record =>
      if negb (remediable (ControlResult.status finding_record)) then
        raise (ValueError ("Finding " +++ str_int finding_id
                           +++ " is not in remediable state"))
      else
        account <- gets (fun w =>
                     get_account (ControlResult.cloud_account_id finding_record)
                       (session w)) ;;
        match account with
        | None => raise no_account
        | Some account =>
        let client := client_for account in
        match find_control (ControlResult.control_id finding_record) with
        | None =>
            raise (ValueError ("Control " +++ ControlResult.control_id finding_record
                               +++ " not found"))
        | Some control =>
            let finding_obj :=
              Finding.mk (ControlResult.resource_id finding_record)
                (ControlResult.resource_type finding_record)
                (ControlResult.evidence_before finding_record)
                (ControlResult.finding_details finding_record) in
            remediation_result <- call_remediate control client finding_obj dry_run ;;
            if RemediationResult.success remediation_result then
              (if negb dry_run then
                 update_finding finding_id (ControlResult.set_status "FIXED") ;;;
                 update_finding finding_id
                   (ControlResult.set_remediation_status (Some "executed"%string)) ;;;
                 update_finding finding_id
                   (ControlResult.set_remediation_approved_by approved_by) ;;;
                 executed_at <- utcnow ;;
                 update_finding finding_id
                   (ControlResult.set_remediation_executed_at (Some executed_at)) ;;;
                 update_finding finding_id
                   (ControlResult.set_evidence_after
                      (RemediationResult.after_state remediation_result)) ;;;
                 update_finding finding_id
                   (ControlResult.set_rollback_data
                      (RemediationResult.rollback_data remediation_result)) ;;;
                 resolved_at <- utcnow ;;
                 update_finding finding_id
                   (ControlResult.set_resolved_at (Some resolved_at)) ;;;
                 commit
               else ret tt) ;;;
              _log_audit "remediation"
                ((if dry_run then "Dry-run" else "Executed")
                 +++ " remediation for " +++ ControlResult.control_id finding_record)
                (actor_of approved_by)
                [ (PStr "cloud_account_id", PInt (CloudAccount.id account));
                  (PStr "organization_id", PInt (CloudAccount.organization_id account));
                  (PStr "control_id", PStr (ControlResult.control_id finding_record));
                  (PStr "resource_id", of_opt_str (ControlResult.resource_id finding_record));
                  (PStr "control_result_id", PInt finding_id);
                  (PStr "before_state", RemediationResult.before_state remediation_result);
                  (PStr "after_state", RemediationResult.after_state remediation_result);
                  (PStr "event_data",
                    PDict [ (PStr "dry_run", PBool dry_run);
                            (PStr "success", PBool true);
                            (PStr "finding_id", PInt finding_id) ]) ] ;;;
              ret (PDict [ (PStr "success", PBool true);
                           (PStr "finding_id", PInt finding_id);
                           (PStr "control_id", PStr (ControlResult.control_id finding_record));
                           (PStr "dry_run", PBool dry_run);
                           (PStr "resource_id",
                             of_opt_str (ControlResult.resource_id finding_record));
                           (PStr "before_state",
                             RemediationResult.before_state remediation_result);
                           (PStr "after_state",
                             RemediationResult.after_state remediation_result);
                           (PStr "message",
                             PStr ("Remediation "
                                   +++ (if dry_run then "simulated" else "executed")
                                   +++ " successfully")) ])
            else
              (if negb dry_run then
                 update_finding finding_id
                   (ControlResult.set_remediation_status (Some "failed"%string)) ;;;
                 update_finding finding_id
                   (ControlResult.set_remediation_details
                      (PDict [ (PStr "error",
                                 of_opt_str
                                   (RemediationResult.error_message remediation_result)) ])) ;;;
                 commit
               else ret tt) ;;;
              _log_audit "remediation"
                ("Failed remediation for " +++ ControlResult.control_id finding_record)
                (actor_of approved_by)
                [ (PStr "cloud_account_id", PInt (CloudAccount.id account));
                  (PStr "control_id", PStr (ControlResult.control_id finding_record));
                  (PStr "resource_id", of_opt_str (ControlResult.resource_id finding_record));
                  (PStr "control_result_id", PInt finding_id);
                  (PStr "event_data",
                    PDict [ (PStr "dry_run", PBool dry_run);
                            (PStr "success", PBool false);
                            (PStr "error",
                              of_opt_str
                                (RemediationResult.error_message remediation_result)) ]);
                  (PStr "success", PStr "failure");
                  (PStr "error_message",
                    of_opt_str (RemediationResult.error_message remediation_result)) ] ;;;
              ret (PDict [ (PStr "success", PBool false);
                           (PStr "finding_id", PInt finding_id);
                           (PStr "error",
                             of_opt_str
                               (RemediationResult.error_message remediation_result)) ])
        end
        end
  end.

Definition rollback_remediation (finding_id : Z) (rolled_back_by : string) : M pyval :=
  found <- gets (fun w => get_finding finding_id (session w)) ;;
  match found with
  | None =>
      raise (ValueError ("Finding " +++ str_int finding_id
                         +++ " not in rollback-able state"))
  | Some finding_record =>
      if negb (String.eqb (ControlResult.status finding_record) "FIXED") then
        raise (ValueError ("Finding " +++ str_int finding_id
                           +++ " not in rollback-able state"))
      else if negb (truthy (ControlResult.rollback_data finding_record)) then
        raise (ValueError ("No rollback data available for finding "
                           +++ str_int finding_id))
      else
        account <- gets (fun w =>
                     get_account (ControlResult.cloud_account_id finding_record)
                       (session w)) ;;
        match account with
        | None => raise no_account
        | Some account =>
        let client := client_for account in
        match find_control (ControlResult.control_id finding_record) with
        | None =>
            raise (ValueError ("Control " +++ ControlResult.control_id finding_record
                               +++ " not found"))
        | Some control =>
            rollback_result <- call_rollback control client
                                 (ControlResult.rollback_data finding_record) ;;
            if RemediationResult.success rollback_result then
              update_finding finding_id (ControlResult.set_status "FAIL") ;;;
              update_finding finding_id
                (ControlResult.set_remediation_status (Some "rolled_back"%string)) ;;;
              match ControlResult.remediation_details finding_record with
              | PDict details =>
                  rolled_back_at <- utcnow ;;
                  update_finding finding_id
                    (ControlResult.set_remediation_details
                       (PDict (dict_set "rolled_back_by" (PStr rolled_back_by)
                                 (dict_set "rolled_back_at"
                                    (PStr (isoformat rolled_back_at)) details)))) ;;;
                  commit ;;;
                  _log_audit "rollback"
                    ("Rolled back remediation for "
                     +++ ControlResult.control_id finding_record)
                    rolled_back_by
                    [ (PStr "cloud_account_id", PInt (CloudAccount.id account));
                      (PStr "control_id", PStr (ControlResult.control_id finding_record));
                      (PStr "resource_id",
                        of_opt_str (ControlResult.resource_id finding_record));
                      (PStr "control_result_id", PInt finding_id);
                      (PStr "event_data",
                        PDict [ (PStr "finding_id", PInt finding_id);
                                (PStr "success", PBool true) ]) ] ;;;
                  ret (PDict [ (PStr "success", PBool true);
                               (PStr "finding_id", PInt finding_id);
                               (PStr "message",
                                 PStr "Remediation rolled back successfully") ])
              | _ => raise (TypeError "object is not a mapping")
              end
            else
              ret (PDict [ (PStr "success", PBool false);
                           (PStr "finding_id", PInt finding_id);
                           (PStr "error",
                             of_opt_str (RemediationResult.error_message rollback_result)) ])
        end
        end
  end.

End Engine.
End RemediationEngine.

(** ** Evidence engine ([services/evidence_engine.py]) *)

(** [ORDER BY timestamp DESC]: later timestamps first.  SQL leaves the order
    of rows with equal timestamps to the database; [first a b] is its
    choice between two such rows. *)
Fixpoint insert_desc (first : AuditLog.t -> AuditLog.t -> bool) (l : AuditLog.t)
  (sorted : list AuditLog.t) : list AuditLog.t :=
  match sorted with
  | [] => [l]
  | x :: rest =>
      if (AuditLog.timestamp x <? AuditLog.timestamp l)
         || ((AuditLog.timestamp x =? AuditLog.timestamp l) && first l x)
      then l :: x :: rest
      else x :: insert_desc first l rest
  end.

Definition order_by_timestamp_desc (first : AuditLog.t -> AuditLog.t -> bool)
  (logs : list AuditLog.t) : list AuditLog.t :=
  fold_right (insert_desc first) [] logs.

(** [self.s3_client.put_object(...)]. *)
Definition put_object (Bucket Key : string) (obj : StoredObject) : M unit :=
  fun w =>
    match put_object_error (store w) with
    | Some e => (Raise e, w)
    | None =>
        (Ok tt,
         with_store (mkStore (put_object_error (store w)) (presign_error (store w))
                       ((Bucket, Key, obj) :: objects (store w))) w)
    end.

Module EvidenceEngine.
Section Engine.

(** [settings.EVIDENCE_BUCKET_NAME], the two serializers the reports end in
    (reportlab's document build and [json.dumps(report, indent=2).encode]),
    and the URL signer of the S3 client. *)
Variable EVIDENCE_BUCKET_NAME : string.
Variable pdf_build :
  Organization.t -> list AuditLog.t -> list ControlResult.t -> option Z -> option Z
  -> Z -> outcome (list ascii).
Variable json_dumps : pyval -> list ascii.
Variable presigned_url : string -> string -> Z -> string.

(** [self.s3_client.generate_presigned_url('get_object', ...)]. *)
Definition generate_presigned_url (Bucket Key : string) (ExpiresIn : Z) : M string :=
  fun w =>
    match presign_error (store w) with
    | Some e => (Raise e, w)
    | None => (Ok (presigned_url Bucket Key ExpiresIn), w)
    end.

Definition _generate_pdf_report (organization : Organization.t)
  (audit_logs : list AuditLog.t) (control_results : list ControlResult.t)
  (start_date end_date : option Z) : M (list ascii) :=
  generated <- utcnow ;;
  match pdf_build organization audit_logs control_results start_date end_date generated with
  | Ok data => ret data
  | Raise e => raise e
  end.

Definition iso_or_none (t : option Z) : pyval :=
  match t with
  | Some t => PStr (isoformat t)
  | None => PNone
  end.

Definition count_rows (s : string) (rows : list ControlResult.t) : Z :=
  py_sum (map (fun _ => 1)
            (filter (fun r => String.eqb (ControlResult.status r) s) rows)).

Definition _generate_json_report (organization : Organization.t)
  (audit_logs : list AuditLog.t) (control_results : list ControlResult.t)
  : M (list ascii) :=
  generated <- utcnow ;;
  ret (json_dumps
    (PDict
      [ (PStr "organization",
          PDict [ (PStr "id", PInt (Organization.id organization));
                  (PStr "name", PStr (Organization.name organization));
                  (PStr "frameworks", Organization.compliance_frameworks organization) ]);
        (PStr "generated_at", PStr (isoformat generated));
        (PStr "summary",
          PDict [ (PStr "total_controls", PInt (len control_results));
                  (PStr "pass", PInt (count_rows "PASS" control_results));
                  (PStr "fail", PInt (count_rows "FAIL" control_results));
                  (PStr "fixed", PInt (count_rows "FIXED" control_results)) ]);
        (PStr "control_results",
          PList (map (fun r =>
                   PDict [ (PStr "control_id", PStr (ControlResult.control_id r));
                           (PStr "status", PStr (ControlResult.status r));
                           (PStr "severity", of_opt_str (ControlResult.risk_level r));
                           (PStr "resource_id", of_opt_str (ControlResult.resource_id r));
                           (PStr "resource_type", of_opt_str (ControlResult.resource_type r));
                           (PStr "detected_at", iso_or_none (ControlResult.detected_at r));
                           (PStr "resolved_at", iso_or_none (ControlResult.resolved_at r)) ])
                 control_results));
        (PStr "audit_logs",
          PList (map (fun log =>
                   PDict [ (PStr "timestamp", PStr (isoformat (AuditLog.timestamp log)));
                           (PStr "event_type", PStr (AuditLog.event_type log));
                           (PStr "action", PStr (AuditLog.action log));
                           (PStr "actor", of_opt_str (AuditLog.actor log));
                           (PStr "success", of_opt_str (AuditLog.success log)) ])
                 (firstn 1000 audit_logs))) ])).

(** The audit rows of the report window, latest timestamps first:
    [.order_by(AuditLog.timestamp.desc())]. *)
Definition report_audit_logs (organization_id : Z) (start_date end_date : option Z)
  (d : DB) : list AuditLog.t :=
  order_by_timestamp_desc (ties_first d)
    (filter (fun l =>
               opt_int_eqb (AuditLog.organization_id l) (Some organization_id)
               && match start_date with
                  | Some s => s <=? AuditLog.timestamp l
                  | None => true
                  end
               && match end_date with
                  | Some e => AuditLog.timestamp l <=? e
                  | None => true
                  end)
       (audit_logs d)).

(** [select(ControlResult).join(CloudAccount).where(organization_id == ...)]. *)
Definition report_control_results (organization_id : Z) (d : DB)
  : list ControlResult.t :=
  filter (fun r =>
            existsb (fun a =>
                       (CloudAccount.id a =? ControlResult.cloud_account_id r)
                       && (CloudAccount.organization_id a =? organization_id))
              (cloud_accounts d))
    (control_results d).

Definition export_audit_report (organization_id : Z) (start_date end_date : option Z)
  (format : string) : M pyval :=
  found <- gets (fun w => get_organization organization_id (session w)) ;;
  match found with
  | None =>
      raise (ValueError ("Organization " +++ str_int organization_id +++ " not found"))
  | Some organization =>
      audit_logs <- gets (fun w =>
                      report_audit_logs organization_id start_date end_date (session w)) ;;
      control_results <- gets (fun w =>
                           report_control_results organization_id (session w)) ;;
      let is_pdf := String.eqb format "pdf" in
      report_data <- (if is_pdf
                      then _generate_pdf_report organization audit_logs control_results
                             start_date end_date
                      else _generate_json_report organization audit_logs control_results) ;;
      let content_type :=
        if is_pdf then "application/pdf"%string else "application/json"%string in
      let file_ext := if is_pdf then "pdf"%string else "json"%string in
      keyed <- utcnow ;;
      let report_key :=
        "audit-reports/" +++ str_int organization_id +++ "/" +++ strftime keyed
        +++ "." +++ file_ext in
      try_except
        (stamped <- utcnow ;;
         put_object EVIDENCE_BUCKET_NAME report_key
           (mkObject report_data content_type "AES256"
              [ ("organization_id"%string, str_int organization_id);
                ("generated_at"%string, isoformat stamped) ]) ;;;
         download_url <- generate_presigned_url EVIDENCE_BUCKET_NAME report_key 3600 ;;
         generated <- utcnow ;;
         ret (PDict [ (PStr "report_key", PStr report_key);
                      (PStr "download_url", PStr download_url);
                      (PStr "format", PStr format);
                      (PStr "generated_at", PStr (isoformat generated));
                      (PStr "total_audit_logs", PInt (len audit_logs));
                      (PStr "total_findings", PInt (len control_results)) ]))
        (fun e =>
           generated <- utcnow ;;
           ret (PDict [ (PStr "report_key", PStr report_key);
                        (PStr "download_url", PNone);
                        (PStr "format", PStr format);
                        (PStr "generated_at", PStr (isoformat generated));
                        (PStr "total_audit_logs", PInt (len audit_logs));
                        (PStr "total_findings", PInt (len control_results));
                        (PStr "message",
                          PStr "Report generated successfully (S3 upload unavailable in demo mode)") ]))
  end.

(** [json.dumps(evidence_data).encode('utf-8')] of [store_evidence]; it
    raises on a value that has no JSON form. *)
Variable json_dumps_plain : pyval -> outcome (list ascii).

Definition store_evidence (control_result_id : Z) (evidence_data : pyval) : M string :=
  keyed <- utcnow ;;
  let evidence_key :=
    "evidence/" +++ str_int control_result_id +++ "/" +++ strftime keyed +++ ".json" in
  try_except
    (match json_dumps_plain evidence_data with
     | Raise e => raise e
     | Ok body =>
         put_object EVIDENCE_BUCKET_NAME evidence_key
           (mkObject body "application/json" "AES256" []) ;;;
         ret evidence_key
     end)
    (fun e => raise e).

End Engine.
End EvidenceEngine.

(** ** Shipped controls ([controls/aws_controls.py])

    The provider-side state is the inventory the boto3 calls answer from: a
    dictionary with the bucket list under ["Buckets"]; an entry ["s3_error"]
    makes every S3 call raise a [ClientError] with that message. *)

Definition ClientError (msg : string) : exn := mkExn "ClientError" msg.

Definition s3_failure (c : pyval) : option exn :=
  match py_get "s3_error" c with
  | Some (PStr msg) => Some (ClientError msg)
  | _ => None
  end.

(** [AWSClient.list_buckets]: [response.get('Buckets', [])]. *)
Definition list_buckets (c : pyval) : outcome (list pyval) :=
  match s3_failure c with
  | Some e => Raise e
  | None =>
      match py_get "Buckets" c with
      | Some (PList bs) => Ok bs
      | _ => Ok []
      end
  end.

Definition bucket_named (nm : pyval) (b : pyval) : bool :=
  match nm, py_get "Name" b with
  | PStr n, Some (PStr n') => String.eqb n n'
  | _, _ => false
  end.

Definition find_bucket (nm : pyval) (c : pyval) : option pyval :=
  match py_get "Buckets" c with
  | Some (PList bs) => find (bucket_named nm) bs
  | _ => None
  end.

(** [AWSClient.get_public_access_block]: [None] when the bucket has no
    configuration, any other client error is raised again. *)
Definition get_public_access_block (nm : pyval) (c : pyval) : outcome pyval :=
  match s3_failure c with
  | Some e => Raise e
  | None =>
      match find_bucket nm c with
      | None => Raise (ClientError "NoSuchBucket")
      | Some b =>
          match py_get "PublicAccessBlockConfiguration" b with
          | Some cfg => Ok (PDict [(PStr "PublicAccessBlockConfiguration", cfg)])
          | None => Ok PNone
          end
      end
  end.

(** [AWSClient.get_bucket_encryption], in the same way. *)
Definition get_bucket_encryption (nm : pyval) (c : pyval) : outcome pyval :=
  match s3_failure c with
  | Some e => Raise e
  | None =>
      match find_bucket nm c with
      | None => Raise (ClientError "NoSuchBucket")
      | Some b =>
          match py_get "ServerSideEncryptionConfiguration" b with
          | Some cfg => Ok (PDict [(PStr "ServerSideEncryptionConfiguration", cfg)])
          | None => Ok PNone
          end
      end
  end.

(** A bucket-level [put_*] call of the S3 client: it sets one attribute of
    the named bucket. *)
Definition put_bucket_attribute (attr : string) (nm : pyval) (v : pyval) (c : pyval)
  : outcome unit * pyval :=
  match s3_failure c with
  | Some e => (Raise e, c)
  | None =>
      match find_bucket nm c, c with
      | Some _, PDict kvs =>
          match dict_get "Buckets" kvs with
          | Some (PList bs) =>
              (Ok tt,
               PDict (dict_set "Buckets"
                        (PList (map (fun b =>
                                       match b with
                                       | PDict bkvs =>
                                           if bucket_named nm b
                                           then PDict (dict_set attr v bkvs) else b
                                       | _ => b
                                       end) bs)) kvs))
          | _ => (Raise (ClientError "NoSuchBucket"), c)
          end
      | _, _ => (Raise (ClientError "NoSuchBucket"), c)
      end
  end.

(** [b['Name']]. *)
Definition item (k : string) (v : pyval) : outcome pyval := subscript v k.

(** [x.get(k)] with [None] for a missing key. *)
Definition get_or_none (k : string) (v : pyval) : pyval :=
  match py_get k v with
  | Some x => x
  | None => PNone
  end.

(** [f"arn:aws:s3:::{b['Name']}"]. *)
Definition str_of (v : pyval) : string :=
  match v with
  | PStr s => s
  | PInt n => str_int n
  | PNone => "None"
  | PBool true => "True"
  | PBool false => "False"
  | _ => "<object>"
  end.

Definition bucket_finding (nm : pyval) (risk : string) : ControlFinding.t :=
  ControlFinding.mk "FAIL" ("arn:aws:s3:::" +++ str_of nm) "S3::Bucket"
    (PDict [(PStr "bucket", nm)]) (PDict [(PStr "bucket", nm)]) true risk.

Module S3PublicAccessControl.

(** The test of the [if] in [detect]. *)
Definition open_to_public (pub : pyval) : bool :=
  negb (truthy pub)
  || negb (forallb (fun k =>
                      truthy (get_or_none k
                                (match py_get "PublicAccessBlockConfiguration" pub with
                                 | Some cfg => cfg
                                 | None => PDict []
                                 end)))
             ["BlockPublicAcls"%string; "BlockPublicPolicy"%string]).

Fixpoint detect_buckets (bs : list pyval) (c : pyval) : outcome (list ControlFinding.t) :=
  match bs with
  | [] => Ok []
  | b :: rest =>
      match item "Name" b with
      | Raise e => Raise e
      | Ok nm =>
          match get_public_access_block nm c with
          | Raise e => Raise e
          | Ok pub =>
              match detect_buckets rest c with
              | Raise e => Raise e
              | Ok findings =>
                  Ok (if open_to_public pub
                      then bucket_finding nm "high" :: findings else findings)
              end
          end
      end
  end.

(** [detect] starts with [self.client.list_buckets()]; a control built with
    [client=None] has no such method to call. *)
Definition detect (client : option AWSClient) (c : pyval)
  : outcome (list ControlFinding.t) :=
  match client with
  | None =>
      Raise (AttributeError "'NoneType' object has no attribute 'list_buckets'")
  | Some _ =>
      match list_buckets c with
      | Raise e => Raise e
      | Ok bs => detect_buckets bs c
      end
  end.

(** A dry run answers before anything is called.  Otherwise
    [self.client.get_client('s3')] is evaluated first, then the arguments of
    the call, [finding.evidence['bucket']] among them, and whatever is
    raised inside the [try] becomes a failed result. *)
Definition remediate (client : option AWSClient) (finding : Finding.t) (dry_run : bool)
  (c : pyval) : outcome RemediationResult.t * pyval :=
  let done :=
    RemediationResult.mk true (of_opt_str (Finding.resource_id finding))
      (Finding.evidence finding) (PDict [(PStr "blocked", PBool true)])
      (Finding.evidence finding) None in
  let failed (e : exn) :=
    RemediationResult.mk false (of_opt_str (Finding.resource_id finding))
      (Finding.evidence finding) PNone PNone (Some (exc_str e)) in
  if dry_run then (Ok done, c)
  else
    match client with
    | None =>
        (Ok (failed (AttributeError
                       "'NoneType' object has no attribute 'get_client'")), c)
    | Some _ =>
        match item "bucket" (Finding.evidence finding) with
        | Raise e => (Ok (failed e), c)
        | Ok nm =>
            match put_bucket_attribute "PublicAccessBlockConfiguration" nm
                    (PDict [ (PStr "BlockPublicAcls", PBool true);
                             (PStr "BlockPublicPolicy", PBool true);
                             (PStr "IgnorePublicAcls", PBool true);
                             (PStr "RestrictPublicBuckets", PBool true) ]) c with
            | (Ok _, c') => (Ok done, c')
            | (Raise e, c') => (Ok (failed e), c')
            end
        end
    end.

Definition control : Control :=
  mkControl "AWS-S3-001" "Block Public Access" "S3 buckets must block public access"
    "critical" "Storage"
    (PDict [ (PStr "ISO27001", PList [PStr "A.13.1.3"]);
             (PStr "GDPR", PList [PStr "Art.32"]) ])
    detect remediate BaseControl_rollback.

End S3PublicAccessControl.

Module S3EncryptionControl.

Fixpoint detect_buckets (bs : list pyval) (c : pyval) : outcome (list ControlFinding.t) :=
  match bs with
  | [] => Ok []
  | b :: rest =>
      match item "Name" b with
      | Raise e => Raise e
      | Ok nm =>
          match get_bucket_encryption nm c with
          | Raise e => Raise e
          | Ok enc =>
              match detect_buckets rest c with
              | Raise e => Raise e
              | Ok findings =>
                  Ok (if negb (truthy enc)
                      then bucket_finding nm "low" :: findings else findings)
              end
          end
      end
  end.

(** [detect] starts with [self.client.list_buckets()]; a control built with
    [client=None] has no such method to call. *)
Definition detect (client : option AWSClient) (c : pyval)
  : outcome (list ControlFinding.t) :=
  match client with
  | None =>
      Raise (AttributeError "'NoneType' object has no attribute 'list_buckets'")
  | Some _ =>
      match list_buckets c with
      | Raise e => Raise e
      | Ok bs => detect_buckets bs c
      end
  end.

(** As for the public access block: the client first, then the arguments. *)
Definition remediate (client : option AWSClient) (finding : Finding.t) (dry_run : bool)
  (c : pyval) : outcome RemediationResult.t * pyval :=
  let done :=
    RemediationResult.mk true (of_opt_str (Finding.resource_id finding))
      (Finding.evidence finding) (PDict [(PStr "enc", PBool true)])
      (Finding.evidence finding) None in
  let failed (e : exn) :=
    RemediationResult.mk false (of_opt_str (Finding.resource_id finding))
      (Finding.evidence finding) PNone PNone (Some (exc_str e)) in
  if dry_run then (Ok done, c)
  else
    match client with
    | None =>
        (Ok (failed (AttributeError
                       "'NoneType' object has no attribute 'get_client'")), c)
    | Some _ =>
        match item "bucket" (Finding.evidence finding) with
        | Raise e => (Ok (failed e), c)
        | Ok nm =>
            match put_bucket_attribute "ServerSideEncryptionConfiguration" nm
                    (PDict [ (PStr "Rules",
                               PList [ PDict [ (PStr "ApplyServerSideEncryptionByDefault",
                                                 PDict [(PStr "SSEAlgorithm", PStr "AES256")]) ] ]) ])
                    c with
            | (Ok _, c') => (Ok done, c')
            | (Raise e, c') => (Ok (failed e), c')
            end
        end
    end.

Definition control : Control :=
  mkControl "AWS-S3-002" "S3 Encryption" "S3 must have default encryption"
    "high" "Encryption"
    (PDict [ (PStr "ISO27001", PList [PStr "A.10.1.1"]);
             (PStr "SOC2", PList [PStr "CC6.1"]) ])
    detect remediate BaseControl_rollback.

End S3EncryptionControl.

(** ** Requests and what the audit trail is checked against *)

(** The three operations of the core that write to the database. *)
Inductive Request : Type :=
| StartScan (account_id : Z) (control_ids : option (list string))
| Remediate (finding_id : Z) (dry_run : bool) (approved_by : option string)
| Rollback (finding_id : Z) (actor : string).

Definition serve (AWS_CONTROLS : list Control)
  (ClientSecretCredential : pyval -> pyval -> pyval -> option exn)
  (rq : Request) : M pyval :=
  match rq with
  | StartScan account_id control_ids =>
      DetectionEngine.scan_account AWS_CONTROLS ClientSecretCredential account_id
        control_ids
  | Remediate finding_id dry_run approved_by =>
      RemediationEngine.remediate_finding AWS_CONTROLS finding_id dry_run approved_by
  | Rollback finding_id actor =>
      RemediationEngine.rollback_remediation AWS_CONTROLS finding_id actor
  end.

(** Requests served one after the other; a request that raises leaves the
    world it reached. *)
Fixpoint serve_all (AWS_CONTROLS : list Control)
  (ClientSecretCredential : pyval -> pyval -> pyval -> option exn)
  (rqs : list Request) (w : World) : World :=
  match rqs with
  | [] => w
  | rq :: rest =>
      serve_all AWS_CONTROLS ClientSecretCredential rest
        (snd (serve AWS_CONTROLS ClientSecretCredential rq w))
  end.

(** The audit rows of one organization in [(timestamp, id)] order. *)
Definition log_before (a b : AuditLog.t) : bool :=
  (AuditLog.timestamp a <? AuditLog.timestamp b)
  || ((AuditLog.timestamp a =? AuditLog.timestamp b)
      && (AuditLog.id a <=? AuditLog.id b)).

Fixpoint insert_log (l : AuditLog.t) (sorted : list AuditLog.t) : list AuditLog.t :=
  match sorted with
  | [] => [l]
  | x :: rest => if log_before l x then l :: x :: rest else x :: insert_log l rest
  end.

Definition organization_chain (organization_id : Z) (logs : list AuditLog.t)
  : list AuditLog.t :=
  fold_right insert_log []
    (filter (fun l => opt_int_eqb (AuditLog.organization_id l) (Some organization_id))
       logs).

(** A log the system wrote: the audit table after some requests, started
    from a database whose audit table was empty. *)
Definition written_by_system (AWS_CONTROLS : list Control)
  (ClientSecretCredential : pyval -> pyval -> pyval -> option exn)
  (logs : list AuditLog.t) : Prop :=
  exists (w0 : World) (rqs : list Request),
    audit_logs (session w0) = []
    /\ logs = audit_logs
                (committed (serve_all AWS_CONTROLS ClientSecretCredential rqs w0)).

(** The hash chain in the spec's words.  [prev_hash] and [hash] read the two
    hash fields out of a stored entry, [H] is the chaining function over the
    previous hash and the entry's fields.  Replaying a chain reproduces each
    stored hash: every entry's [hash] is [H] of its [prev_hash] and its
    fields, and its [prev_hash] is the [hash] of the entry before it. *)
Definition chain_replays (prev_hash hash : AuditLog.t -> string)
  (H : string -> AuditLog.t -> string) (chain : list AuditLog.t) : Prop :=
  (forall e, In e chain -> hash e = H (prev_hash e) e)
  /\ (forall pre e1 e2 post,
        chain = pre ++ e1 :: e2 :: post -> prev_hash e2 = hash e1).

(** [H] tells any two inputs apart, which is what lets a replay detect a
    modified or inserted entry. *)
Definition detects_changes (H : string -> AuditLog.t -> string) : Prop :=
  forall p e p' e', H p e = H p' e' -> p = p' /\ e = e'.

(** The stored log is tamper-evident: some reading of hash fields out of
    the stored entries replays on every chain the system writes. *)
Definition tamper_evident (AWS_CONTROLS : list Control)
  (ClientSecretCredential : pyval -> pyval -> pyval -> option exn) : Prop :=
  exists (prev_hash hash : AuditLog.t -> string) (H : string -> AuditLog.t -> string),
    detects_changes H
    /\ forall logs organization_id,
         written_by_system AWS_CONTROLS ClientSecretCredential logs ->
         chain_replays prev_hash hash H (organization_chain organization_id logs).

(** What the audit table does guarantee: rows in write order, each with a
    larger id than the rows before it. *)
Fixpoint ids_increase (logs : list AuditLog.t) : Prop :=
  match logs with
  | [] => True
  | l :: rest =>
      (forall l', In l' rest -> AuditLog.id l < AuditLog.id l')
      /\ ids_increase rest
  end.

(** The compliance score in the spec's words:
    [(PASS + FIXED) / (PASS + FAIL + FIXED)]. *)
Definition status_count (s : string) (rows : list ControlResult.t) : Z :=
  len (filter (fun r => String.eqb (ControlResult.status r) s) rows).

Definition spec_score (rows : list ControlResult.t) : float :=
  PrimFloat.div
    (float_of_int (status_count "PASS" rows + status_count "FIXED" rows))
    (float_of_int (status_count "PASS" rows + status_count "FAIL" rows
                   + status_count "FIXED" rows)).

(** Rows whose status is none of PASS, FAIL, FIXED (ERROR and MANUAL among
    them). *)
Definition other_count (rows : list ControlResult.t) : Z :=
  len (filter (fun r =>
                 negb (String.eqb (ControlResult.status r) "PASS"
                       || String.eqb (ControlResult.status r) "FAIL"
                       || String.eqb (ControlResult.status r) "FIXED"))
         rows).

(** ** Relations between the world before and after a step *)

(** Every run of the step [m] takes a world to one related to it by [R]. *)
Definition keeps (R : World -> World -> Prop) {A : Type} (m : M A) : Prop :=
  forall w, R w (snd (m w)).

(** The step only added calls to the trace. *)
Definition trace_extends (w w' : World) : Prop :=
  exists tr, trace w' = trace w ++ tr.

(** The step only appended audit rows, in the order of their ids, and each
    of them has a larger id than every row the table held before. *)
Definition log_grows (w w' : World) : Prop :=
  exists new : list AuditLog.t,
    audit_logs (session w') = audit_logs (session w) ++ new
    /\ ids_increase new
    /\ forall l l', In l (audit_logs (session w)) -> In l' new ->
         AuditLog.id l < AuditLog.id l'.

(** The controls whose [detect] was called, in the order of the calls. *)
Fixpoint detect_calls (tr : list Event) : list string :=
  match tr with
  | [] => []
  | EvDetect control_id :: rest => control_id :: detect_calls rest
  | _ :: rest => detect_calls rest
  end.

(** The step added calls to the trace, and [ids] are the controls whose
    [detect] it called, in that order. *)
Definition calls_detect (ids : list string) (w w' : World) : Prop :=
  exists tr : list Event, trace w' = trace w ++ tr /\ detect_calls tr = ids.

(** A step that always answers, whatever the world. *)
Definition always_answers {A : Type} (m : M A) : Prop :=
  forall w, exists a, fst (m w) = Ok a.

(** The step left the account rows of the session as they were. *)
Definition same_accounts (w w' : World) : Prop :=
  cloud_accounts (session w') = cloud_accounts (session w).

(** ** Concrete worlds for the examples

    Besides the two shipped S3 controls, two plug-in controls of the kind
    the [BaseControl] interface admits: one that overrides [rollback] (no
    shipped control does), and one whose [detect] raises an exception that
    carries no message, as [raise TimeoutError()] does. *)

Definition reversible_remediate (client : option AWSClient) (finding : Finding.t)
  (dry_run : bool) (c : pyval) : outcome RemediationResult.t * pyval :=
  (Ok (RemediationResult.mk true (of_opt_str (Finding.resource_id finding))
         (Finding.evidence finding) (PDict [(PStr "fixed", PBool true)])
         (PDict [(PStr "restore", Finding.evidence finding)]) None),
   if dry_run then c else PDict [(PStr "fixed", PBool true)]).

Definition reversible_rollback (client : option AWSClient) (rollback_data : pyval)
  (c : pyval) : outcome RemediationResult.t * pyval :=
  (Ok (RemediationResult.mk true (PStr "res-1") (PDict [(PStr "fixed", PBool true)])
         (get_or_none "restore" rollback_data) PNone None),
   PDict [(PStr "fixed", PBool false)]).

Definition reversible_control : Control :=
  mkControl "TEST-REV-001" "Reversible" "A control with a rollback" "low" "Testing"
    (PDict []) (fun _ _ => Ok []) reversible_remediate reversible_rollback.

Definition silent_failure_control : Control :=
  mkControl "TEST-ERR-001" "Times out" "A control whose detect raises" "low" "Testing"
    (PDict []) (fun _ _ => Raise (mkExn "TimeoutError" ""))
    BaseControl_remediate BaseControl_rollback.

Definition denied_control : Control :=
  mkControl "TEST-ERR-002" "Access denied" "A control whose detect raises" "high"
    "Testing" (PDict []) (fun _ _ => Raise (ClientError "AccessDenied"))
    BaseControl_remediate BaseControl_rollback.

Definition demo_controls : list Control :=
  [ S3PublicAccessControl.control; S3EncryptionControl.control;
    reversible_control; silent_failure_control; denied_control ].

(** The Azure credential constructor of the examples builds its object. *)
Definition demo_credential (tenant_id client_id client_secret : pyval) : option exn :=
  None.

Definition demo_organization : Organization.t :=
  Organization.mk 1 "Demo Organization" (Some "Technology"%string)
    (PList [PStr "ISO27001"; PStr "SOC2"]) (Some "compliance@demo.com"%string)
    (Some true) (PDict []) (Some 1) None.

Definition demo_account (last_scan_status : option string) : CloudAccount.t :=
  CloudAccount.mk 1 1 "Test AWS Account" "aws" "123456789012"
    (Some "us-east-1"%string)
    (PDict [(PStr "role_arn", PStr "arn:aws:iam::123456789012:role/TestRole")])
    (Some true) None last_scan_status (PDict []) (Some 2) None.

(** One bucket, [b1], with no public access block and no encryption. *)
Definition cloud_open : pyval :=
  PDict [(PStr "Buckets", PList [PDict [(PStr "Name", PStr "b1")]])].

(** The same bucket with public access blocked. *)
Definition cloud_blocked : pyval :=
  PDict [(PStr "Buckets",
           PList [PDict [ (PStr "Name", PStr "b1");
                          (PStr "PublicAccessBlockConfiguration",
                            PDict [ (PStr "BlockPublicAcls", PBool true);
                                    (PStr "BlockPublicPolicy", PBool true) ]) ]])].

Definition store_up : ObjectStore := mkStore None None [].

Definition store_down : ObjectStore :=
  mkStore (Some (mkExn "EndpointConnectionError" "Could not connect to the endpoint URL"))
    None [].

(** The database server of the examples.  Its clock is coarse: every row an
    example writes is stamped with the same time.  Of two audit rows with
    the same timestamp, a query returns the one with the larger id first. *)
Definition coarse_now (t : Z) : Z := 100.

Definition newest_id_first (a b : AuditLog.t) : bool :=
  AuditLog.id b <? AuditLog.id a.

Definition demo_db (last_scan_status : option string) (rows : list ControlResult.t) : DB :=
  mkDB [demo_organization] [demo_account last_scan_status] rows []
    coarse_now newest_id_first.

Definition demo_world (c : pyval) (s : ObjectStore) (d : DB) : World :=
  mkWorld d d c s 100 0 [].

(** A finding row as [_save_result] writes it, with the given status and
    remediation columns. *)
Definition demo_finding (rid : Z) (cid status : string) (remediation_details : pyval)
  (rollback_data : pyval) : ControlResult.t :=
  ControlResult.mk rid 1 cid status (Some "critical"%string)
    (Some "arn:aws:s3:::b1"%string) (Some "S3::Bucket"%string)
    (PDict [(PStr "bucket", PStr "b1")]) (PDict [(PStr "bucket", PStr "b1")])
    PNone None None None None remediation_details rollback_data
    (Some "uuid-0"%string) (Some 50) None (PDict []).

(** A row with nothing but a status, for the score examples. *)
Definition status_row (rid : Z) (status : string) : ControlResult.t :=
  demo_finding rid "AWS-S3-001" status (PDict []) PNone.

Definition scan_demo (rq_controls : option (list string)) : M pyval :=
  DetectionEngine.scan_account demo_controls demo_credential 1 rq_controls.

Definition pdf_stub (o : Organization.t) (logs : list AuditLog.t)
  (rows : list ControlResult.t) (s e : option Z) (generated : Z)
  : outcome (list ascii) :=
  Ok ["%"%char; "P"%char; "D"%char; "F"%char].

Definition json_stub (report : pyval) : list ascii := ["{"%char; "}"%char].

Definition url_stub (Bucket Key : string) (ExpiresIn : Z) : string :=
  "https://" +++ Bucket +++ ".s3.amazonaws.com/" +++ Key.

Definition export_demo (format : string) : M pyval :=
  EvidenceEngine.export_audit_report "compliance-evidence-bucket" pdf_stub json_stub
    url_stub 1 None None format.

(** The rows of the score examples: one PASS finding and one ERROR finding. *)
Definition score_rows : list ControlResult.t :=
  [status_row 1 "PASS"; status_row 2 "ERROR"].

Definition score_world : World :=
  demo_world cloud_open store_up (demo_db None score_rows).

(** The finding of the remediation examples: bucket [b1] fails the public
    access control. *)
Definition open_finding : ControlResult.t :=
  demo_finding 1 "AWS-S3-001" "FAIL" (PDict []) PNone.

Definition open_world : World :=
  demo_world cloud_open store_up (demo_db None [open_finding]).

(** A finding of the reversible plug-in control, before remediation, after
    an approved remediation, and after its rollback. *)
Definition reversible_finding : ControlResult.t :=
  demo_finding 1 "TEST-REV-001" "FAIL" (PDict []) PNone.

Definition reversible_world : World :=
  demo_world cloud_open store_up (demo_db None [reversible_finding]).

Definition remediated_world : World :=
  Eval vm_compute in
    snd (RemediationEngine.remediate_finding demo_controls 1 false
           (Some "a@x"%string) reversible_world).

Definition rolled_back_world : World :=
  Eval vm_compute in
    snd (RemediationEngine.rollback_remediation demo_controls 1 "a@x" remediated_world).

(** The public access finding after an approved, executed remediation. *)
Definition fixed_world : World :=
  Eval vm_compute in
    snd (RemediationEngine.remediate_finding demo_controls 1 false
           (Some "a@x"%string) open_world).

(** What a call answered, [None] when it raised. *)
Definition answer (res : outcome pyval * World) : pyval :=
  match fst res with
  | Ok r => r
  | Raise _ => PNone
  end.

Definition fixed_answer : pyval :=
  Eval vm_compute in
    answer (RemediationEngine.remediate_finding demo_controls 1 false
              (Some "a@x"%string) open_world).

Definition rolled_back_answer : pyval :=
  Eval vm_compute in
    answer (RemediationEngine.rollback_remediation demo_controls 1 "a@x"
              remediated_world).

(** A scan of the two plug-in controls whose [detect] raises, and an export
    while the object store is down. *)
Definition failing_scan_world : World :=
  demo_world cloud_open store_up (demo_db None []).

Definition failing_scan : outcome pyval * World :=
  Eval vm_compute in
    scan_demo (Some ["TEST-ERR-001"%string; "TEST-ERR-002"%string]) failing_scan_world.

Definition export_down_world : World :=
  demo_world cloud_open store_down (demo_db None [open_finding]).

Definition export_down : outcome pyval * World :=
  Eval vm_compute in export_demo "json" export_down_world.

(** Does a Python value hold the bytes [data] anywhere inside it? *)
Fixpoint holds_bytes (data : list ascii) (v : pyval) : bool :=
  match v with
  | PBytes bs => if list_eq_dec Ascii.ascii_dec bs data then true else false
  | PList xs => existsb (holds_bytes data) xs
  | PDict kvs =>
      existsb (fun kv => holds_bytes data (fst kv) || holds_bytes data (snd kv)) kvs
  | _ => false
  end.

(** An account whose last scan is still marked as in progress, and a scan
    request for it. *)
Definition busy_world : World :=
  demo_world cloud_open store_up (demo_db (Some "in_progress"%string) []).

Definition busy_scan : outcome pyval * World :=
  Eval vm_compute in scan_demo (Some ["AWS-S3-001"%string]) busy_world.

(** Two histories of the same organization: the public access control is
    scanned first, on an open bucket in one history and on a blocked bucket
    in the other; the encryption control is scanned second. *)
Definition two_scans : list Request :=
  [ StartScan 1 (Some ["AWS-S3-001"%string]);
    StartScan 1 (Some ["AWS-S3-002"%string]) ].

Definition history (c : pyval) : list AuditLog.t :=
  audit_logs
    (committed (serve_all demo_controls demo_credential two_scans
                  (demo_world c store_up (demo_db None [])))).

Definition chain_open : list AuditLog.t :=
  Eval vm_compute in organization_chain 1 (history cloud_open).

Definition chain_blocked : list AuditLog.t :=
  Eval vm_compute in organization_chain 1 (history cloud_blocked).

(** ** What a scan writes *)

(** A finding row as the scan of [account_id] under [scan_id] writes it:
    not remediated, not resolved. *)
Definition written_by_scan (account_id : Z) (scan_id : string) (row : ControlResult.t)
  : Prop :=
  ControlResult.cloud_account_id row = account_id
  /\ ControlResult.scan_id row = Some scan_id
  /\ ControlResult.remediation_status row = None
  /\ ControlResult.remediation_approved_by row = None
  /\ ControlResult.rollback_data row = PNone
  /\ ControlResult.evidence_after row = PNone
  /\ ControlResult.resolved_at row = None
  /\ ControlResult.result_metadata row = PDict [].

(** The audit entry that goes with a finding row. *)
Definition detection_entry (account_id : Z) (e : AuditLog.t) : Prop :=
  AuditLog.event_type e = "detection"%string
  /\ AuditLog.actor e = Some "system"%string
  /\ AuditLog.cloud_account_id e = Some account_id
  /\ AuditLog.organization_id e = None
  /\ AuditLog.success e = Some "success"%string.

(** The step appended the finding rows [rows] and the audit entries
    [entries], one entry per row, and touched no other table. *)
Definition scan_adds (account_id : Z) (scan_id : string) (rows : list ControlResult.t)
  (entries : list AuditLog.t) (w w' : World) : Prop :=
  control_results (session w') = control_results (session w) ++ rows
  /\ audit_logs (session w') = audit_logs (session w) ++ entries
  /\ cloud_accounts (session w') = cloud_accounts (session w)
  /\ organizations (session w') = organizations (session w)
  /\ List.length entries = List.length rows
  /\ Forall (written_by_scan account_id scan_id) rows
  /\ Forall (detection_entry account_id) entries.

(** ** Accounts of other providers *)

(** An Azure account with the given credentials, an account of a provider
    the engine does not know, and a database with one account of each
    provider. *)
Definition azure_account (credentials : pyval) : CloudAccount.t :=
  CloudAccount.mk 2 1 "Test Azure Account" "azure" "sub-0001"
    (Some "westeurope"%string) credentials (Some true) None None (PDict []) (Some 2) None.

Definition gcp_account : CloudAccount.t :=
  CloudAccount.mk 3 1 "Test GCP Account" "gcp" "project-0001" None (PDict [])
    (Some true) None None (PDict []) (Some 2) None.

Definition azure_credentials : pyval :=
  PDict [ (PStr "tenant_id", PStr "t-1"); (PStr "client_id", PStr "c-1");
          (PStr "client_secret", PStr "s-1") ].

Definition providers_world (credentials : pyval) : World :=
  demo_world cloud_open store_up
    (mkDB [demo_organization]
       [demo_account None; azure_account credentials; gcp_account] [] []
       coarse_now newest_id_first).

(** ** The remediation endpoints ([main.py])

    The two endpoints that reach the remediation engine, after the
    authentication dependency has produced the current user. *)

Module RemediationRequest.
Record t : Type := mk {
  finding_id : Z;
  dry_run : bool;
  approved_by : option string
}.
End RemediationRequest.

(** [a or b] for an [Optional[str]] and a [str]. *)
Definition or_else (a : option string) (b : string) : option string :=
  if truthy_str a then a else Some b.

Module Api.

(** [POST /api/v1/remediations]. *)
Definition remediate_finding (AWS_CONTROLS : list Control)
  (remediation_request : RemediationRequest.t) (current_user_email : string) : M pyval :=
  RemediationEngine.remediate_finding AWS_CONTROLS
    (RemediationRequest.finding_id remediation_request)
    (RemediationRequest.dry_run remediation_request)
    (or_else (RemediationRequest.approved_by remediation_request) current_user_email).

(** [POST /api/v1/remediations/{finding_id}/rollback]. *)
Definition rollback_remediation (AWS_CONTROLS : list Control) (finding_id : Z)
  (current_user_email : string) : M pyval :=
  RemediationEngine.rollback_remediation AWS_CONTROLS finding_id current_user_email.

(** [GET /api/v1/findings]: the entry built for one row [f],
    [f.result_metadata.get('can_auto_remediate', False)
     if f.result_metadata else False] first. *)
Definition can_remediate (f : ControlResult.t) : outcome pyval :=
  if truthy (ControlResult.result_metadata f) then
    match ControlResult.result_metadata f with
    | PDict kvs =>
        Ok (match dict_get "can_auto_remediate" kvs with
            | Some v => v
            | None => PBool false
            end)
    | _ => Raise (AttributeError "object has no attribute 'get'")
    end
  else Ok (PBool false).

Definition finding_view (f : ControlResult.t) : outcome pyval :=
  match can_remediate f with
  | Raise e => Raise e
  | Ok flag =>
      Ok (PDict [ (PStr "id", PInt (ControlResult.id f));
                  (PStr "control_id", PStr (ControlResult.control_id f));
                  (PStr "status", PStr (ControlResult.status f));
                  (PStr "severity", of_opt_str (ControlResult.risk_level f));
                  (PStr "resource_id", of_opt_str (ControlResult.resource_id f));
                  (PStr "resource_type", of_opt_str (ControlResult.resource_type f));
                  (PStr "finding_details", ControlResult.finding_details f);
                  (PStr "detected_at",
                    match ControlResult.detected_at f with
                    | Some t => PStr (isoformat t)
                    | None => PNone
                    end);
                  (PStr "can_remediate", flag) ])
  end.

End Api.

(** ** What a remediation may touch *)

(** The step changed no finding row but [finding_id]'s, added and removed
    none, and left the accounts and the organizations alone. *)
Definition only_finding_changes (finding_id : Z) (w w' : World) : Prop :=
  cloud_accounts (session w') = cloud_accounts (session w)
  /\ organizations (session w') = organizations (session w)
  /\ map ControlResult.id (control_results (session w'))
     = map ControlResult.id (control_results (session w))
  /\ forall j, j <> finding_id ->
       get_finding j (session w') = get_finding j (session w).

(** The rows left by the scan of the two controls that raise: two ERROR
    findings of controls that inherit [remediate] from [BaseControl]. *)
Definition failed_scan_world : World := Eval vm_compute in snd failing_scan.

(** A plug-in control whose [remediate] raises after it changed the
    provider, and a finding of it. *)
Definition half_done_control : Control :=
  mkControl "TEST-RAISE-001" "Gives up" "A control whose remediate raises" "low"
    "Testing" (PDict []) (fun _ _ => Ok [])
    (fun _ _ dry_run c =>
       (Raise (ClientError "Throttling"),
        if dry_run then c else PDict [(PStr "half", PBool true)]))
    BaseControl_rollback.

Definition half_done_world : World :=
  demo_world cloud_open store_up
    (demo_db None [demo_finding 1 "TEST-RAISE-001" "FAIL" (PDict []) PNone]).

(** An object store that takes uploads but cannot sign URLs, and a PDF
    builder that fails. *)
Definition store_unsigned : ObjectStore :=
  mkStore None (Some (mkExn "NoCredentialsError" "Unable to locate credentials")) [].

Definition pdf_broken (o : Organization.t) (logs : list AuditLog.t)
  (rows : list ControlResult.t) (s e : option Z) (generated : Z)
  : outcome (list ascii) :=
  Raise (mkExn "LayoutError" "Flowable too large").

Definition unsigned_world : World :=
  demo_world cloud_open store_unsigned (demo_db None [open_finding]).

(** ** The S3 inventory after a [put_*] call *)

(** The bucket entry [b] once attribute [attr] of the buckets named [nm] has
    been set to [v], as [put_bucket_attribute] rewrites it. *)
Definition with_attribute (attr : string) (nm v b : pyval) : pyval :=
  match b with
  | PDict bkvs => if bucket_named nm b then PDict (dict_set attr v bkvs) else b
  | _ => b
  end.

(** A finding of another bucket than [n]. *)
Definition of_other_bucket (n : string) (f : ControlFinding.t) : bool :=
  negb (String.eqb (ControlFinding.resource_id f) ("arn:aws:s3:::" +++ n)).

(** ** The row of an executed remediation *)

(** The columns an executed remediation writes, in the order of the
    assignments. *)
Definition mark_fixed (approved_by : option string) (result : RemediationResult.t)
  (executed_at resolved_at : Z) (r : ControlResult.t) : ControlResult.t :=
  ControlResult.set_resolved_at (Some resolved_at)
    (ControlResult.set_rollback_data (RemediationResult.rollback_data result)
       (ControlResult.set_evidence_after (RemediationResult.after_state result)
          (ControlResult.set_remediation_executed_at (Some executed_at)
             (ControlResult.set_remediation_approved_by approved_by
                (ControlResult.set_remediation_status (Some "executed"%string)
                   (ControlResult.set_status "FIXED" r)))))).

(** Is the finding [r] in the scope of a score asked for [account_id] and
    [organization_id], with the accounts [accounts]? *)
Definition in_scope (account_id organization_id : option Z)
  (accounts : list CloudAccount.t) (r : ControlResult.t) : bool :=
  if truthy_int account_id then
    opt_int_eqb (Some (ControlResult.cloud_account_id r)) account_id
  else if truthy_int organization_id then
    existsb (fun a =>
               (CloudAccount.id a =? ControlResult.cloud_account_id r)
               && opt_int_eqb (Some (CloudAccount.organization_id a)) organization_id)
      accounts
  else true.

(** * Properties *)

(** ** Python values and numbers *)

Example str_int_examples :
  str_int 42 = "42"%string /\ str_int 0 = "0"%string /\ str_int (-7) = "-7"%string.
Proof. repeat split. Qed.

Example round2_examples :
  round2 (PrimFloat.mul (PrimFloat.div 1 3) 100) = 33.33%float
  /\ round2 (PrimFloat.mul (PrimFloat.div 2 3) 100) = 66.67%float
  /\ round2 (PrimFloat.mul (PrimFloat.div 1 2) 100) = 50%float
  /\ round2 2.675%float = 2.67%float
  /\ round2 0.125%float = 0.12%float.
Proof. repeat split. Qed.

Lemma fold_add_shift (xs : list Z) (a : Z) :
  fold_left Z.add xs a = a + fold_left Z.add xs 0.
Proof.
  revert a. induction xs as [| x xs IH]; intro a; simpl.
  - lia.
  - rewrite (IH (a + x)), (IH x). lia.
Qed.

Lemma py_sum_ones {A : Type} (xs : list A) :
  py_sum (map (fun _ => 1) xs) = len xs.
Proof.
  unfold py_sum, len. induction xs as [| x xs IH].
  - reflexivity.
  - cbn [map fold_left List.length]. rewrite fold_add_shift, IH. lia.
Qed.

Lemma count_status_len (s : string) (rows : list ControlResult.t) :
  DetectionEngine.count_status s rows = status_count s rows.
Proof. unfold DetectionEngine.count_status, status_count. apply py_sum_ones. Qed.

Lemma len_cons {A : Type} (x : A) (xs : list A) : len (x :: xs) = 1 + len xs.
Proof. unfold len. cbn [List.length]. lia. Qed.

Lemma len_nonneg {A : Type} (xs : list A) : 0 <= len xs.
Proof. unfold len. lia. Qed.

(** Every row is counted once: as PASS, FAIL, FIXED or as another status. *)
Lemma rows_partition (rows : list ControlResult.t) :
  len rows
  = status_count "PASS" rows + status_count "FAIL" rows
    + status_count "FIXED" rows + other_count rows.
Proof.
  unfold status_count, other_count.
  induction rows as [| r rows IH]; [reflexivity |].
  rewrite len_cons. cbn [filter].
  destruct (String.eqb_spec (ControlResult.status r) "PASS") as [E | _].
  - rewrite E. cbn -[len Z.add]. rewrite !len_cons. lia.
  - destruct (String.eqb_spec (ControlResult.status r) "FAIL") as [E | _].
    + rewrite E. cbn -[len Z.add]. rewrite !len_cons. lia.
    + destruct (String.eqb_spec (ControlResult.status r) "FIXED") as [E | _].
      * cbn -[len Z.add]. rewrite !len_cons. lia.
      * cbn -[len Z.add]. rewrite !len_cons. lia.
Qed.

(** ** Compliance score *)



(** C5, as the code has it: over a non-empty scoped set the score is the
    percentage [100 * (PASS + FIXED) / total] rounded to two decimals, where
    [total] counts every scoped finding; ERROR, MANUAL and any other status
    stay in the denominator. *)
Theorem score_over_all_rows :
  forall (account_id organization_id : option Z) (w : World),
    DetectionEngine.scoped_results account_id organization_id (session w) <> [] ->
    exists r,
      DetectionEngine.get_compliance_score account_id organization_id w = (Ok r, w)
      /\ py_get "score" r
         = Some (PFloat
                   (round2
                      (PrimFloat.mul
                         (PrimFloat.div
                            (float_of_int
                               (status_count "PASS"
                                  (DetectionEngine.scoped_results account_id
                                     organization_id (session w))
                                + status_count "FIXED"
                                    (DetectionEngine.scoped_results account_id
                                       organization_id (session w))))
                            (float_of_int
                               (len (DetectionEngine.scoped_results account_id
                                       organization_id (session w)))))
                         100%float)))
      /\ py_get "total" r
         = Some (PInt (len (DetectionEngine.scoped_results account_id
                              organization_id (session w))))
      /\ len (DetectionEngine.scoped_results account_id organization_id (session w))
         = status_count "PASS"
             (DetectionEngine.scoped_results account_id organization_id (session w))
           + status_count "FAIL"
               (DetectionEngine.scoped_results account_id organization_id (session w))
           + status_count "FIXED"
               (DetectionEngine.scoped_results account_id organization_id (session w))
           + other_count
               (DetectionEngine.scoped_results account_id organization_id (session w)).
Proof.
  intros account_id organization_id w Hrows.
  unfold DetectionEngine.get_compliance_score, bind, gets.
  destruct (DetectionEngine.scoped_results account_id organization_id (session w))
    as [| r0 rows] eqn:E; [contradiction |].
  assert (Hpos : (len (r0 :: rows) >? 0) = true).
  { rewrite len_cons. pose proof (len_nonneg rows). apply Z.gtb_lt. lia. }
  rewrite Hpos. unfold ret. eexists. split; [reflexivity |].
  cbn [py_get dict_get key_is String.eqb Ascii.eqb Bool.eqb].
  rewrite !count_status_len.
  split; [reflexivity |]. split; [reflexivity |].
  apply rows_partition.
Qed.

Lemma score_over_all_rows_witness :
  DetectionEngine.scoped_results None None (session score_world) <> []
  /\ exists r,
       DetectionEngine.get_compliance_score None None score_world = (Ok r, score_world)
       /\ py_get "score" r = Some (PFloat 50%float)
       /\ py_get "total" r = Some (PInt 2).
Proof.
  split; [discriminate |].
  destruct (score_over_all_rows None None score_world) as [r (Hr & Hscore & Htotal & _)];
    [discriminate |].
  exists r. split; [exact Hr |]. split; [exact Hscore | exact Htotal].
Defined.

(** C5, as the spec words it, fails: with one PASS and one ERROR finding
    the spec's ratio is 1, the code answers 50 (percent): the ERROR finding
    is in the denominator. *)
Lemma score_counts_error_rows :
  exists r,
    DetectionEngine.get_compliance_score None None score_world = (Ok r, score_world)
    /\ py_get "score" r = Some (PFloat 50%float)
    /\ spec_score score_rows = 1%float
    /\ py_get "score" r <> Some (PFloat (spec_score score_rows))
    /\ py_get "score" r
       <> Some (PFloat (PrimFloat.mul (spec_score score_rows) 100%float)).
Proof.
  eexists. split; [reflexivity |]. split; [reflexivity |]. split; [reflexivity |].
  split; intro H;
    apply (f_equal (fun v => match v with
                             | Some (PFloat x) => PrimFloat.eqb x 50%float
                             | _ => false
                             end)) in H;
    vm_compute in H; discriminate.
Qed.

(** ** Steps *)

Lemma bind_gets {A B : Type} (f : World -> A) (k : A -> M B) (w : World) :
  bind (gets f) k w = k (f w) w.
Proof. reflexivity. Qed.

Lemma bind_ok_inv {A B : Type} (m : M A) (k : A -> M B) (w w' : World) (b : B) :
  bind m k w = (Ok b, w') ->
  exists a w1, m w = (Ok a, w1) /\ k a w1 = (Ok b, w').
Proof.
  unfold bind. destruct (m w) as [[a | e] w1]; [| discriminate].
  intro H. exists a, w1. split; [reflexivity | exact H].
Qed.

Lemma ret_ok_inv {A : Type} (a b : A) (w w' : World) :
  ret a w = (Ok b, w') -> a = b /\ w = w'.
Proof. unfold ret. intro H. injection H as Ha Hw. split; assumption. Qed.

(** ** Dictionaries and row updates *)

Lemma key_is_refl (k : string) : key_is k (PStr k) = true.
Proof. cbn. apply String.eqb_refl. Qed.

Lemma dict_get_set_same (k : string) (v : pyval) (kvs : list (pyval * pyval)) :
  dict_get k (dict_set k v kvs) = Some v.
Proof.
  induction kvs as [| [key v0] kvs IH]; cbn [dict_set dict_get].
  - rewrite key_is_refl. reflexivity.
  - destruct (key_is k key) eqn:E; cbn [dict_get]; rewrite E; [reflexivity | exact IH].
Qed.

Lemma dict_get_set_other (k k' : string) (v : pyval) (kvs : list (pyval * pyval)) :
  k <> k' -> dict_get k (dict_set k' v kvs) = dict_get k kvs.
Proof.
  intro Hne. induction kvs as [| [key v0] kvs IH]; cbn [dict_set dict_get].
  - cbn [key_is]. destruct (String.eqb_spec k' k) as [E | _]; [congruence | reflexivity].
  - destruct (key_is k' key) eqn:E'; cbn [dict_get].
    + destruct (key_is k key) eqn:E; [| reflexivity].
      destruct key; cbn in E, E'; try discriminate.
      apply String.eqb_eq in E. apply String.eqb_eq in E'. congruence.
    + rewrite IH. reflexivity.
Qed.

(** Writing attributes of the row [finding_id] shows in what a later lookup
    of that row returns, as long as the write keeps the primary key. *)
Lemma find_update (finding_id : Z) (f : ControlResult.t -> ControlResult.t)
  (rows : list ControlResult.t) :
  (forall r, ControlResult.id (f r) = ControlResult.id r) ->
  find (fun r => ControlResult.id r =? finding_id)
    (map (fun r => if ControlResult.id r =? finding_id then f r else r) rows)
  = option_map f (find (fun r => ControlResult.id r =? finding_id) rows).
Proof.
  intro Hid. induction rows as [| r rows IH]; [reflexivity |].
  cbn [map find]. destruct (ControlResult.id r =? finding_id) eqn:E.
  - rewrite Hid, E. reflexivity.
  - rewrite E. exact IH.
Qed.

(** ** Remediation engine *)

(** C8: a dry run that the control reports as successful leaves the table of
    findings as it was (every column of every row), appends exactly one
    [remediation] audit entry whose [event_data] has [dry_run = True], and
    returns the control's projected [after_state]. *)
Theorem dry_run_changes_no_finding :
  forall (AWS_CONTROLS : list Control) (finding_id : Z) (approved_by : option string)
    (w : World) (rec : ControlResult.t) (account : CloudAccount.t) (control : Control)
    (rr : RemediationResult.t) (c' : pyval),
    get_finding finding_id (session w) = Some rec ->
    RemediationEngine.remediable (ControlResult.status rec) = true ->
    get_account (ControlResult.cloud_account_id rec) (session w) = Some account ->
    RemediationEngine.find_control AWS_CONTROLS (ControlResult.control_id rec)
    = Some control ->
    remediate control (RemediationEngine.client_for account)
      (Finding.mk (ControlResult.resource_id rec) (ControlResult.resource_type rec)
         (ControlResult.evidence_before rec) (ControlResult.finding_details rec))
      true (cloud w) = (Ok rr, c') ->
    RemediationResult.success rr = true ->
    exists (r : pyval) (w' : World) (entry : AuditLog.t),
      RemediationEngine.remediate_finding AWS_CONTROLS finding_id true approved_by w
      = (Ok r, w')
      /\ control_results (session w') = control_results (session w)
      /\ committed w' = session w'
      /\ audit_logs (session w') = audit_logs (session w) ++ [entry]
      /\ AuditLog.event_type entry = "remediation"%string
      /\ AuditLog.control_result_id entry = Some finding_id
      /\ py_get "dry_run" (AuditLog.event_data entry) = Some (PBool true)
      /\ AuditLog.success entry = Some "success"%string
      /\ py_get "success" r = Some (PBool true)
      /\ py_get "dry_run" r = Some (PBool true)
      /\ py_get "after_state" r = Some (RemediationResult.after_state rr).
Proof.
  intros until c'. intros Hf Hrem Hacc Hctl Hcall Hok.
  unfold RemediationEngine.remediate_finding, bind, gets.
  rewrite Hf, Hrem. cbn [negb]. rewrite Hacc, Hctl.
  unfold call_remediate. rewrite Hcall, Hok.
  cbn -[next_id Z.add String.append]. unfold ret.
  do 3 eexists. split; [reflexivity |].
  cbn -[next_id Z.add String.append]. repeat split.
Qed.

Lemma dry_run_changes_no_finding_witness :
  exists (r : pyval) (w' : World) (entry : AuditLog.t),
    RemediationEngine.remediate_finding demo_controls 1 true None open_world
    = (Ok r, w')
    /\ control_results (session w') = control_results (session open_world)
    /\ committed w' = session w'
    /\ audit_logs (session w') = audit_logs (session open_world) ++ [entry]
    /\ AuditLog.event_type entry = "remediation"%string
    /\ AuditLog.control_result_id entry = Some 1
    /\ py_get "dry_run" (AuditLog.event_data entry) = Some (PBool true)
    /\ AuditLog.success entry = Some "success"%string
    /\ py_get "success" r = Some (PBool true)
    /\ py_get "dry_run" r = Some (PBool true)
    /\ py_get "after_state" r = Some (PDict [(PStr "blocked", PBool true)]).
Proof.
  apply (dry_run_changes_no_finding demo_controls 1 None open_world open_finding
           (demo_account None) S3PublicAccessControl.control
           (RemediationResult.mk true (PStr "arn:aws:s3:::b1")
              (PDict [(PStr "bucket", PStr "b1")])
              (PDict [(PStr "blocked", PBool true)])
              (PDict [(PStr "bucket", PStr "b1")]) None)
           cloud_open); reflexivity.
Defined.

(** What a rollback does when the control reports success. *)
Lemma rollback_success :
  forall (AWS_CONTROLS : list Control) (finding_id : Z) (rolled_back_by : string)
    (w : World) (rec : ControlResult.t) (account : CloudAccount.t) (control : Control)
    (rr : RemediationResult.t) (c' : pyval) (details : list (pyval * pyval)),
    get_finding finding_id (session w) = Some rec ->
    ControlResult.status rec = "FIXED"%string ->
    truthy (ControlResult.rollback_data rec) = true ->
    ControlResult.remediation_details rec = PDict details ->
    get_account (ControlResult.cloud_account_id rec) (session w) = Some account ->
    RemediationEngine.find_control AWS_CONTROLS (ControlResult.control_id rec)
    = Some control ->
    rollback control (RemediationEngine.client_for account)
      (ControlResult.rollback_data rec) (cloud w) = (Ok rr, c') ->
    RemediationResult.success rr = true ->
    exists (r : pyval) (w' : World) (rec' : ControlResult.t) (entry : AuditLog.t),
      RemediationEngine.rollback_remediation AWS_CONTROLS finding_id rolled_back_by w
      = (Ok r, w')
      /\ py_get "success" r = Some (PBool true)
      /\ committed w' = session w'
      /\ get_finding finding_id (session w') = Some rec'
      /\ rec' = ControlResult.set_remediation_details
                  (PDict (dict_set "rolled_back_by" (PStr rolled_back_by)
                            (dict_set "rolled_back_at" (PStr (isoformat (clock w)))
                               details)))
                  (ControlResult.set_remediation_status (Some "rolled_back"%string)
                     (ControlResult.set_status "FAIL" rec))
      /\ ControlResult.status rec' = "FAIL"%string
      /\ ControlResult.remediation_status rec' = Some "rolled_back"%string
      /\ py_get "rolled_back_at" (ControlResult.remediation_details rec')
         = Some (PStr (isoformat (clock w)))
      /\ py_get "rolled_back_by" (ControlResult.remediation_details rec')
         = Some (PStr rolled_back_by)
      /\ ControlResult.evidence_after rec' = ControlResult.evidence_after rec
      /\ ControlResult.rollback_data rec' = ControlResult.rollback_data rec
      /\ audit_logs (session w') = audit_logs (session w) ++ [entry]
      /\ AuditLog.event_type entry = "rollback"%string
      /\ AuditLog.actor entry = Some rolled_back_by
      /\ AuditLog.control_result_id entry = Some finding_id.
Proof.
  intros AWS_CONTROLS finding_id rolled_back_by w rec account control rr c' details
    Hf Hst Hrb Hdet Hacc Hctl Hcall Hok.
  unfold RemediationEngine.rollback_remediation, bind, gets.
  rewrite Hf, Hst. cbn [String.eqb Ascii.eqb Bool.eqb negb].
  rewrite Hrb. cbn [negb]. rewrite Hacc, Hctl.
  unfold call_rollback. rewrite Hcall, Hok, Hdet.
  cbn -[next_id Z.add String.append dict_set isoformat find]. unfold ret.
  do 4 eexists. split; [reflexivity |].
  cbn -[next_id Z.add String.append dict_set isoformat find].
  split; [reflexivity |]. split; [reflexivity |].
  split.
  { unfold get_finding. cbn [control_results].
    rewrite !find_update by (intro; reflexivity).
    unfold get_finding in Hf. rewrite Hf. reflexivity. }
  split; [reflexivity |]. split; [reflexivity |]. split; [reflexivity |].
  split.
  { cbn [ControlResult.remediation_details ControlResult.set_remediation_details py_get].
    rewrite dict_get_set_other by discriminate. apply dict_get_set_same. }
  split.
  { cbn [ControlResult.remediation_details ControlResult.set_remediation_details py_get].
    apply dict_get_set_same. }
  repeat split.
Qed.

(** A rollback that is not allowed raises before anything happens. *)
Lemma rollback_rejected :
  forall (AWS_CONTROLS : list Control) (finding_id : Z) (rolled_back_by : string)
    (w : World),
    get_finding finding_id (session w) = None
    \/ (exists rec, get_finding finding_id (session w) = Some rec
                    /\ (ControlResult.status rec <> "FIXED"%string
                        \/ truthy (ControlResult.rollback_data rec) = false)) ->
    exists e,
      RemediationEngine.rollback_remediation AWS_CONTROLS finding_id rolled_back_by w
      = (Raise e, w).
Proof.
  intros AWS_CONTROLS finding_id rolled_back_by w [Hnone | (rec & Hf & [Hst | Hrb])];
    unfold RemediationEngine.rollback_remediation, bind, gets.
  - rewrite Hnone. eexists. reflexivity.
  - rewrite Hf. apply String.eqb_neq in Hst. rewrite Hst. eexists. reflexivity.
  - rewrite Hf.
    destruct (negb (ControlResult.status rec =? "FIXED")%string);
      [eexists; reflexivity |].
    rewrite Hrb. eexists. reflexivity.
Qed.

(** C6: a rollback of a FIXED finding with rollback data, when the control
    reports success, sets [status = FAIL] and
    [remediation_status = rolled_back], records [rolled_back_at] and
    [rolled_back_by] in [remediation_details], commits, appends one
    [rollback] audit entry, and changes no other column of the finding
    ([evidence_after] and [rollback_data] among them).  A rollback of a
    finding that is missing, not FIXED, or without rollback data raises and
    leaves the world as it was. *)
Theorem rollback_contract :
  forall (AWS_CONTROLS : list Control) (finding_id : Z) (rolled_back_by : string)
    (w : World),
    (forall (rec : ControlResult.t) (account : CloudAccount.t) (control : Control)
            (rr : RemediationResult.t) (c' : pyval) (details : list (pyval * pyval)),
        get_finding finding_id (session w) = Some rec ->
        ControlResult.status rec = "FIXED"%string ->
        truthy (ControlResult.rollback_data rec) = true ->
        ControlResult.remediation_details rec = PDict details ->
        get_account (ControlResult.cloud_account_id rec) (session w) = Some account ->
        RemediationEngine.find_control AWS_CONTROLS (ControlResult.control_id rec)
        = Some control ->
        rollback control (RemediationEngine.client_for account)
          (ControlResult.rollback_data rec) (cloud w) = (Ok rr, c') ->
        RemediationResult.success rr = true ->
        exists (r : pyval) (w' : World) (rec' : ControlResult.t) (entry : AuditLog.t),
          RemediationEngine.rollback_remediation AWS_CONTROLS finding_id rolled_back_by w
          = (Ok r, w')
          /\ py_get "success" r = Some (PBool true)
          /\ committed w' = session w'
          /\ get_finding finding_id (session w') = Some rec'
          /\ rec' = ControlResult.set_remediation_details
                      (PDict (dict_set "rolled_back_by" (PStr rolled_back_by)
                                (dict_set "rolled_back_at" (PStr (isoformat (clock w)))
                                   details)))
                      (ControlResult.set_remediation_status (Some "rolled_back"%string)
                         (ControlResult.set_status "FAIL" rec))
          /\ ControlResult.status rec' = "FAIL"%string
          /\ ControlResult.remediation_status rec' = Some "rolled_back"%string
          /\ py_get "rolled_back_at" (ControlResult.remediation_details rec')
             = Some (PStr (isoformat (clock w)))
          /\ py_get "rolled_back_by" (ControlResult.remediation_details rec')
             = Some (PStr rolled_back_by)
          /\ ControlResult.evidence_after rec' = ControlResult.evidence_after rec
          /\ ControlResult.rollback_data rec' = ControlResult.rollback_data rec
          /\ audit_logs (session w') = audit_logs (session w) ++ [entry]
          /\ AuditLog.event_type entry = "rollback"%string
          /\ AuditLog.actor entry = Some rolled_back_by
          /\ AuditLog.control_result_id entry = Some finding_id)
    /\ (get_finding finding_id (session w) = None
        \/ (exists rec, get_finding finding_id (session w) = Some rec
                        /\ (ControlResult.status rec <> "FIXED"%string
                            \/ truthy (ControlResult.rollback_data rec) = false)) ->
        exists e,
          RemediationEngine.rollback_remediation AWS_CONTROLS finding_id rolled_back_by w
          = (Raise e, w)).
Proof.
  intros AWS_CONTROLS finding_id rolled_back_by w. split.
  - apply rollback_success.
  - apply rollback_rejected.
Qed.

Lemma rollback_contract_witness :
  (exists (r : pyval) (w' : World) (rec' : ControlResult.t),
     RemediationEngine.rollback_remediation demo_controls 1 "a@x" remediated_world
     = (Ok r, w')
     /\ py_get "success" r = Some (PBool true)
     /\ get_finding 1 (session w') = Some rec'
     /\ ControlResult.status rec' = "FAIL"%string
     /\ ControlResult.remediation_status rec' = Some "rolled_back"%string
     /\ ControlResult.rollback_data rec'
        = PDict [(PStr "restore", PDict [(PStr "bucket", PStr "b1")])])
  /\ (exists e,
        RemediationEngine.rollback_remediation demo_controls 1 "a@x" open_world
        = (Raise e, open_world)).
Proof.
  split.
  - destruct (rollback_contract demo_controls 1 "a@x" remediated_world) as [Hs _].
    edestruct Hs as (r & w' & rec' & entry & Hr & Hok & _ & Hf & _ & Hst & Hrs & _ & _
                     & _ & Hrb & _); try reflexivity.
    exists r, w', rec'. repeat split; assumption.
  - apply (proj2 (rollback_contract demo_controls 1 "a@x" open_world)).
    right. exists open_finding. split; [reflexivity | left; discriminate].
Defined.

(** What an approved, executed remediation does to the finding, for any
    value of [approved_by]. *)
Lemma executed_remediation :
  forall (AWS_CONTROLS : list Control) (finding_id : Z) (approved_by : option string)
    (w : World) (rec : ControlResult.t) (account : CloudAccount.t) (control : Control)
    (rr : RemediationResult.t) (c' : pyval),
    get_finding finding_id (session w) = Some rec ->
    RemediationEngine.remediable (ControlResult.status rec) = true ->
    get_account (ControlResult.cloud_account_id rec) (session w) = Some account ->
    RemediationEngine.find_control AWS_CONTROLS (ControlResult.control_id rec)
    = Some control ->
    remediate control (RemediationEngine.client_for account)
      (Finding.mk (ControlResult.resource_id rec) (ControlResult.resource_type rec)
         (ControlResult.evidence_before rec) (ControlResult.finding_details rec))
      false (cloud w) = (Ok rr, c') ->
    RemediationResult.success rr = true ->
    exists (r : pyval) (w' : World) (rec' : ControlResult.t),
      RemediationEngine.remediate_finding AWS_CONTROLS finding_id false approved_by w
      = (Ok r, w')
      /\ py_get "success" r = Some (PBool true)
      /\ committed w' = session w'
      /\ cloud w' = c'
      /\ get_finding finding_id (session w') = Some rec'
      /\ ControlResult.status rec' = "FIXED"%string
      /\ ControlResult.remediation_status rec' = Some "executed"%string
      /\ ControlResult.remediation_approved_by rec' = approved_by
      /\ ControlResult.remediation_executed_at rec' = Some (clock w)
      /\ ControlResult.resolved_at rec' = Some (clock w + 1)
      /\ ControlResult.evidence_after rec' = RemediationResult.after_state rr
      /\ ControlResult.rollback_data rec' = RemediationResult.rollback_data rr
      /\ ControlResult.evidence_before rec' = ControlResult.evidence_before rec.
Proof.
  intros until c'. intros Hf Hrem Hacc Hctl Hcall Hok.
  unfold RemediationEngine.remediate_finding, bind, gets.
  rewrite Hf, Hrem. cbn [negb]. rewrite Hacc, Hctl.
  unfold call_remediate. rewrite Hcall, Hok.
  cbn -[next_id Z.add String.append find]. unfold ret.
  do 3 eexists. split; [reflexivity |].
  cbn -[next_id Z.add String.append find].
  split; [reflexivity |]. split; [reflexivity |]. split; [reflexivity |].
  split.
  { unfold get_finding. cbn [control_results].
    rewrite !find_update by (intro; reflexivity).
    unfold get_finding in Hf. rewrite Hf. reflexivity. }
  repeat split.
Qed.

(** A call that returns success went through every check. *)
Lemma remediate_success_inv :
  forall (AWS_CONTROLS : list Control) (finding_id : Z) (dry_run : bool)
    (approved_by : option string) (w w' : World) (r : pyval),
    RemediationEngine.remediate_finding AWS_CONTROLS finding_id dry_run approved_by w
    = (Ok r, w') ->
    py_get "success" r = Some (PBool true) ->
    exists rec account control rr c',
      get_finding finding_id (session w) = Some rec
      /\ RemediationEngine.remediable (ControlResult.status rec) = true
      /\ get_account (ControlResult.cloud_account_id rec) (session w) = Some account
      /\ RemediationEngine.find_control AWS_CONTROLS (ControlResult.control_id rec)
         = Some control
      /\ remediate control (RemediationEngine.client_for account)
           (Finding.mk (ControlResult.resource_id rec) (ControlResult.resource_type rec)
              (ControlResult.evidence_before rec) (ControlResult.finding_details rec))
           dry_run (cloud w) = (Ok rr, c')
      /\ RemediationResult.success rr = true.
Proof.
  intros AWS_CONTROLS finding_id dry_run approved_by w w' r Hrun Hsucc.
  unfold RemediationEngine.remediate_finding in Hrun. rewrite bind_gets in Hrun.
  destruct (get_finding finding_id (session w)) as [rec |] eqn:Hf;
    [| discriminate].
  destruct (RemediationEngine.remediable (ControlResult.status rec)) eqn:Hrem;
    cbn [negb] in Hrun; [| discriminate].
  rewrite bind_gets in Hrun.
  destruct (get_account (ControlResult.cloud_account_id rec) (session w))
    as [account |] eqn:Hacc; [| discriminate].
  destruct (RemediationEngine.find_control AWS_CONTROLS (ControlResult.control_id rec))
    as [control |] eqn:Hctl; [| discriminate].
  apply bind_ok_inv in Hrun. destruct Hrun as (rr & w1 & Hcall & Hrest).
  unfold call_remediate in Hcall.
  destruct (remediate control (RemediationEngine.client_for account)
              (Finding.mk (ControlResult.resource_id rec)
                 (ControlResult.resource_type rec) (ControlResult.evidence_before rec)
                 (ControlResult.finding_details rec)) dry_run (cloud w))
    as [rr0 c'] eqn:Hcall0.
  injection Hcall as Hrr _. subst rr0.
  destruct (RemediationResult.success rr) eqn:Hok.
  - exists rec, account, control, rr, c'. repeat split; assumption.
  - exfalso.
    apply bind_ok_inv in Hrest. destruct Hrest as (u1 & w2 & _ & Hrest).
    apply bind_ok_inv in Hrest. destruct Hrest as (u2 & w3 & _ & Hrest).
    apply ret_ok_inv in Hrest. destruct Hrest as [Hr _]. subst r. discriminate.
Qed.

Lemma rollback_success_inv :
  forall (AWS_CONTROLS : list Control) (finding_id : Z) (rolled_back_by : string)
    (w w' : World) (r : pyval),
    RemediationEngine.rollback_remediation AWS_CONTROLS finding_id rolled_back_by w
    = (Ok r, w') ->
    py_get "success" r = Some (PBool true) ->
    exists rec account control rr c' details,
      get_finding finding_id (session w) = Some rec
      /\ ControlResult.status rec = "FIXED"%string
      /\ truthy (ControlResult.rollback_data rec) = true
      /\ ControlResult.remediation_details rec = PDict details
      /\ get_account (ControlResult.cloud_account_id rec) (session w) = Some account
      /\ RemediationEngine.find_control AWS_CONTROLS (ControlResult.control_id rec)
         = Some control
      /\ rollback control (RemediationEngine.client_for account)
           (ControlResult.rollback_data rec) (cloud w) = (Ok rr, c')
      /\ RemediationResult.success rr = true.
Proof.
  intros AWS_CONTROLS finding_id rolled_back_by w w' r Hrun Hsucc.
  unfold RemediationEngine.rollback_remediation in Hrun. rewrite bind_gets in Hrun.
  destruct (get_finding finding_id (session w)) as [rec |] eqn:Hf;
    [| discriminate].
  destruct (String.eqb_spec (ControlResult.status rec) "FIXED") as [Hst | _];
    cbn [negb] in Hrun; [| discriminate].
  destruct (truthy (ControlResult.rollback_data rec)) eqn:Hrb;
    cbn [negb] in Hrun; [| discriminate].
  rewrite bind_gets in Hrun.
  destruct (get_account (ControlResult.cloud_account_id rec) (session w))
    as [account |] eqn:Hacc; [| discriminate].
  destruct (RemediationEngine.find_control AWS_CONTROLS (ControlResult.control_id rec))
    as [control |] eqn:Hctl; [| discriminate].
  apply bind_ok_inv in Hrun. destruct Hrun as (rr & w1 & Hcall & Hrest).
  unfold call_rollback in Hcall.
  destruct (rollback control (RemediationEngine.client_for account)
              (ControlResult.rollback_data rec) (cloud w))
    as [rr0 c'] eqn:Hcall0.
  injection Hcall as Hrr _. subst rr0.
  destruct (RemediationResult.success rr) eqn:Hok.
  - apply bind_ok_inv in Hrest. destruct Hrest as (u1 & w2 & _ & Hrest).
    apply bind_ok_inv in Hrest. destruct Hrest as (u2 & w3 & _ & Hrest).
    destruct (ControlResult.remediation_details rec) as [| | | | | | | details] eqn:Hdet;
      try discriminate.
    exists rec, account, control, rr, c', details. repeat split; assumption.
  - exfalso. apply ret_ok_inv in Hrest. destruct Hrest as [Hr _]. subst r.
    discriminate.
Qed.

(** C3, as the code has it: after a successful non-dry-run remediation the
    finding is FIXED, and any further [remediate] call on it is rejected
    with "not in remediable state": it calls no control, changes no row and
    writes no audit entry (the world is left as it was); no result carries
    a [noop] flag.  In the same way a repeated rollback after a successful
    one is rejected with "not in rollback-able state". *)
Theorem repeated_calls_are_rejected :
  forall (AWS_CONTROLS : list Control) (finding_id : Z),
    (forall (approved_by : option string) (w w1 : World) (r : pyval),
        RemediationEngine.remediate_finding AWS_CONTROLS finding_id false approved_by w
        = (Ok r, w1) ->
        py_get "success" r = Some (PBool true) ->
        py_get "noop" r = None
        /\ forall (dry_run : bool) (again_by : option string),
             RemediationEngine.remediate_finding AWS_CONTROLS finding_id dry_run
               again_by w1
             = (Raise (ValueError ("Finding " +++ str_int finding_id
                                   +++ " is not in remediable state")), w1))
    /\ (forall (rolled_back_by : string) (w w1 : World) (r : pyval),
          RemediationEngine.rollback_remediation AWS_CONTROLS finding_id
            rolled_back_by w
          = (Ok r, w1) ->
          py_get "success" r = Some (PBool true) ->
          py_get "noop" r = None
          /\ forall (again_by : string),
               RemediationEngine.rollback_remediation AWS_CONTROLS finding_id
                 again_by w1
               = (Raise (ValueError ("Finding " +++ str_int finding_id
                                     +++ " not in rollback-able state")), w1)).
Proof.
  intros AWS_CONTROLS finding_id. split.
  - intros approved_by w w1 r Hrun Hsucc.
    destruct (remediate_success_inv _ _ _ _ _ _ _ Hrun Hsucc)
      as (rec & account & control & rr & c' & Hf & Hrem & Hacc & Hctl & Hcall & Hok).
    destruct (executed_remediation AWS_CONTROLS finding_id approved_by w rec account
                control rr c' Hf Hrem Hacc Hctl Hcall Hok)
      as (r' & w' & rec' & Hrun' & _ & _ & _ & Hf' & Hst' & _).
    rewrite Hrun in Hrun'. injection Hrun' as Hr Hw. subst r' w'.
    split.
    + clear Hf'. revert Hrun.
      unfold RemediationEngine.remediate_finding, bind, gets.
      rewrite Hf, Hrem. cbn [negb]. rewrite Hacc, Hctl.
      unfold call_remediate. rewrite Hcall, Hok.
      cbn -[next_id Z.add String.append find]. unfold ret.
      intro Hrun. injection Hrun as Hr _. subst r. reflexivity.
    + intros dry_run again_by.
      unfold RemediationEngine.remediate_finding, bind, gets.
      rewrite Hf', Hst'. reflexivity.
  - intros rolled_back_by w w1 r Hrun Hsucc.
    destruct (rollback_success_inv _ _ _ _ _ _ Hrun Hsucc)
      as (rec & account & control & rr & c' & details & Hf & Hst & Hrb & Hdet & Hacc
          & Hctl & Hcall & Hok).
    destruct (rollback_success AWS_CONTROLS finding_id rolled_back_by w
                rec account control rr c' details Hf Hst Hrb Hdet Hacc Hctl Hcall Hok)
      as (r' & w' & rec' & entry & Hrun' & _ & _ & Hf' & _ & Hst' & _).
    rewrite Hrun in Hrun'. injection Hrun' as Hr Hw. subst r' w'.
    split.
    + clear Hf'. revert Hrun.
      unfold RemediationEngine.rollback_remediation, bind, gets.
      rewrite Hf, Hst. cbn [String.eqb Ascii.eqb Bool.eqb negb].
      rewrite Hrb. cbn [negb]. rewrite Hacc, Hctl.
      unfold call_rollback. rewrite Hcall, Hok, Hdet.
      cbn -[next_id Z.add String.append dict_set isoformat find]. unfold ret.
      intro Hrun. injection Hrun as Hr _. subst r. reflexivity.
    + intro again_by.
      unfold RemediationEngine.rollback_remediation, bind, gets.
      rewrite Hf', Hst'. reflexivity.
Qed.

Lemma repeated_calls_are_rejected_witness :
  (forall (dry_run : bool) (again_by : option string),
      RemediationEngine.remediate_finding demo_controls 1 dry_run again_by fixed_world
      = (Raise (ValueError "Finding 1 is not in remediable state"), fixed_world))
  /\ (forall (again_by : string),
        RemediationEngine.rollback_remediation demo_controls 1 again_by
          rolled_back_world
        = (Raise (ValueError "Finding 1 not in rollback-able state"), rolled_back_world)).
Proof.
  destruct (repeated_calls_are_rejected demo_controls 1) as [Hremediate Hrollback].
  split.
  - destruct (Hremediate (Some "a@x"%string) open_world fixed_world fixed_answer)
      as [_ Hagain]; [vm_compute; reflexivity | reflexivity | exact Hagain].
  - destruct (Hrollback "a@x"%string remediated_world rolled_back_world
                rolled_back_answer)
      as [_ Hagain]; [vm_compute; reflexivity | reflexivity | exact Hagain].
Defined.

(** C3, as the spec words it, fails: the first remediation of the open
    bucket succeeds and fixes the finding; the second call returns no
    success with [noop = True], it raises. *)
Lemma second_remediation_raises :
  (exists r,
     RemediationEngine.remediate_finding demo_controls 1 false (Some "a@x"%string)
       open_world = (Ok r, fixed_world)
     /\ py_get "success" r = Some (PBool true))
  /\ RemediationEngine.remediate_finding demo_controls 1 false (Some "a@x"%string)
       fixed_world
     = (Raise (ValueError "Finding 1 is not in remediable state"), fixed_world)
  /\ ~ (exists r w',
          RemediationEngine.remediate_finding demo_controls 1 false (Some "a@x"%string)
            fixed_world = (Ok r, w')
          /\ py_get "noop" r = Some (PBool true)).
Proof.
  split; [exists fixed_answer; split; [vm_compute; reflexivity | reflexivity] |].
  split; [vm_compute; reflexivity |].
  intros (r & w' & Hrun & _). vm_compute in Hrun. discriminate.
Qed.

(** C2 at the failing input: a non-dry-run remediation without an approver
    ([approved_by] missing, or the empty string) is not rejected.  The
    control is applied to the cloud, the finding becomes FIXED with an empty
    approver, and the audit entry names "system" as the actor. *)
Lemma unapproved_remediation_is_executed :
  (exists (r : pyval) (w' : World) (rec' : ControlResult.t) (entry : AuditLog.t),
     RemediationEngine.remediate_finding demo_controls 1 false None open_world
     = (Ok r, w')
     /\ py_get "success" r = Some (PBool true)
     /\ get_finding 1 (committed w') = Some rec'
     /\ ControlResult.status rec' = "FIXED"%string
     /\ ControlResult.remediation_approved_by rec' = None
     /\ cloud w' <> cloud open_world
     /\ audit_logs (committed w') = [entry]
     /\ AuditLog.actor entry = Some "system"%string)
  /\ (exists (r : pyval) (w' : World) (rec' : ControlResult.t),
        RemediationEngine.remediate_finding demo_controls 1 false (Some EmptyString)
          open_world = (Ok r, w')
        /\ py_get "success" r = Some (PBool true)
        /\ get_finding 1 (committed w') = Some rec'
        /\ ControlResult.status rec' = "FIXED"%string
        /\ ControlResult.remediation_approved_by rec' = Some EmptyString).
Proof.
  split.
  - do 4 eexists. split; [lazy; reflexivity |]. split; [reflexivity |].
    split; [reflexivity |]. split; [reflexivity |]. split; [reflexivity |].
    split; [discriminate |]. split; reflexivity.
  - do 3 eexists. split; [lazy; reflexivity |]. split; [reflexivity |].
    split; [reflexivity |]. split; reflexivity.
Qed.

(** ** Detection engine: a control that raises *)

(** What one turn of the scan loop does when [detect] raises: one ERROR
    finding without a resource, one [detection] audit entry, the error
    counter goes up by one and the loop goes on.  The finding keeps the
    exception's message under ["error"] when the message is not empty. *)
Lemma raising_control_gives_error_finding :
  forall (account_id : Z) (scan_id : string) (client : option AWSClient)
    (control : Control) (n : DetectionEngine.Counts) (w : World) (e : exn),
    detect control client (cloud w) = Raise e ->
    exists (w' : World) (row : ControlResult.t) (entry : AuditLog.t),
      DetectionEngine.run_control account_id scan_id client control n w
      = (Ok (DetectionEngine.mkCounts (DetectionEngine.total_findings n)
               (DetectionEngine.pass_count n) (DetectionEngine.fail_count n)
               (DetectionEngine.error_count n + 1)), w')
      /\ control_results (session w') = control_results (session w) ++ [row]
      /\ ControlResult.status row = "ERROR"%string
      /\ ControlResult.control_id row = control_id control
      /\ ControlResult.resource_id row = None
      /\ ControlResult.finding_details row
         = (if String.eqb (exc_str e) EmptyString then PDict []
            else PDict [(PStr "error", PStr (exc_str e))])
      /\ audit_logs (session w') = audit_logs (session w) ++ [entry]
      /\ AuditLog.event_type entry = "detection"%string
      /\ committed w' = session w'.
Proof.
  intros account_id scan_id client control n w e Hdetect.
  unfold DetectionEngine.run_control, try_except, bind, call_detect.
  rewrite Hdetect.
  cbn -[next_id Z.add String.append String.eqb]. unfold ret.
  do 3 eexists. split; [reflexivity |].
  cbn -[next_id Z.add String.append String.eqb].
  repeat split.
  destruct (String.eqb (exc_str e) EmptyString); reflexivity.
Qed.

(** C7 at the failing input: a scan over two controls whose [detect]
    raises, the first with an exception that has no message, the second
    with "AccessDenied".  Both become ERROR findings without a resource and
    the scan completes with status success; but the finding of the first
    control has empty [finding_details], with no ["error"] entry. *)
Lemma silent_exception_leaves_no_error_entry :
  exists (r : pyval) (w' : World) (silent denied : ControlResult.t),
    failing_scan = (Ok r, w')
    /\ scan_demo (Some ["TEST-ERR-001"%string; "TEST-ERR-002"%string])
         failing_scan_world = failing_scan
    /\ detect silent_failure_control
         (Some (mkAWSClient (CloudAccount.credentials (demo_account None))))
         (cloud failing_scan_world)
       = Raise (mkExn "TimeoutError" "")
    /\ py_get "status" r = Some (PStr "completed")
    /\ option_map CloudAccount.last_scan_status (get_account 1 (committed w'))
       = Some (Some "success"%string)
    /\ control_results (committed w') = [silent; denied]
    /\ ControlResult.control_id silent = "TEST-ERR-001"%string
    /\ ControlResult.status silent = "ERROR"%string
    /\ ControlResult.resource_id silent = None
    /\ ControlResult.finding_details silent = PDict []
    /\ py_get "error" (ControlResult.finding_details silent) = None
    /\ ControlResult.status denied = "ERROR"%string
    /\ py_get "error" (ControlResult.finding_details denied)
       = Some (PStr "AccessDenied").
Proof.
  do 4 eexists. split; [reflexivity |].
  split; [vm_compute; reflexivity |].
  repeat split.
Qed.

(** ** Evidence engine: a failed upload *)

(** When [put_object] raises, the JSON export answers with the report key,
    no download URL, the counts and a message; no entry of the response
    holds bytes, and the store is as it was. *)
Lemma failed_upload_response :
  forall (EVIDENCE_BUCKET_NAME : string)
    (pdf_build : Organization.t -> list AuditLog.t -> list ControlResult.t
                 -> option Z -> option Z -> Z -> outcome (list ascii))
    (json_dumps : pyval -> list ascii) (presigned_url : string -> string -> Z -> string)
    (organization_id : Z) (start_date end_date : option Z) (format : string)
    (w : World) (organization : Organization.t) (err : exn),
    get_organization organization_id (session w) = Some organization ->
    put_object_error (store w) = Some err ->
    String.eqb format "pdf" = false ->
    exists (r : pyval) (w' : World),
      EvidenceEngine.export_audit_report EVIDENCE_BUCKET_NAME pdf_build json_dumps
        presigned_url organization_id start_date end_date format w = (Ok r, w')
      /\ r = PDict
               [ (PStr "report_key",
                   PStr ("audit-reports/" +++ str_int organization_id +++ "/"
                         +++ strftime (clock w + 1) +++ "." +++ "json"));
                 (PStr "download_url", PNone);
                 (PStr "format", PStr format);
                 (PStr "generated_at", PStr (isoformat (clock w + 3)));
                 (PStr "total_audit_logs",
                   PInt (len (EvidenceEngine.report_audit_logs organization_id
                                start_date end_date (session w))));
                 (PStr "total_findings",
                   PInt (len (EvidenceEngine.report_control_results organization_id
                                (session w))));
                 (PStr "message",
                   PStr "Report generated successfully (S3 upload unavailable in demo mode)") ]
      /\ (forall data, holds_bytes data r = false)
      /\ store w' = store w
      /\ session w' = session w.
Proof.
  intros until err. intros Horg Hput Hfmt.
  unfold EvidenceEngine.export_audit_report, bind, gets.
  rewrite Horg, Hfmt.
  unfold EvidenceEngine._generate_json_report, try_except, bind, utcnow, put_object, ret.
  cbn [fst snd store clock session]. rewrite Hput.
  do 2 eexists. split; [reflexivity |].
  cbn [clock store session].
  replace (clock w + 1 + 1 + 1) with (clock w + 3) by lia.
  repeat split.
Qed.

(** C9 at the failing input: a JSON export while the object store refuses
    the upload.  The call answers, but no entry of the response holds the
    generated artifact, the response has no download URL and no [degraded]
    flag, and nothing was stored: the artifact is lost. *)
Lemma failed_upload_loses_the_artifact :
  exists (r : pyval) (w' : World),
    export_down = (Ok r, w')
    /\ export_demo "json" export_down_world = export_down
    /\ put_object_error (store export_down_world)
       = Some (mkExn "EndpointConnectionError" "Could not connect to the endpoint URL")
    /\ holds_bytes (json_stub PNone) r = false
    /\ py_get "download_url" r = Some PNone
    /\ py_get "degraded" r = None
    /\ py_get "message" r
       = Some (PStr "Report generated successfully (S3 upload unavailable in demo mode)")
    /\ objects (store w') = [].
Proof.
  do 2 eexists. split; [reflexivity |].
  split; [vm_compute; reflexivity |].
  repeat split.
Qed.

(** ** What every step of a request keeps

    A relation that is reflexive and transitive and that the primitive
    steps keep is kept by the loops and the requests built from them. *)

Section Keeps.

Variable R : World -> World -> Prop.
Hypothesis R_refl : forall w, R w w.
Hypothesis R_trans : forall a b c, R a b -> R b c -> R a c.

Lemma keeps_ret {A : Type} (a : A) : keeps R (ret a).
Proof. intro w. apply R_refl. Qed.

Lemma keeps_raise {A : Type} (e : exn) : keeps R (@raise A e).
Proof. intro w. apply R_refl. Qed.

Lemma keeps_gets {A : Type} (f : World -> A) : keeps R (gets f).
Proof. intro w. apply R_refl. Qed.

Lemma keeps_bind {A B : Type} (m : M A) (k : A -> M B) :
  keeps R m -> (forall a, keeps R (k a)) -> keeps R (bind m k).
Proof.
  intros Hm Hk w. unfold bind. specialize (Hm w).
  destruct (m w) as [[a | e] w1]; cbn [snd] in *.
  - apply (R_trans _ _ _ Hm). apply Hk.
  - exact Hm.
Qed.

Lemma keeps_try {A : Type} (body : M A) (handler : exn -> M A) :
  keeps R body -> (forall e, keeps R (handler e)) -> keeps R (try_except body handler).
Proof.
  intros Hb Hh w. unfold try_except. specialize (Hb w).
  destruct (body w) as [[a | e] w1]; cbn [snd] in *.
  - exact Hb.
  - apply (R_trans _ _ _ Hb). apply Hh.
Qed.

Hypothesis K_utcnow : keeps R utcnow.
Hypothesis K_uuid4 : keeps R uuid4.
Hypothesis K_commit : keeps R commit.
Hypothesis K_add_result : forall mk_row, keeps R (add_control_result mk_row).
Hypothesis K_update_finding : forall finding_id f, keeps R (update_finding finding_id f).
Hypothesis K_assign :
  forall account_id unchanged f, keeps R (assign_account account_id unchanged f).
Hypothesis K_detection_log :
  forall event_type action kwargs,
    keeps R (DetectionEngine._log_audit event_type action kwargs).
Hypothesis K_remediation_log :
  forall event_type action actor kwargs,
    keeps R (RemediationEngine._log_audit event_type action actor kwargs).
Hypothesis K_detect : forall control client, keeps R (call_detect control client).
Hypothesis K_remediate :
  forall control client finding dry_run,
    keeps R (call_remediate control client finding dry_run).
Hypothesis K_rollback :
  forall control client rollback_data,
    keeps R (call_rollback control client rollback_data).

Ltac keeps_step :=
  lazymatch goal with
  | |- keeps R (bind _ _) => apply keeps_bind; [| intro]
  | |- keeps R (try_except _ _) => apply keeps_try; [| intro]
  | |- keeps R (ret _) => apply keeps_ret
  | |- keeps R (raise _) => apply keeps_raise
  | |- keeps R (gets _) => apply keeps_gets
  | |- keeps R utcnow => apply K_utcnow
  | |- keeps R uuid4 => apply K_uuid4
  | |- keeps R commit => apply K_commit
  | |- keeps R (add_control_result _) => apply K_add_result
  | |- keeps R (update_finding _ _) => apply K_update_finding
  | |- keeps R (assign_account _ _ _) => apply K_assign
  | |- keeps R (DetectionEngine._log_audit _ _ _) => apply K_detection_log
  | |- keeps R (RemediationEngine._log_audit _ _ _ _) => apply K_remediation_log
  | |- keeps R (call_detect _ _) => apply K_detect
  | |- keeps R (call_remediate _ _ _ _) => apply K_remediate
  | |- keeps R (call_rollback _ _ _) => apply K_rollback
  | |- keeps R (match ?x with _ => _ end) => destruct x
  end.

Ltac keeps_all := repeat keeps_step.

Lemma keeps_save_result :
  forall account_id control finding status scan_id error_msg,
    keeps R (DetectionEngine._save_result account_id control finding status scan_id
               error_msg).
Proof. intros. unfold DetectionEngine._save_result. keeps_all. Qed.

Lemma keeps_save_findings :
  forall account_id control scan_id findings,
    keeps R (DetectionEngine.save_findings account_id control scan_id findings).
Proof.
  intros account_id control scan_id findings.
  induction findings as [| finding rest IH]; cbn [DetectionEngine.save_findings].
  - apply keeps_ret.
  - apply keeps_bind; [apply keeps_save_result | intro; exact IH].
Qed.

Lemma keeps_run_control :
  forall account_id scan_id client control n,
    keeps R (DetectionEngine.run_control account_id scan_id client control n).
Proof.
  intros. unfold DetectionEngine.run_control.
  apply keeps_try; [apply keeps_bind; [apply K_detect | intro findings] | intro e].
  - destruct findings.
    + apply keeps_bind; [apply keeps_save_result | intro; apply keeps_ret].
    + apply keeps_bind; [apply keeps_save_findings | intro; apply keeps_ret].
  - apply keeps_bind; [apply keeps_save_result | intro; apply keeps_ret].
Qed.

Lemma keeps_run_controls :
  forall account_id scan_id client controls n,
    keeps R (DetectionEngine.run_controls account_id scan_id client controls n).
Proof.
  intros account_id scan_id client controls.
  induction controls as [| control rest IH]; intro n; cbn [DetectionEngine.run_controls].
  - apply keeps_ret.
  - apply keeps_bind; [apply keeps_run_control | intro n'; apply IH].
Qed.

Lemma keeps_run_scan :
  forall AWS_CONTROLS ClientSecretCredential account account_id control_ids scan_id
    scan_start,
    keeps R (DetectionEngine.run_scan AWS_CONTROLS ClientSecretCredential account
               account_id control_ids scan_id scan_start).
Proof.
  intros. unfold DetectionEngine.run_scan.
  apply keeps_bind.
  - unfold DetectionEngine.provider_controls. keeps_all.
  - intro cc. cbv zeta.
    apply keeps_bind; [apply keeps_run_controls | intro n].
    unfold assign_last_scan_at, assign_last_scan_status. keeps_all.
Qed.

Lemma keeps_scan_failed :
  forall account_id (e : exn),
    keeps R (assign_last_scan_status account_id "failed" ;;; commit ;;; @raise pyval e).
Proof. intros. unfold assign_last_scan_status. keeps_all. Qed.

Lemma keeps_scan_account :
  forall AWS_CONTROLS ClientSecretCredential account_id control_ids,
    keeps R (DetectionEngine.scan_account AWS_CONTROLS ClientSecretCredential account_id
               control_ids).
Proof.
  intros. unfold DetectionEngine.scan_account.
  apply keeps_bind; [apply keeps_gets | intros [account |]]; [| apply keeps_raise].
  apply keeps_bind; [apply K_uuid4 | intro scan_id].
  apply keeps_bind; [apply K_utcnow | intro scan_start].
  apply keeps_try; [| intro e; apply keeps_scan_failed].
  apply keeps_bind; [apply K_assign | intro].
  apply keeps_bind; [apply K_commit | intro].
  apply keeps_run_scan.
Qed.

Lemma keeps_remediate_finding :
  forall AWS_CONTROLS finding_id dry_run approved_by,
    keeps R (RemediationEngine.remediate_finding AWS_CONTROLS finding_id dry_run
               approved_by).
Proof.
  intros. unfold RemediationEngine.remediate_finding.
  apply keeps_bind; [apply keeps_gets | intros [finding_record |]]; [| apply keeps_raise].
  keeps_step; [apply keeps_raise |].
  apply keeps_bind; [apply keeps_gets | intros [account |]]; [| apply keeps_raise].
  cbv zeta. keeps_step; [| apply keeps_raise].
  apply keeps_bind; [apply K_remediate | intro rr].
  keeps_all.
Qed.

Lemma keeps_rollback_remediation :
  forall AWS_CONTROLS finding_id rolled_back_by,
    keeps R (RemediationEngine.rollback_remediation AWS_CONTROLS finding_id
               rolled_back_by).
Proof.
  intros. unfold RemediationEngine.rollback_remediation.
  apply keeps_bind; [apply keeps_gets | intros [finding_record |]]; [| apply keeps_raise].
  keeps_step; [apply keeps_raise |].
  keeps_step; [apply keeps_raise |].
  apply keeps_bind; [apply keeps_gets | intros [account |]]; [| apply keeps_raise].
  cbv zeta. keeps_step; [| apply keeps_raise].
  apply keeps_bind; [apply K_rollback | intro rr].
  keeps_all.
Qed.

Lemma keeps_serve :
  forall AWS_CONTROLS ClientSecretCredential rq,
    keeps R (serve AWS_CONTROLS ClientSecretCredential rq).
Proof.
  intros AWS_CONTROLS ClientSecretCredential [account_id control_ids
                                              | finding_id dry_run approved_by
                                              | finding_id actor]; cbn [serve].
  - apply keeps_scan_account.
  - apply keeps_remediate_finding.
  - apply keeps_rollback_remediation.
Qed.

End Keeps.

(** ** The trace only grows *)

Lemma trace_extends_refl (w : World) : trace_extends w w.
Proof. exists []. symmetry. apply app_nil_r. Qed.

Lemma trace_extends_trans (a b c : World) :
  trace_extends a b -> trace_extends b c -> trace_extends a c.
Proof.
  intros [t1 H1] [t2 H2]. exists (t1 ++ t2). rewrite H2, H1. symmetry. apply app_assoc.
Qed.

Lemma trace_extends_same (w w' : World) : trace w' = trace w -> trace_extends w w'.
Proof. intro H. exists []. rewrite H. symmetry. apply app_nil_r. Qed.

Lemma trace_utcnow : keeps trace_extends utcnow.
Proof. intro w. apply trace_extends_same. reflexivity. Qed.

Lemma trace_uuid4 : keeps trace_extends uuid4.
Proof. intro w. apply trace_extends_same. reflexivity. Qed.

Lemma trace_commit : keeps trace_extends commit.
Proof. intro w. exists [EvCommit (session w)]. reflexivity. Qed.

Lemma trace_add_result mk_row : keeps trace_extends (add_control_result mk_row).
Proof. intro w. apply trace_extends_same. reflexivity. Qed.

Lemma trace_add_log mk_row : keeps trace_extends (add_audit_log mk_row).
Proof. intro w. apply trace_extends_same. reflexivity. Qed.

Lemma trace_update_finding finding_id f :
  keeps trace_extends (update_finding finding_id f).
Proof. intro w. apply trace_extends_same. reflexivity. Qed.

Lemma trace_assign account_id unchanged f :
  keeps trace_extends (assign_account account_id unchanged f).
Proof.
  intro w. apply trace_extends_same. unfold assign_account.
  destruct (get_account account_id (session w)) as [a |]; [| reflexivity].
  destruct (unchanged a); reflexivity.
Qed.

Lemma trace_detection_log event_type action kwargs :
  keeps trace_extends (DetectionEngine._log_audit event_type action kwargs).
Proof.
  unfold DetectionEngine._log_audit.
  apply (keeps_bind trace_extends trace_extends_trans);
    [apply trace_add_log | intro; apply trace_commit].
Qed.

Lemma trace_remediation_log event_type action actor kwargs :
  keeps trace_extends (RemediationEngine._log_audit event_type action actor kwargs).
Proof.
  unfold RemediationEngine._log_audit.
  apply (keeps_bind trace_extends trace_extends_trans);
    [apply trace_add_log | intro; apply trace_commit].
Qed.

Lemma trace_detect control client : keeps trace_extends (call_detect control client).
Proof. intro w. exists [EvDetect (control_id control)]. reflexivity. Qed.

Lemma trace_remediate control client finding dry_run :
  keeps trace_extends (call_remediate control client finding dry_run).
Proof.
  intro w. exists [EvRemediate (control_id control) dry_run]. unfold call_remediate.
  destruct (remediate control client finding dry_run (cloud w)). reflexivity.
Qed.

Lemma trace_rollback control client rollback_data :
  keeps trace_extends (call_rollback control client rollback_data).
Proof.
  intro w. exists [EvRollback (control_id control)]. unfold call_rollback.
  destruct (rollback control client rollback_data (cloud w)). reflexivity.
Qed.

Lemma trace_run_scan :
  forall AWS_CONTROLS ClientSecretCredential account account_id control_ids scan_id
    scan_start,
    keeps trace_extends
      (DetectionEngine.run_scan AWS_CONTROLS ClientSecretCredential account account_id
         control_ids scan_id scan_start).
Proof.
  apply (keeps_run_scan trace_extends trace_extends_refl trace_extends_trans
           trace_utcnow trace_commit trace_add_result trace_assign trace_detection_log
           trace_detect).
Qed.

(** A lookup after attribute writes on the account row. *)
Lemma get_account_update (account_id : Z) (f : CloudAccount.t -> CloudAccount.t)
  (now : Z) (d : DB) :
  (forall a, CloudAccount.id (f a) = CloudAccount.id a) ->
  get_account account_id (update_account account_id f now d)
  = option_map (fun a => CloudAccount.touch now (f a)) (get_account account_id d).
Proof.
  intro Hid. unfold get_account, update_account. cbn [cloud_accounts].
  induction (cloud_accounts d) as [| a rest IH]; [reflexivity |].
  cbn [map find]. destruct (CloudAccount.id a =? account_id) eqn:E.
  - cbn [CloudAccount.touch CloudAccount.id]. rewrite Hid, E. reflexivity.
  - rewrite E. exact IH.
Qed.

Lemma opt_str_eqb_eq (a b : option string) : opt_str_eqb a b = true -> a = b.
Proof.
  destruct a as [x |], b as [y |]; cbn; try discriminate; try reflexivity.
  intro H. apply String.eqb_eq in H. congruence.
Qed.

(** The marked part of a scan: whatever follows the commit of
    [in_progress], and whatever the handler does, comes after it in the
    trace. *)
Lemma marked_before_the_rest :
  forall (account_id : Z) (account : CloudAccount.t) (rest : M pyval)
    (handler : exn -> M pyval) (w1 : World),
    get_account account_id (session w1) = Some account ->
    keeps trace_extends rest ->
    (forall e, keeps trace_extends (handler e)) ->
    exists (d : DB) (tr : list Event),
      trace (snd (try_except
                    (assign_last_scan_status account_id "in_progress" ;;;
                     commit ;;; rest)
                    handler w1))
      = trace w1 ++ EvCommit d :: tr
      /\ option_map CloudAccount.last_scan_status (get_account account_id d)
         = Some (Some "in_progress"%string).
Proof.
  intros account_id account rest handler w1 Hacc Hrest Hhandler.
  assert (Hmark : exists w2,
             assign_last_scan_status account_id "in_progress" w1 = (Ok tt, w2)
             /\ trace w2 = trace w1
             /\ option_map CloudAccount.last_scan_status
                  (get_account account_id (session w2))
                = Some (Some "in_progress"%string)).
  { unfold assign_last_scan_status, assign_account. rewrite Hacc.
    destruct (opt_str_eqb (CloudAccount.last_scan_status account)
                (Some "in_progress"%string)) eqn:E.
    - eexists. split; [reflexivity |]. split; [reflexivity |].
      rewrite Hacc. cbn [option_map]. apply opt_str_eqb_eq in E. rewrite E. reflexivity.
    - eexists. split; [reflexivity |]. split; [reflexivity |].
      cbn [session with_session].
      rewrite get_account_update by (intro; reflexivity).
      rewrite Hacc. reflexivity. }
  destruct Hmark as (w2 & Hmark & Htrace & Hstatus).
  exists (session w2).
  unfold try_except, bind. rewrite Hmark. cbn [commit].
  set (w3 := mkWorld (session w2) (session w2) (cloud w2) (store w2) (clock w2)
               (uuids w2) (trace w2 ++ [EvCommit (session w2)])).
  destruct (Hrest w3) as [tr Hscan].
  destruct (rest w3) as [[r | e] w4]; cbn [snd] in Hscan |- *.
  - exists tr. split; [| exact Hstatus].
    rewrite Hscan. unfold w3. cbn [trace]. rewrite Htrace, <- app_assoc. reflexivity.
  - destruct (Hhandler e w4) as [tr' Hfail].
    exists (tr ++ tr'). split; [| exact Hstatus].
    rewrite Hfail, Hscan. unfold w3. cbn [trace].
    rewrite Htrace, <- !app_assoc. reflexivity.
Qed.

(** ** The audit table only grows *)

Lemma ids_increase_app (old new : list AuditLog.t) :
  ids_increase old -> ids_increase new ->
  (forall l l', In l old -> In l' new -> AuditLog.id l < AuditLog.id l') ->
  ids_increase (old ++ new).
Proof.
  induction old as [| x old IH]; intros Hold Hnew Hlt; cbn [app ids_increase].
  - exact Hnew.
  - destruct Hold as [Hhead Htail]. split.
    + intros l' Hin. apply in_app_or in Hin. destruct Hin as [Hin | Hin].
      * apply Hhead, Hin.
      * apply Hlt; [left; reflexivity | exact Hin].
    + apply IH; [exact Htail | exact Hnew |].
      intros l l' Hl Hl'. apply Hlt; [right; exact Hl | exact Hl'].
Qed.

Lemma log_grows_same (w w' : World) :
  audit_logs (session w') = audit_logs (session w) -> log_grows w w'.
Proof.
  intro Hlogs. exists []. split; [rewrite Hlogs; symmetry; apply app_nil_r |].
  split; [exact I | intros l l' _ []].
Qed.

Lemma log_grows_refl (w : World) : log_grows w w.
Proof. apply log_grows_same. reflexivity. Qed.

Lemma log_grows_trans (a b c : World) : log_grows a b -> log_grows b c -> log_grows a c.
Proof.
  intros (n1 & H1 & Hi1 & Hlt1) (n2 & H2 & Hi2 & Hlt2).
  exists (n1 ++ n2). split; [rewrite H2, H1; symmetry; apply app_assoc |].
  rewrite H1 in Hlt2. split.
  - apply ids_increase_app; [exact Hi1 | exact Hi2 |].
    intros l l' Hl Hl'. apply Hlt2; [apply in_or_app; right; exact Hl | exact Hl'].
  - intros l l' Hl Hl'. apply in_app_or in Hl'. destruct Hl' as [Hl' | Hl'].
    + apply Hlt1; assumption.
    + apply Hlt2; [apply in_or_app; left; exact Hl | exact Hl'].
Qed.

Lemma log_utcnow : keeps log_grows utcnow.
Proof. intro w. apply log_grows_same. reflexivity. Qed.

Lemma log_uuid4 : keeps log_grows uuid4.
Proof. intro w. apply log_grows_same. reflexivity. Qed.

Lemma log_commit : keeps log_grows commit.
Proof. intro w. apply log_grows_same. reflexivity. Qed.

Lemma log_add_result mk_row : keeps log_grows (add_control_result mk_row).
Proof. intro w. apply log_grows_same. reflexivity. Qed.

Lemma log_update_finding finding_id f : keeps log_grows (update_finding finding_id f).
Proof. intro w. apply log_grows_same. reflexivity. Qed.

Lemma log_assign account_id unchanged f :
  keeps log_grows (assign_account account_id unchanged f).
Proof.
  intro w. unfold assign_account.
  destruct (get_account account_id (session w)) as [a |]; [| apply log_grows_refl].
  destruct (unchanged a); [apply log_grows_refl |].
  apply log_grows_same. reflexivity.
Qed.

Lemma log_detect control client : keeps log_grows (call_detect control client).
Proof. intro w. apply log_grows_same. reflexivity. Qed.

Lemma log_remediate control client finding dry_run :
  keeps log_grows (call_remediate control client finding dry_run).
Proof.
  intro w. unfold call_remediate.
  destruct (remediate control client finding dry_run (cloud w)).
  apply log_grows_same. reflexivity.
Qed.

Lemma log_rollback control client rollback_data :
  keeps log_grows (call_rollback control client rollback_data).
Proof.
  intro w. unfold call_rollback.
  destruct (rollback control client rollback_data (cloud w)).
  apply log_grows_same. reflexivity.
Qed.

Lemma max_bounds (ids : list Z) (x : Z) : In x ids -> x <= fold_right Z.max 0 ids.
Proof.
  induction ids as [| y ids IH]; [intros [] |].
  intros [-> | Hin]; cbn [fold_right]; [lia | specialize (IH Hin); lia].
Qed.

(** A new audit row gets the next id of the table, whatever the database
    stamps it with. *)
Lemma log_add_log (mk_row : Z -> Z -> AuditLog.t) :
  (forall lid now, AuditLog.id (mk_row lid now) = lid) ->
  keeps log_grows (add_audit_log mk_row).
Proof.
  intros Hrow w. cbn -[Z.add next_id].
  eexists. split; [reflexivity |].
  split; [split; [intros l' [] | exact I] |].
  intros l l' Hl [<- | []]. rewrite Hrow. unfold next_id.
  pose proof (max_bounds (map AuditLog.id (audit_logs (session w))) (AuditLog.id l)
                (in_map AuditLog.id _ _ Hl)).
  lia.
Qed.

Lemma log_detection_log event_type action kwargs :
  keeps log_grows (DetectionEngine._log_audit event_type action kwargs).
Proof.
  unfold DetectionEngine._log_audit.
  apply (keeps_bind log_grows log_grows_trans); [| intro; apply log_commit].
  apply log_add_log. intros lid now. reflexivity.
Qed.

Lemma log_remediation_log event_type action actor kwargs :
  keeps log_grows (RemediationEngine._log_audit event_type action actor kwargs).
Proof.
  unfold RemediationEngine._log_audit.
  apply (keeps_bind log_grows log_grows_trans); [| intro; apply log_commit].
  apply log_add_log. intros lid now. reflexivity.
Qed.

(** C1, as the code has it: audit entries carry no hash fields.  What holds
    is that every request only appends to the audit table: the entries
    stored before are left as they were, the new entries come in the order
    of their ids, and each of them has a larger id than every entry stored
    before.  Nothing is said of the timestamps: they are the database's and
    entries written one after the other may carry the same one. *)
Theorem audit_log_is_append_only :
  forall (AWS_CONTROLS : list Control)
    (ClientSecretCredential : pyval -> pyval -> pyval -> option exn)
    (rq : Request) (w : World),
    exists new : list AuditLog.t,
      audit_logs (session (snd (serve AWS_CONTROLS ClientSecretCredential rq w)))
      = audit_logs (session w) ++ new
      /\ ids_increase new
      /\ forall l l', In l (audit_logs (session w)) -> In l' new ->
           AuditLog.id l < AuditLog.id l'.
Proof.
  intros AWS_CONTROLS ClientSecretCredential rq w.
  exact (keeps_serve log_grows log_grows_refl log_grows_trans log_utcnow log_uuid4
           log_commit log_add_result log_update_finding log_assign log_detection_log
           log_remediation_log log_detect log_remediate log_rollback
           AWS_CONTROLS ClientSecretCredential rq w).
Qed.

(** C1, as the spec words it, fails: whatever is read out of the stored
    entries as [prevHash] and [hash], no chaining function that tells
    modified entries apart replays on the logs the system writes.  The two
    histories end in the same stored entry for organization 1 and differ in
    the entry before it. *)
Lemma stored_log_is_not_tamper_evident :
  ~ tamper_evident demo_controls demo_credential.
Proof.
  intros (prev_hash & hash & H & Hdetects & Hchain).
  assert (Wo : written_by_system demo_controls demo_credential (history cloud_open)).
  { exists (demo_world cloud_open store_up (demo_db None [])), two_scans.
    split; reflexivity. }
  assert (Wb : written_by_system demo_controls demo_credential (history cloud_blocked)).
  { exists (demo_world cloud_blocked store_up (demo_db None [])), two_scans.
    split; reflexivity. }
  pose proof (Hchain _ 1 Wo) as Ho. pose proof (Hchain _ 1 Wb) as Hb.
  assert (Eo : organization_chain 1 (history cloud_open) = chain_open)
    by (vm_compute; reflexivity).
  assert (Eb : organization_chain 1 (history cloud_blocked) = chain_blocked)
    by (vm_compute; reflexivity).
  rewrite Eo in Ho. rewrite Eb in Hb. clear Eo Eb Wo Wb Hchain.
  destruct Ho as [Ho1 Ho2]. destruct Hb as [Hb1 Hb2].
  unfold chain_open in Ho1, Ho2. unfold chain_blocked in Hb1, Hb2.
  match type of Ho2 with
  | forall pre e1 e2 post, [?a; ?c] = _ -> _ =>
      pose proof (Ho2 [] a c [] eq_refl) as Hlast_open;
      pose proof (Ho1 a (or_introl eq_refl)) as Hfirst_open
  end.
  match type of Hb2 with
  | forall pre e1 e2 post, [?a; ?c] = _ -> _ =>
      pose proof (Hb2 [] a c [] eq_refl) as Hlast_blocked;
      pose proof (Hb1 a (or_introl eq_refl)) as Hfirst_blocked
  end.
  clear Ho1 Ho2 Hb1 Hb2.
  rewrite Hlast_open in Hlast_blocked.
  rewrite Hfirst_open, Hfirst_blocked in Hlast_blocked.
  apply Hdetects in Hlast_blocked. destruct Hlast_blocked as [_ Hsame].
  apply (f_equal (fun e => py_get "pass" (AuditLog.event_data e))) in Hsame.
  vm_compute in Hsame. discriminate.
Qed.

(** ** A scan runs to the end *)

Lemma bind_ok {A B : Type} (m : M A) (k : A -> M B) (w w1 : World) (a : A) :
  m w = (Ok a, w1) -> bind m k w = k a w1.
Proof. intro H. unfold bind. rewrite H. reflexivity. Qed.

Lemma answers_ret {A : Type} (a : A) : always_answers (ret a).
Proof. intro w. exists a. reflexivity. Qed.

Lemma answers_bind {A B : Type} (m : M A) (k : A -> M B) :
  always_answers m -> (forall a, always_answers (k a)) -> always_answers (bind m k).
Proof.
  intros Hm Hk w. unfold bind. destruct (Hm w) as [a Ha].
  destruct (m w) as [[a' | e] w1]; cbn [fst] in Ha; [| discriminate].
  apply Hk.
Qed.

Lemma answers_try {A : Type} (body : M A) (handler : exn -> M A) :
  (forall e, always_answers (handler e)) -> always_answers (try_except body handler).
Proof.
  intros Hh w. unfold try_except.
  destruct (body w) as [[a | e] w1]; [exists a; reflexivity | apply Hh].
Qed.

Lemma answers_utcnow : always_answers utcnow.
Proof. intro w. eexists. reflexivity. Qed.

Lemma answers_commit : always_answers commit.
Proof. intro w. eexists. reflexivity. Qed.

Lemma answers_add_result mk_row : always_answers (add_control_result mk_row).
Proof. intro w. eexists. reflexivity. Qed.

Lemma answers_detection_log event_type action kwargs :
  always_answers (DetectionEngine._log_audit event_type action kwargs).
Proof. intro w. eexists. reflexivity. Qed.

Lemma answers_save_result account_id control finding status scan_id error_msg :
  always_answers
    (DetectionEngine._save_result account_id control finding status scan_id error_msg).
Proof.
  unfold DetectionEngine._save_result.
  apply answers_bind; [apply answers_add_result | intro].
  apply answers_bind; [apply answers_commit | intro].
  apply answers_detection_log.
Qed.

Lemma answers_save_findings account_id control scan_id findings :
  always_answers (DetectionEngine.save_findings account_id control scan_id findings).
Proof.
  induction findings as [| finding rest IH]; cbn [DetectionEngine.save_findings].
  - apply answers_ret.
  - apply answers_bind; [apply answers_save_result | intro; exact IH].
Qed.

(** A control that raises does not stop the loop: every turn answers. *)
Lemma answers_run_control account_id scan_id client control n :
  always_answers (DetectionEngine.run_control account_id scan_id client control n).
Proof.
  unfold DetectionEngine.run_control. apply answers_try. intro e.
  apply answers_bind; [apply answers_save_result | intro; apply answers_ret].
Qed.

Lemma answers_run_controls account_id scan_id client controls :
  forall n,
    always_answers (DetectionEngine.run_controls account_id scan_id client controls n).
Proof.
  induction controls as [| control rest IH]; intro n; cbn [DetectionEngine.run_controls].
  - apply answers_ret.
  - apply answers_bind; [apply answers_run_control | intro n'; apply IH].
Qed.

Lemma same_accounts_refl (w : World) : same_accounts w w.
Proof. reflexivity. Qed.

Lemma same_accounts_trans (a b c : World) :
  same_accounts a b -> same_accounts b c -> same_accounts a c.
Proof. unfold same_accounts. congruence. Qed.

Lemma accounts_run_controls account_id scan_id client controls n :
  keeps same_accounts (DetectionEngine.run_controls account_id scan_id client controls n).
Proof.
  apply (keeps_run_controls same_accounts same_accounts_refl same_accounts_trans);
    intros; intro w; reflexivity.
Qed.

(** [account.last_scan_status = v] shows in the account row. *)
Lemma assign_status_sets (account_id : Z) (v : string) (w : World)
  (account : CloudAccount.t) :
  get_account account_id (session w) = Some account ->
  exists w',
    assign_last_scan_status account_id v w = (Ok tt, w')
    /\ option_map CloudAccount.last_scan_status (get_account account_id (session w'))
       = Some (Some v).
Proof.
  intro Hacc. unfold assign_last_scan_status, assign_account. rewrite Hacc.
  destruct (opt_str_eqb (CloudAccount.last_scan_status account) (Some v)) eqn:E.
  - eexists. split; [reflexivity |].
    rewrite Hacc. cbn [option_map]. apply opt_str_eqb_eq in E. rewrite E. reflexivity.
  - eexists. split; [reflexivity |]. cbn [session with_session].
    rewrite get_account_update by (intro; reflexivity).
    rewrite Hacc. reflexivity.
Qed.

Lemma assign_at_keeps_row (account_id t : Z) (w : World) (account : CloudAccount.t) :
  get_account account_id (session w) = Some account ->
  exists w' account',
    assign_last_scan_at account_id t w = (Ok tt, w')
    /\ get_account account_id (session w') = Some account'.
Proof.
  intro Hacc. unfold assign_last_scan_at, assign_account. rewrite Hacc.
  destruct (opt_int_eqb (CloudAccount.last_scan_at account) (Some t)).
  - exists w, account. split; [reflexivity | exact Hacc].
  - eexists. eexists. split; [reflexivity |]. cbn [session with_session].
    rewrite get_account_update by (intro; reflexivity).
    rewrite Hacc. reflexivity.
Qed.

(** The scan of an AWS account after the account is marked: whatever the
    controls do, it answers with status "completed" and leaves the account
    committed with [last_scan_status = success]. *)
Lemma run_scan_completes :
  forall (AWS_CONTROLS : list Control)
    (ClientSecretCredential : pyval -> pyval -> pyval -> option exn)
    (account : CloudAccount.t) (account_id : Z) (control_ids : option (list string))
    (scan_id : string) (scan_start : Z) (w : World) (row : CloudAccount.t),
    CloudAccount.provider account = "aws"%string ->
    get_account account_id (session w) = Some row ->
    exists (r : pyval) (w' : World),
      DetectionEngine.run_scan AWS_CONTROLS ClientSecretCredential account account_id
        control_ids scan_id scan_start w = (Ok r, w')
      /\ py_get "status" r = Some (PStr "completed")
      /\ committed w' = session w'
      /\ option_map CloudAccount.last_scan_status (get_account account_id (session w'))
         = Some (Some "success"%string).
Proof.
  intros AWS_CONTROLS ClientSecretCredential account account_id control_ids scan_id
    scan_start w row Hprov Hrow.
  unfold DetectionEngine.run_scan, DetectionEngine.provider_controls.
  rewrite Hprov. cbn [String.eqb Ascii.eqb Bool.eqb].
  rewrite (bind_ok (ret _) _ w w _ eq_refl). cbv zeta. cbn [fst snd].
  set (client := Some (mkAWSClient (CloudAccount.credentials account))).
  set (controls := DetectionEngine.filter_controls control_ids AWS_CONTROLS).
  destruct (answers_run_controls account_id scan_id client controls
              (DetectionEngine.mkCounts 0 0 0 0) w) as [n Hn].
  pose proof (accounts_run_controls account_id scan_id client controls
                (DetectionEngine.mkCounts 0 0 0 0) w) as Hsame.
  destruct (DetectionEngine.run_controls account_id scan_id client controls
              (DetectionEngine.mkCounts 0 0 0 0) w) as [res w1] eqn:Hloop.
  cbn [fst snd] in Hn, Hsame. subst res.
  rewrite (bind_ok _ _ w w1 n Hloop).
  assert (Hrow1 : get_account account_id (session w1) = Some row).
  { unfold get_account. rewrite Hsame. exact Hrow. }
  rewrite (bind_ok utcnow _ w1 _ _ eq_refl).
  match goal with
  | |- context [bind (assign_last_scan_at _ ?t) _ ?w2] =>
      destruct (assign_at_keeps_row account_id t w2 row Hrow1)
        as (w3 & row3 & Hat & Hrow3)
  end.
  rewrite (bind_ok _ _ _ _ _ Hat).
  destruct (assign_status_sets account_id "success" w3 row3 Hrow3) as (w4 & Hst & Hrow4).
  rewrite (bind_ok _ _ _ _ _ Hst).
  rewrite (bind_ok commit _ w4 _ _ eq_refl).
  rewrite (bind_ok utcnow _ _ _ _ eq_refl).
  match goal with
  | |- context [bind (DetectionEngine._log_audit ?a ?b ?c) _ ?w5] =>
      rewrite (bind_ok (DetectionEngine._log_audit a b c) _ w5 _ _ eq_refl)
  end.
  rewrite (bind_ok utcnow _ _ _ _ eq_refl).
  unfold ret. do 2 eexists. split; [reflexivity |].
  split; [reflexivity |]. split; [reflexivity |].
  exact Hrow4.
Qed.

(** A scan of an AWS account always runs to the end: a control that raises
    becomes an ERROR finding (see [raising_control_gives_error_finding]) and
    the scan answers "completed" with the account marked as success. *)
Theorem scan_of_aws_account_completes :
  forall (AWS_CONTROLS : list Control)
    (ClientSecretCredential : pyval -> pyval -> pyval -> option exn)
    (account_id : Z) (control_ids : option (list string)) (w : World)
    (account : CloudAccount.t),
    get_account account_id (session w) = Some account ->
    CloudAccount.provider account = "aws"%string ->
    exists (r : pyval) (w' : World),
      DetectionEngine.scan_account AWS_CONTROLS ClientSecretCredential account_id
        control_ids w = (Ok r, w')
      /\ py_get "status" r = Some (PStr "completed")
      /\ committed w' = session w'
      /\ option_map CloudAccount.last_scan_status (get_account account_id (session w'))
         = Some (Some "success"%string).
Proof.
  intros AWS_CONTROLS ClientSecretCredential account_id control_ids w account Hacc Hprov.
  unfold DetectionEngine.scan_account. rewrite bind_gets, Hacc.
  rewrite (bind_ok uuid4 _ w _ _ eq_refl).
  rewrite (bind_ok utcnow _ _ _ _ eq_refl).
  unfold try_except.
  match goal with
  | |- context [bind (assign_last_scan_status _ _) _ ?w1] =>
      destruct (assign_status_sets account_id "in_progress" w1 account Hacc)
        as (w2 & Hmark & Hrow2)
  end.
  rewrite (bind_ok _ _ _ _ _ Hmark).
  rewrite (bind_ok commit _ w2 _ _ eq_refl).
  destruct (get_account account_id (session w2)) as [row2 |] eqn:Hrow; [| discriminate].
  match goal with
  | |- context [DetectionEngine.run_scan _ _ _ _ _ ?sid ?start ?w3] =>
      destruct (run_scan_completes AWS_CONTROLS ClientSecretCredential account
                  account_id control_ids sid start w3 row2 Hprov Hrow)
        as (r & w' & Hrun & Hstatus & Hcommitted & Hsuccess)
  end.
  rewrite Hrun. exists r, w'. repeat split; assumption.
Qed.

(** ** What a scan writes, and what it reports *)

Lemma scan_adds_nothing (account_id : Z) (scan_id : string) (w w' : World) :
  session w' = session w -> scan_adds account_id scan_id [] [] w w'.
Proof.
  intro H. unfold scan_adds. rewrite H, !app_nil_r. repeat split; constructor.
Qed.

Lemma scan_adds_then (account_id : Z) (scan_id : string)
  (rows1 rows2 : list ControlResult.t) (entries1 entries2 : list AuditLog.t)
  (w w1 w2 : World) :
  scan_adds account_id scan_id rows1 entries1 w w1 ->
  scan_adds account_id scan_id rows2 entries2 w1 w2 ->
  scan_adds account_id scan_id (rows1 ++ rows2) (entries1 ++ entries2) w w2.
Proof.
  intros (Hr1 & Ha1 & Hc1 & Ho1 & Hl1 & Hf1 & He1) (Hr2 & Ha2 & Hc2 & Ho2 & Hl2 & Hf2 & He2).
  unfold scan_adds. rewrite Hr2, Hr1, Ha2, Ha1, Hc2, Hc1, Ho2, Ho1, <- !app_assoc.
  rewrite !length_app, Hl1, Hl2.
  repeat split; apply Forall_app; split; assumption.
Qed.

(** One call of [_save_result]: one row, one detection entry, committed. *)
Lemma save_result_adds :
  forall (account_id : Z) (control : Control) (finding : option ControlFinding.t)
    (status scan_id : string) (error_msg : option string) (w : World),
    exists (w' : World) (row : ControlResult.t) (entry : AuditLog.t),
      DetectionEngine._save_result account_id control finding status scan_id error_msg w
      = (Ok tt, w')
      /\ scan_adds account_id scan_id [row] [entry] w w'
      /\ ControlResult.status row = status
      /\ ControlResult.control_id row = control_id control
      /\ cloud w' = cloud w
      /\ committed w' = session w'.
Proof.
  intros. unfold DetectionEngine._save_result, DetectionEngine._log_audit, bind.
  cbn -[next_id Z.add String.append]. do 3 eexists. split; [reflexivity |].
  unfold scan_adds, written_by_scan, detection_entry.
  cbn -[next_id Z.add String.append].
  repeat split; repeat constructor.
Qed.

Lemma save_findings_adds :
  forall (account_id : Z) (control : Control) (scan_id : string)
    (findings : list ControlFinding.t) (w : World),
    exists (w' : World) (rows : list ControlResult.t) (entries : list AuditLog.t),
      DetectionEngine.save_findings account_id control scan_id findings w = (Ok tt, w')
      /\ scan_adds account_id scan_id rows entries w w'
      /\ List.length rows = List.length findings
      /\ map ControlResult.status rows = map ControlFinding.status findings
      /\ cloud w' = cloud w.
Proof.
  intros account_id control scan_id findings.
  induction findings as [| finding rest IH]; intro w; cbn [DetectionEngine.save_findings].
  - exists w, [], []. split; [reflexivity |].
    split; [apply scan_adds_nothing; reflexivity |]. repeat split.
  - destruct (save_result_adds account_id control (Some finding)
                (ControlFinding.status finding) scan_id None w)
      as (w1 & row & entry & Hrun & Hadds & Hst & _ & Hcloud & _).
    destruct (IH w1) as (w2 & rows & entries & Hrest & Hadds' & Hlen & Hsts & Hcloud').
    exists w2, ([row] ++ rows), ([entry] ++ entries).
    rewrite (bind_ok _ _ _ _ _ Hrun).
    split; [exact Hrest |].
    split; [exact (scan_adds_then _ _ _ _ _ _ _ _ _ Hadds Hadds') |].
    cbn [app List.length map]. rewrite Hlen, Hsts, Hst.
    repeat split. congruence.
Qed.

(** One turn of the loop: the rows it adds are what the counters gain. *)
Lemma run_control_adds :
  forall (account_id : Z) (scan_id : string) (client : option AWSClient)
    (control : Control) (n : DetectionEngine.Counts) (w : World),
    exists (n' : DetectionEngine.Counts) (w' : World) (rows : list ControlResult.t)
           (entries : list AuditLog.t),
      DetectionEngine.run_control account_id scan_id client control n w = (Ok n', w')
      /\ scan_adds account_id scan_id rows entries w w'
      /\ len rows
         = (DetectionEngine.pass_count n' - DetectionEngine.pass_count n)
           + (DetectionEngine.fail_count n' - DetectionEngine.fail_count n)
           + (DetectionEngine.error_count n' - DetectionEngine.error_count n)
      /\ DetectionEngine.total_findings n' - DetectionEngine.total_findings n
         = DetectionEngine.fail_count n' - DetectionEngine.fail_count n
      /\ 0 <= DetectionEngine.pass_count n' - DetectionEngine.pass_count n
      /\ 0 <= DetectionEngine.fail_count n' - DetectionEngine.fail_count n
      /\ 0 <= DetectionEngine.error_count n' - DetectionEngine.error_count n
      /\ (DetectionEngine.pass_count n' - DetectionEngine.pass_count n)
         + (DetectionEngine.error_count n' - DetectionEngine.error_count n) <= 1
      /\ cloud w' = cloud w.
Proof.
  intros account_id scan_id client control n w.
  unfold DetectionEngine.run_control, try_except, call_detect.
  unfold bind at 1.
  set (w0 := emit (EvDetect (control_id control)) w).
  assert (Hs0 : session w0 = session w) by reflexivity.
  assert (Hc0 : cloud w0 = cloud w) by reflexivity.
  destruct (detect control client (cloud w)) as [[| finding rest] | e].
  - destruct (save_result_adds account_id control None "PASS" scan_id None w0)
      as (w1 & row & entry & Hrun & Hadds & _ & _ & Hcloud & _).
    rewrite (bind_ok _ _ _ _ _ Hrun). unfold ret.
    eexists. exists w1, [row], [entry]. split; [reflexivity |].
    split.
    { unfold scan_adds in *. rewrite <- Hs0. exact Hadds. }
    cbn [DetectionEngine.pass_count DetectionEngine.fail_count
           DetectionEngine.error_count DetectionEngine.total_findings].
    unfold len. cbn [List.length]. rewrite Hcloud. repeat split; lia.
  - destruct (save_findings_adds account_id control scan_id (finding :: rest) w0)
      as (w1 & rows & entries & Hrun & Hadds & Hlen & _ & Hcloud).
    rewrite (bind_ok _ _ _ _ _ Hrun). unfold ret.
    eexists. exists w1, rows, entries. split; [reflexivity |].
    split.
    { unfold scan_adds in *. rewrite <- Hs0. exact Hadds. }
    cbn [DetectionEngine.pass_count DetectionEngine.fail_count
           DetectionEngine.error_count DetectionEngine.total_findings].
    unfold len. rewrite Hlen, Hcloud. repeat split; lia.
  - destruct (save_result_adds account_id control None "ERROR" scan_id
                (Some (exc_str e)) w0)
      as (w1 & row & entry & Hrun & Hadds & _ & _ & Hcloud & _).
    rewrite (bind_ok _ _ _ _ _ Hrun). unfold ret.
    eexists. exists w1, [row], [entry]. split; [reflexivity |].
    split.
    { unfold scan_adds in *. rewrite <- Hs0. exact Hadds. }
    cbn [DetectionEngine.pass_count DetectionEngine.fail_count
           DetectionEngine.error_count DetectionEngine.total_findings].
    unfold len. cbn [List.length]. rewrite Hcloud. repeat split; lia.
Qed.

Lemma run_controls_adds :
  forall (account_id : Z) (scan_id : string) (client : option AWSClient)
    (controls : list Control) (n : DetectionEngine.Counts) (w : World),
    exists (n' : DetectionEngine.Counts) (w' : World) (rows : list ControlResult.t)
           (entries : list AuditLog.t),
      DetectionEngine.run_controls account_id scan_id client controls n w = (Ok n', w')
      /\ scan_adds account_id scan_id rows entries w w'
      /\ len rows
         = (DetectionEngine.pass_count n' - DetectionEngine.pass_count n)
           + (DetectionEngine.fail_count n' - DetectionEngine.fail_count n)
           + (DetectionEngine.error_count n' - DetectionEngine.error_count n)
      /\ DetectionEngine.total_findings n' - DetectionEngine.total_findings n
         = DetectionEngine.fail_count n' - DetectionEngine.fail_count n
      /\ 0 <= DetectionEngine.pass_count n' - DetectionEngine.pass_count n
      /\ 0 <= DetectionEngine.fail_count n' - DetectionEngine.fail_count n
      /\ 0 <= DetectionEngine.error_count n' - DetectionEngine.error_count n
      /\ (DetectionEngine.pass_count n' - DetectionEngine.pass_count n)
         + (DetectionEngine.error_count n' - DetectionEngine.error_count n)
         <= len controls
      /\ cloud w' = cloud w
      /\ (controls = [] -> rows = []).
Proof.
  intros account_id scan_id client controls.
  induction controls as [| control rest IH]; intros n w;
    cbn [DetectionEngine.run_controls].
  - exists n, w, [], []. split; [reflexivity |].
    split; [apply scan_adds_nothing; reflexivity |].
    unfold len. cbn [List.length]. repeat split; lia.
  - destruct (run_control_adds account_id scan_id client control n w)
      as (n1 & w1 & rows1 & entries1 & Hrun & Hadds & Hlen & Htot & Hp & Hf & He & Hone
          & Hcloud).
    destruct (IH n1 w1)
      as (n2 & w2 & rows2 & entries2 & Hrest & Hadds' & Hlen' & Htot' & Hp' & Hf' & He'
          & Hmany & Hcloud' & _).
    exists n2, w2, (rows1 ++ rows2), (entries1 ++ entries2).
    rewrite (bind_ok _ _ _ _ _ Hrun).
    split; [exact Hrest |].
    split; [exact (scan_adds_then _ _ _ _ _ _ _ _ _ Hadds Hadds') |].
    unfold len in *. rewrite length_app. cbn [List.length].
    rewrite Hcloud', Hcloud. repeat split; try lia. discriminate.
Qed.

Lemma assign_account_tables :
  forall (account_id : Z) (unchanged : CloudAccount.t -> bool)
    (f : CloudAccount.t -> CloudAccount.t) (w : World),
    exists w',
      assign_account account_id unchanged f w = (Ok tt, w')
      /\ control_results (session w') = control_results (session w)
      /\ audit_logs (session w') = audit_logs (session w)
      /\ organizations (session w') = organizations (session w)
      /\ cloud w' = cloud w.
Proof.
  intros. unfold assign_account.
  destruct (get_account account_id (session w)) as [a |].
  - destruct (unchanged a); eexists; (split; [reflexivity |]); repeat split.
  - eexists. split; [reflexivity |]. repeat split.
Qed.

Lemma assign_status_tables (account_id : Z) (v : string) (w : World) :
  exists w',
    assign_last_scan_status account_id v w = (Ok tt, w')
    /\ control_results (session w') = control_results (session w)
    /\ audit_logs (session w') = audit_logs (session w)
    /\ organizations (session w') = organizations (session w)
    /\ cloud w' = cloud w.
Proof. apply assign_account_tables. Qed.

Lemma assign_at_tables (account_id t : Z) (w : World) :
  exists w',
    assign_last_scan_at account_id t w = (Ok tt, w')
    /\ control_results (session w') = control_results (session w)
    /\ audit_logs (session w') = audit_logs (session w)
    /\ organizations (session w') = organizations (session w)
    /\ cloud w' = cloud w.
Proof. apply assign_account_tables. Qed.

Lemma assign_status_effect (account_id : Z) (v : string) (w : World)
  (account : CloudAccount.t) :
  get_account account_id (session w) = Some account ->
  exists w',
    assign_last_scan_status account_id v w = (Ok tt, w')
    /\ option_map CloudAccount.last_scan_status (get_account account_id (session w'))
       = Some (Some v)
    /\ control_results (session w') = control_results (session w)
    /\ audit_logs (session w') = audit_logs (session w)
    /\ organizations (session w') = organizations (session w)
    /\ cloud w' = cloud w
    /\ trace w' = trace w.
Proof.
  intro Hacc. unfold assign_last_scan_status, assign_account. rewrite Hacc.
  destruct (opt_str_eqb (CloudAccount.last_scan_status account) (Some v)) eqn:E.
  - eexists. split; [reflexivity |]. split; [| repeat split].
    rewrite Hacc. cbn [option_map]. apply opt_str_eqb_eq in E. rewrite E. reflexivity.
  - eexists. split; [reflexivity |]. split; [| repeat split].
    cbn [session with_session]. rewrite get_account_update by (intro; reflexivity).
    rewrite Hacc. reflexivity.
Qed.

(** Everything a scan writes, against its summary, once the provider gave
    its client and controls. *)
Lemma scan_account_writes :
  forall (AWS_CONTROLS : list Control)
    (ClientSecretCredential : pyval -> pyval -> pyval -> option exn)
    (account_id : Z) (control_ids : option (list string)) (w : World)
    (account : CloudAccount.t) (client : option AWSClient) (controls : list Control),
    get_account account_id (session w) = Some account ->
    DetectionEngine.provider_controls AWS_CONTROLS ClientSecretCredential account
    = ret (client, controls) ->
    exists (r : pyval) (w' : World) (n : DetectionEngine.Counts)
           (rows : list ControlResult.t) (entries : list AuditLog.t)
           (scan_entry : AuditLog.t),
      DetectionEngine.scan_account AWS_CONTROLS ClientSecretCredential account_id
        control_ids w = (Ok r, w')
      /\ py_get "summary" r
         = Some (PDict
                   [ (PStr "total_controls",
                       PInt (len (DetectionEngine.filter_controls control_ids controls)));
                     (PStr "pass", PInt (DetectionEngine.pass_count n));
                     (PStr "fail", PInt (DetectionEngine.fail_count n));
                     (PStr "error", PInt (DetectionEngine.error_count n));
                     (PStr "total_findings", PInt (DetectionEngine.total_findings n)) ])
      /\ DetectionEngine.total_findings n = DetectionEngine.fail_count n
      /\ len rows
         = DetectionEngine.pass_count n + DetectionEngine.fail_count n
           + DetectionEngine.error_count n
      /\ 0 <= DetectionEngine.pass_count n
      /\ 0 <= DetectionEngine.fail_count n
      /\ 0 <= DetectionEngine.error_count n
      /\ DetectionEngine.pass_count n + DetectionEngine.error_count n
         <= len (DetectionEngine.filter_controls control_ids controls)
      /\ control_results (session w') = control_results (session w) ++ rows
      /\ Forall (written_by_scan account_id
                   ("uuid-" +++ str_int (Z.of_nat (uuids w)))) rows
      /\ audit_logs (session w') = audit_logs (session w) ++ entries ++ [scan_entry]
      /\ List.length entries = List.length rows
      /\ Forall (detection_entry account_id) entries
      /\ AuditLog.event_type scan_entry = "scan"%string
      /\ AuditLog.organization_id scan_entry
         = Some (CloudAccount.organization_id account)
      /\ py_get "scan_id" r = Some (PStr ("uuid-" +++ str_int (Z.of_nat (uuids w))))
      /\ py_get "status" r = Some (PStr "completed")
      /\ option_map CloudAccount.last_scan_status (get_account account_id (session w'))
         = Some (Some "success"%string)
      /\ organizations (session w') = organizations (session w)
      /\ committed w' = session w'
      /\ (DetectionEngine.filter_controls control_ids controls = [] -> rows = []).
Proof.
  intros AWS_CONTROLS ClientSecretCredential account_id control_ids w account client
    controls0 Hacc Hprov.
  unfold DetectionEngine.scan_account. rewrite bind_gets, Hacc.
  rewrite (bind_ok uuid4 _ w _ _ eq_refl).
  rewrite (bind_ok utcnow _ _ _ _ eq_refl).
  set (scan_id := ("uuid-" +++ str_int (Z.of_nat (uuids w)))%string).
  unfold try_except.
  match goal with
  | |- context [bind (assign_last_scan_status ?a ?v) _ ?w1] =>
      destruct (assign_status_effect a v w1 account Hacc)
        as (w2 & Hmark & Hrow2 & Hr2 & Ha2 & Ho2 & _)
  end.
  rewrite (bind_ok _ _ _ _ _ Hmark).
  rewrite (bind_ok commit _ w2 _ _ eq_refl).
  unfold DetectionEngine.run_scan. rewrite Hprov.
  match goal with
  | |- context [bind (ret ?x) _ ?w3] => rewrite (bind_ok (ret x) _ w3 w3 x eq_refl)
  end.
  cbv zeta. cbn [fst snd].
  set (controls := DetectionEngine.filter_controls control_ids controls0).
  match goal with
  | |- context [bind (DetectionEngine.run_controls ?a ?s ?c ?cs ?n0) _ ?w3] =>
      destruct (run_controls_adds a s c cs n0 w3)
        as (n & w4 & rows & entries & Hloop & Hadds & Hlen & Htot & Hp & Hf & He & Hmany
            & _ & Hnone)
  end.
  rewrite (bind_ok _ _ _ _ _ Hloop).
  destruct Hadds as (Hr4 & Ha4 & Hc4 & Ho4 & Hlen4 & Hrows & Hentries).
  cbn [session] in Hr4, Ha4, Hc4, Ho4.
  rewrite (bind_ok utcnow _ w4 _ _ eq_refl).
  destruct (get_account account_id (session w2)) as [row2 |] eqn:Hrow; [| discriminate].
  assert (Hrow4 : get_account account_id (session w4) = Some row2).
  { unfold get_account. rewrite Hc4. exact Hrow. }
  match goal with
  | |- context [bind (assign_last_scan_at ?a ?t) _ ?w5] =>
      destruct (assign_at_keeps_row a t w5 row2 Hrow4) as (w6 & row6 & Hat & Hrow6);
      destruct (assign_at_tables a t w5) as (w6' & Hat' & Hr6 & Ha6 & Ho6 & _)
  end.
  rewrite Hat in Hat'. injection Hat' as <-.
  rewrite (bind_ok _ _ _ _ _ Hat).
  destruct (assign_status_effect account_id "success" w6 row6 Hrow6)
    as (w8 & Hst & Hrow8 & Hr8 & Ha8 & Ho8 & _).
  rewrite (bind_ok _ _ _ _ _ Hst).
  rewrite (bind_ok commit _ w8 _ _ eq_refl).
  rewrite (bind_ok utcnow _ _ _ _ eq_refl).
  match goal with
  | |- context [bind (DetectionEngine._log_audit ?a ?b ?c) _ ?w9] =>
      rewrite (bind_ok (DetectionEngine._log_audit a b c) _ w9 _ _ eq_refl)
  end.
  rewrite (bind_ok utcnow _ _ _ _ eq_refl).
  unfold ret. eexists. eexists. exists n, rows, entries. eexists.
  split; [reflexivity |].
  cbn -[next_id Z.add String.append len get_account] in *.
  split; [reflexivity |].
  split; [lia |]. split; [lia |]. split; [lia |]. split; [lia |]. split; [lia |].
  split; [fold controls; lia |].
  split; [rewrite Hr8, Hr6, Hr4, Hr2; reflexivity |].
  split; [exact Hrows |].
  split; [rewrite Ha8, Ha6, Ha4, Ha2, <- app_assoc; reflexivity |].
  split; [exact Hlen4 |]. split; [exact Hentries |].
  split; [reflexivity |]. split; [reflexivity |]. split; [reflexivity |].
  split; [reflexivity |].
  split; [exact Hrow8 |].
  split; [rewrite Ho8, Ho6, Ho4, Ho2; reflexivity |].
  split; [reflexivity | exact Hnone].
Qed.

(** A scan whose provider step raises: the exception goes up after the
    account is committed as failed; no control ran and nothing else was
    written. *)
Lemma scan_account_fails :
  forall (AWS_CONTROLS : list Control)
    (ClientSecretCredential : pyval -> pyval -> pyval -> option exn)
    (account_id : Z) (control_ids : option (list string)) (w : World)
    (account : CloudAccount.t) (e : exn),
    get_account account_id (session w) = Some account ->
    DetectionEngine.provider_controls AWS_CONTROLS ClientSecretCredential account
    = raise e ->
    exists (w' : World) (marked : DB),
      DetectionEngine.scan_account AWS_CONTROLS ClientSecretCredential account_id
        control_ids w = (Raise e, w')
      /\ option_map CloudAccount.last_scan_status (get_account account_id (session w'))
         = Some (Some "failed"%string)
      /\ committed w' = session w'
      /\ trace w' = trace w ++ [EvCommit marked; EvCommit (session w')]
      /\ control_results (session w') = control_results (session w)
      /\ audit_logs (session w') = audit_logs (session w)
      /\ cloud w' = cloud w.
Proof.
  intros AWS_CONTROLS ClientSecretCredential account_id control_ids w account e Hacc
    Hprov.
  unfold DetectionEngine.scan_account. rewrite bind_gets, Hacc.
  rewrite (bind_ok uuid4 _ w _ _ eq_refl).
  rewrite (bind_ok utcnow _ _ _ _ eq_refl).
  unfold try_except.
  match goal with
  | |- context [bind (assign_last_scan_status ?a ?v) _ ?w1] =>
      destruct (assign_status_effect a v w1 account Hacc)
        as (w2 & Hmark & Hrow2 & Hr2 & Ha2 & Ho2 & Hc2 & Ht2)
  end.
  rewrite (bind_ok _ _ _ _ _ Hmark).
  rewrite (bind_ok commit _ w2 _ _ eq_refl).
  unfold DetectionEngine.run_scan. rewrite Hprov.
  unfold bind at 1. unfold raise at 1.
  destruct (get_account account_id (session w2)) as [row2 |] eqn:Hrow; [| discriminate].
  match goal with
  | |- context [bind (assign_last_scan_status ?a ?v) _ ?w3] =>
      destruct (assign_status_effect a v w3 row2 Hrow)
        as (w4 & Hfail & Hrow4 & Hr4 & Ha4 & Ho4 & Hc4 & Ht4)
  end.
  rewrite (bind_ok _ _ _ _ _ Hfail).
  rewrite (bind_ok commit _ w4 _ _ eq_refl).
  unfold raise. eexists. exists (session w2). split; [reflexivity |].
  cbn [session committed trace cloud] in *.
  split; [exact Hrow4 |]. split; [reflexivity |].
  split; [rewrite Ht4, Ht2, <- app_assoc; reflexivity |].
  split; [rewrite Hr4, Hr2; reflexivity |].
  split; [rewrite Ha4, Ha2; reflexivity |].
  rewrite Hc4, Hc2. reflexivity.
Qed.

(** ** A scan does not look at the status of the last one *)

Lemma detect_calls_app (tr1 tr2 : list Event) :
  detect_calls (tr1 ++ tr2) = detect_calls tr1 ++ detect_calls tr2.
Proof.
  induction tr1 as [| ev tr1 IH]; [reflexivity |].
  destruct ev; cbn [app detect_calls]; rewrite IH; reflexivity.
Qed.

Lemma calls_detect_same (w w' : World) : trace w' = trace w -> calls_detect [] w w'.
Proof. intro H. exists []. rewrite H, app_nil_r. split; reflexivity. Qed.

Lemma calls_detect_then (ids1 ids2 : list string) (w w1 w2 : World) :
  calls_detect ids1 w w1 -> calls_detect ids2 w1 w2 -> calls_detect (ids1 ++ ids2) w w2.
Proof.
  intros (tr1 & H1 & Hd1) (tr2 & H2 & Hd2). exists (tr1 ++ tr2).
  rewrite H2, H1, <- app_assoc, detect_calls_app, Hd1, Hd2. split; reflexivity.
Qed.

(** [_save_result] commits twice and calls no control. *)
Lemma save_result_calls :
  forall (account_id : Z) (control : Control) (finding : option ControlFinding.t)
    (status scan_id : string) (error_msg : option string) (w : World),
    calls_detect [] w
      (snd (DetectionEngine._save_result account_id control finding status scan_id
              error_msg w)).
Proof.
  intros. unfold DetectionEngine._save_result, DetectionEngine._log_audit, bind.
  cbn -[next_id Z.add String.append].
  eexists [_; _]. rewrite <- app_assoc. split; reflexivity.
Qed.

Lemma save_findings_calls :
  forall (account_id : Z) (control : Control) (scan_id : string)
    (findings : list ControlFinding.t) (w : World),
    calls_detect [] w
      (snd (DetectionEngine.save_findings account_id control scan_id findings w)).
Proof.
  intros account_id control scan_id findings.
  induction findings as [| finding rest IH]; intro w; cbn [DetectionEngine.save_findings].
  - apply calls_detect_same. reflexivity.
  - destruct (save_result_adds account_id control (Some finding)
                (ControlFinding.status finding) scan_id None w)
      as (w1 & row & entry & Hrun & _).
    pose proof (save_result_calls account_id control (Some finding)
                  (ControlFinding.status finding) scan_id None w) as Hcalls.
    rewrite Hrun in Hcalls. cbn [snd] in Hcalls.
    rewrite (bind_ok _ _ _ _ _ Hrun).
    exact (calls_detect_then [] [] _ _ _ Hcalls (IH w1)).
Qed.

(** One turn of the loop calls [detect] of its control, once, whatever the
    call answers. *)
Lemma run_control_calls :
  forall (account_id : Z) (scan_id : string) (client : option AWSClient)
    (control : Control) (n : DetectionEngine.Counts) (w : World),
    calls_detect [control_id control] w
      (snd (DetectionEngine.run_control account_id scan_id client control n w)).
Proof.
  intros account_id scan_id client control n w.
  assert (Hcall : calls_detect [control_id control] w
                    (emit (EvDetect (control_id control)) w)).
  { exists [EvDetect (control_id control)]. split; reflexivity. }
  unfold DetectionEngine.run_control, try_except, call_detect.
  unfold bind at 1.
  destruct (detect control client (cloud w)) as [[| finding rest] | e].
  - match goal with
    | |- context [bind (DetectionEngine._save_result ?a ?c ?f ?s ?i ?m) _ ?w0] =>
        destruct (save_result_adds a c f s i m w0) as (w1 & row & entry & Hrun & _);
        pose proof (save_result_calls a c f s i m w0) as Hsave
    end.
    rewrite Hrun in Hsave. cbn [snd] in Hsave.
    rewrite (bind_ok _ _ _ _ _ Hrun). unfold ret. cbn [snd].
    exact (calls_detect_then _ [] _ _ _ Hcall Hsave).
  - match goal with
    | |- context [bind (DetectionEngine.save_findings ?a ?c ?i ?fs) _ ?w0] =>
        destruct (save_findings_adds a c i fs w0) as (w1 & rows & entries & Hrun & _);
        pose proof (save_findings_calls a c i fs w0) as Hsave
    end.
    rewrite Hrun in Hsave. cbn [snd] in Hsave.
    rewrite (bind_ok _ _ _ _ _ Hrun). unfold ret. cbn [snd].
    exact (calls_detect_then _ [] _ _ _ Hcall Hsave).
  - match goal with
    | |- context [bind (DetectionEngine._save_result ?a ?c ?f ?s ?i ?m) _ ?w0] =>
        destruct (save_result_adds a c f s i m w0) as (w1 & row & entry & Hrun & _);
        pose proof (save_result_calls a c f s i m w0) as Hsave
    end.
    rewrite Hrun in Hsave. cbn [snd] in Hsave.
    rewrite (bind_ok _ _ _ _ _ Hrun). unfold ret. cbn [snd].
    exact (calls_detect_then _ [] _ _ _ Hcall Hsave).
Qed.

(** The loop calls [detect] of every control it is given, in their order. *)
Lemma run_controls_calls :
  forall (account_id : Z) (scan_id : string) (client : option AWSClient)
    (controls : list Control) (n : DetectionEngine.Counts) (w : World),
    calls_detect (map control_id controls) w
      (snd (DetectionEngine.run_controls account_id scan_id client controls n w)).
Proof.
  intros account_id scan_id client controls.
  induction controls as [| control rest IH]; intros n w;
    cbn [DetectionEngine.run_controls map].
  - apply calls_detect_same. reflexivity.
  - destruct (run_control_adds account_id scan_id client control n w)
      as (n1 & w1 & rows1 & entries1 & Hrun & _).
    pose proof (run_control_calls account_id scan_id client control n w) as Hcall.
    rewrite Hrun in Hcall. cbn [snd] in Hcall.
    rewrite (bind_ok _ _ _ _ _ Hrun).
    exact (calls_detect_then [control_id control] _ _ _ _ Hcall (IH n1 w1)).
Qed.

Lemma assign_account_trace (account_id : Z) (unchanged : CloudAccount.t -> bool)
  (f : CloudAccount.t -> CloudAccount.t) (w : World) :
  trace (snd (assign_account account_id unchanged f w)) = trace w.
Proof.
  unfold assign_account.
  destruct (get_account account_id (session w)) as [a |]; [| reflexivity].
  destruct (unchanged a); reflexivity.
Qed.

(** A scan whose provider gave its client and controls: it answers
    "completed", the commit of [in_progress] is the first thing it does that
    is visible outside, and after it [detect] of every selected control is
    called, in their order. *)
Lemma scan_account_calls :
  forall (AWS_CONTROLS : list Control)
    (ClientSecretCredential : pyval -> pyval -> pyval -> option exn)
    (account_id : Z) (control_ids : option (list string)) (w : World)
    (account : CloudAccount.t) (client : option AWSClient) (controls : list Control),
    get_account account_id (session w) = Some account ->
    DetectionEngine.provider_controls AWS_CONTROLS ClientSecretCredential account
    = ret (client, controls) ->
    exists (r : pyval) (w' : World) (d : DB) (rest : list Event),
      DetectionEngine.scan_account AWS_CONTROLS ClientSecretCredential account_id
        control_ids w = (Ok r, w')
      /\ py_get "status" r = Some (PStr "completed")
      /\ trace w' = trace w ++ EvCommit d :: rest
      /\ option_map CloudAccount.last_scan_status (get_account account_id d)
         = Some (Some "in_progress"%string)
      /\ detect_calls rest
         = map control_id (DetectionEngine.filter_controls control_ids controls).
Proof.
  intros AWS_CONTROLS ClientSecretCredential account_id control_ids w account client
    controls0 Hacc Hprov.
  unfold DetectionEngine.scan_account. rewrite bind_gets, Hacc.
  rewrite (bind_ok uuid4 _ w _ _ eq_refl).
  rewrite (bind_ok utcnow _ _ _ _ eq_refl).
  unfold try_except.
  match goal with
  | |- context [bind (assign_last_scan_status ?a ?v) _ ?w1] =>
      destruct (assign_status_effect a v w1 account Hacc)
        as (w2 & Hmark & Hrow2 & _ & _ & _ & _ & Ht2)
  end.
  cbn [trace] in Ht2.
  rewrite (bind_ok _ _ _ _ _ Hmark).
  rewrite (bind_ok commit _ w2 _ _ eq_refl).
  unfold DetectionEngine.run_scan. rewrite Hprov.
  match goal with
  | |- context [bind (ret ?x) _ ?w3] => rewrite (bind_ok (ret x) _ w3 w3 x eq_refl)
  end.
  cbv zeta. cbn [fst snd].
  set (controls := DetectionEngine.filter_controls control_ids controls0).
  match goal with
  | |- context [bind (DetectionEngine.run_controls ?a ?s ?c ?cs ?n0) _ ?w3] =>
      destruct (run_controls_adds a s c cs n0 w3)
        as (n & w4 & rows & entries & Hloop & Hadds & _);
      pose proof (run_controls_calls a s c cs n0 w3) as Hcalls
  end.
  rewrite Hloop in Hcalls. cbn [snd] in Hcalls.
  destruct Hcalls as (tr & Ht4 & Hids). cbn [trace] in Ht4.
  destruct Hadds as (_ & _ & Hc4 & _). cbn [session] in Hc4.
  rewrite (bind_ok _ _ _ _ _ Hloop).
  rewrite (bind_ok utcnow _ w4 _ _ eq_refl).
  destruct (get_account account_id (session w2)) as [row2 |] eqn:Hrow; [| discriminate].
  assert (Hrow4 : get_account account_id (session w4) = Some row2).
  { unfold get_account. rewrite Hc4. exact Hrow. }
  match goal with
  | |- context [bind (assign_last_scan_at ?a ?t) _ ?w5] =>
      destruct (assign_at_keeps_row a t w5 row2 Hrow4) as (w6 & row6 & Hat & Hrow6);
      pose proof (assign_account_trace a
                    (fun acc => opt_int_eqb (CloudAccount.last_scan_at acc) (Some t))
                    (CloudAccount.set_last_scan_at (Some t)) w5) as Ht6
  end.
  fold (assign_last_scan_at account_id (clock w4)) in Ht6.
  rewrite Hat in Ht6. cbn [snd trace] in Ht6.
  rewrite (bind_ok _ _ _ _ _ Hat).
  destruct (assign_status_effect account_id "success" w6 row6 Hrow6)
    as (w8 & Hst & _ & _ & _ & _ & _ & Ht8).
  rewrite (bind_ok _ _ _ _ _ Hst).
  rewrite (bind_ok commit _ w8 _ _ eq_refl).
  rewrite (bind_ok utcnow _ _ _ _ eq_refl).
  match goal with
  | |- context [bind (DetectionEngine._log_audit ?a ?b ?c) _ ?w9] =>
      rewrite (bind_ok (DetectionEngine._log_audit a b c) _ w9 _ _ eq_refl)
  end.
  rewrite (bind_ok utcnow _ _ _ _ eq_refl).
  unfold ret. eexists. eexists. exists (session w2). eexists.
  split; [reflexivity |]. split; [reflexivity |].
  split.
  - cbn -[next_id Z.add String.append len get_account].
    rewrite Ht8, Ht6, Ht4, Ht2, <- !app_assoc. cbn [app]. reflexivity.
  - split; [rewrite Hrow; exact Hrow2 |].
    rewrite !detect_calls_app, Hids. cbn [detect_calls]. rewrite !app_nil_r.
    reflexivity.
Qed.

(** C4, as the code has it: the engine has no guard on [last_scan_status].
    For every existing account, whatever the status of its last scan
    ([in_progress] included), the first thing a scan does that is visible
    outside is the commit of [last_scan_status = in_progress]; every
    [detect] call of the scan comes after it.  A scan of an AWS account is
    then never refused: [detect] of every selected control is called and the
    scan answers "completed". *)
Theorem scan_commits_in_progress_first :
  forall (AWS_CONTROLS : list Control)
    (ClientSecretCredential : pyval -> pyval -> pyval -> option exn)
    (account_id : Z) (control_ids : option (list string)) (w : World)
    (account : CloudAccount.t),
    get_account account_id (session w) = Some account ->
    exists (d : DB) (rest : list Event),
      trace (snd (DetectionEngine.scan_account AWS_CONTROLS ClientSecretCredential
                    account_id control_ids w))
      = trace w ++ EvCommit d :: rest
      /\ option_map CloudAccount.last_scan_status (get_account account_id d)
         = Some (Some "in_progress"%string)
      /\ (CloudAccount.provider account = "aws"%string ->
          exists r : pyval,
            fst (DetectionEngine.scan_account AWS_CONTROLS ClientSecretCredential
                   account_id control_ids w) = Ok r
            /\ py_get "status" r = Some (PStr "completed")
            /\ detect_calls rest
               = map control_id
                   (DetectionEngine.filter_controls control_ids AWS_CONTROLS)).
Proof.
  intros AWS_CONTROLS ClientSecretCredential account_id control_ids w account Hacc.
  destruct (String.eqb_spec (CloudAccount.provider account) "aws") as [Haws | Hother].
  - destruct (scan_account_calls AWS_CONTROLS ClientSecretCredential account_id
                control_ids w account
                (Some (mkAWSClient (CloudAccount.credentials account))) AWS_CONTROLS Hacc)
      as (r & w' & d & rest & Hrun & Hstatus & Htrace & Hmarked & Hcalls).
    { unfold DetectionEngine.provider_controls. rewrite Haws. reflexivity. }
    exists d, rest. rewrite Hrun. cbn [fst snd].
    split; [exact Htrace |]. split; [exact Hmarked |].
    intros _. exists r. split; [reflexivity |]. split; [exact Hstatus | exact Hcalls].
  - unfold DetectionEngine.scan_account. rewrite bind_gets, Hacc.
    unfold bind at 1. cbn [uuid4]. unfold bind at 1. cbn [utcnow].
    match goal with
    | |- context [try_except (_ ;;; _ ;;; ?rest) ?handler ?w1] =>
        destruct (marked_before_the_rest account_id account rest handler w1 Hacc)
          as (d & tr & Htrace & Hstatus)
    end.
    + apply trace_run_scan.
    + intro e.
      apply (keeps_scan_failed trace_extends trace_extends_refl trace_extends_trans
               trace_commit trace_assign).
    + exists d, tr. split; [exact Htrace |]. split; [exact Hstatus |].
      intro Haws. contradiction.
Qed.

Lemma scan_commits_in_progress_first_witness :
  get_account 1 (session busy_world) = Some (demo_account (Some "in_progress"%string))
  /\ exists (d : DB) (rest : list Event),
       trace (snd (scan_demo (Some ["AWS-S3-001"%string]) busy_world))
       = trace busy_world ++ EvCommit d :: rest
       /\ option_map CloudAccount.last_scan_status (get_account 1 d)
          = Some (Some "in_progress"%string)
       /\ exists r : pyval,
            fst (scan_demo (Some ["AWS-S3-001"%string]) busy_world) = Ok r
            /\ py_get "status" r = Some (PStr "completed")
            /\ detect_calls rest = ["AWS-S3-001"%string].
Proof.
  split; [reflexivity |].
  destruct (scan_commits_in_progress_first demo_controls demo_credential 1
              (Some ["AWS-S3-001"%string]) busy_world
              (demo_account (Some "in_progress"%string)) eq_refl)
    as (d & rest & Htrace & Hmarked & Haws).
  exists d, rest. split; [exact Htrace |]. split; [exact Hmarked |].
  exact (Haws eq_refl).
Defined.

(** C4, as the spec words it, fails: the account's last scan is marked in
    progress, and the scan request is served all the same; the control runs
    and its finding is stored. *)
Lemma scan_of_busy_account_runs :
  exists (r : pyval) (w' : World) (row : ControlResult.t),
    option_map CloudAccount.last_scan_status (get_account 1 (session busy_world))
    = Some (Some "in_progress"%string)
    /\ scan_demo (Some ["AWS-S3-001"%string]) busy_world = busy_scan
    /\ busy_scan = (Ok r, w')
    /\ py_get "status" r = Some (PStr "completed")
    /\ In (EvDetect "AWS-S3-001") (trace w')
    /\ control_results (committed w') = [row]
    /\ ControlResult.status row = "FAIL"%string.
Proof.
  do 3 eexists. split; [reflexivity |].
  split; [vm_compute; reflexivity |].
  split; [reflexivity |]. split; [reflexivity |].
  split; [cbn; tauto |]. split; reflexivity.
Qed.

(** ** The scan as its callers see it *)

(** A scan of an AWS account runs to the end whatever its controls do, and
    its summary accounts for every finding row it wrote: the rows appended
    to the table are as many as [pass + fail + error], [total_findings]
    equals [fail], at most one PASS or ERROR row exists per control that
    ran, and every row carries the account id and the scan id of the
    response and no remediation data.  The account is left committed with
    [last_scan_status = success]. *)
Theorem scan_summary_accounts_for_rows :
  forall (AWS_CONTROLS : list Control)
    (ClientSecretCredential : pyval -> pyval -> pyval -> option exn)
    (account_id : Z) (control_ids : option (list string)) (w : World)
    (account : CloudAccount.t),
    get_account account_id (session w) = Some account ->
    CloudAccount.provider account = "aws"%string ->
    exists (r : pyval) (w' : World) (pass fail error : Z) (rows : list ControlResult.t),
      DetectionEngine.scan_account AWS_CONTROLS ClientSecretCredential account_id
        control_ids w = (Ok r, w')
      /\ py_get "scan_id" r = Some (PStr ("uuid-" +++ str_int (Z.of_nat (uuids w))))
      /\ py_get "summary" r
         = Some (PDict
                   [ (PStr "total_controls",
                       PInt (len (DetectionEngine.filter_controls control_ids
                                    AWS_CONTROLS)));
                     (PStr "pass", PInt pass);
                     (PStr "fail", PInt fail);
                     (PStr "error", PInt error);
                     (PStr "total_findings", PInt fail) ])
      /\ control_results (session w') = control_results (session w) ++ rows
      /\ len rows = pass + fail + error
      /\ 0 <= pass /\ 0 <= fail /\ 0 <= error
      /\ pass + error <= len (DetectionEngine.filter_controls control_ids AWS_CONTROLS)
      /\ Forall (written_by_scan account_id
                   ("uuid-" +++ str_int (Z.of_nat (uuids w)))) rows
      /\ py_get "status" r = Some (PStr "completed")
      /\ option_map CloudAccount.last_scan_status (get_account account_id (committed w'))
         = Some (Some "success"%string).
Proof.
  intros AWS_CONTROLS ClientSecretCredential account_id control_ids w account Hacc Hprov.
  destruct (scan_account_writes AWS_CONTROLS ClientSecretCredential account_id
              control_ids w account
              (Some (mkAWSClient (CloudAccount.credentials account))) AWS_CONTROLS Hacc)
    as (r & w' & n & rows & entries & scan_entry & Hrun & Hsum & Htot & Hlen & Hp & Hf
        & He & Hmany & Hrows & Hown & _ & _ & _ & _ & _ & Hid & Hstatus & Hsucc & _
        & Hcom & _).
  { unfold DetectionEngine.provider_controls. rewrite Hprov. reflexivity. }
  exists r, w', (DetectionEngine.pass_count n), (DetectionEngine.fail_count n),
    (DetectionEngine.error_count n), rows.
  rewrite Htot in Hsum. rewrite Hcom. repeat split; assumption.
Qed.

Lemma scan_summary_accounts_for_rows_witness :
  exists (r : pyval) (w' : World) (pass fail error : Z) (rows : list ControlResult.t),
    DetectionEngine.scan_account demo_controls demo_credential 1
      (Some ["AWS-S3-001"%string; "TEST-ERR-002"%string]) busy_world = (Ok r, w')
    /\ py_get "scan_id" r = Some (PStr "uuid-0")
    /\ control_results (session w') = rows
    /\ len rows = pass + fail + error
    /\ pass + error <= 2.
Proof.
  destruct (scan_summary_accounts_for_rows demo_controls demo_credential 1
              (Some ["AWS-S3-001"%string; "TEST-ERR-002"%string]) busy_world
              (demo_account (Some "in_progress"%string)) eq_refl eq_refl)
    as (r & w' & pass & fail & error & rows & Hrun & Hid & _ & Hrows & Hlen & _ & _ & _
        & Hmany & _).
  exists r, w', pass, fail, error, rows. repeat split; assumption.
Defined.

Lemma filter_organization_app (organization_id : Z) (old new : list AuditLog.t) :
  filter (fun l => opt_int_eqb (AuditLog.organization_id l) (Some organization_id))
    (old ++ new)
  = filter (fun l => opt_int_eqb (AuditLog.organization_id l) (Some organization_id)) old
    ++ filter (fun l => opt_int_eqb (AuditLog.organization_id l) (Some organization_id))
         new.
Proof. apply filter_app. Qed.

Lemma detection_entries_have_no_organization (account_id organization_id : Z)
  (entries : list AuditLog.t) :
  Forall (detection_entry account_id) entries ->
  filter (fun l => opt_int_eqb (AuditLog.organization_id l) (Some organization_id))
    entries = [].
Proof.
  induction 1 as [| e rest He _ IH]; [reflexivity |].
  cbn [filter]. destruct He as (_ & _ & _ & Horg & _). rewrite Horg. exact IH.
Qed.

(** A completed scan appends to the audit table one [detection] entry per
    finding row and then one [scan] entry.  The detection entries carry no
    organization id, only the scan entry does: of everything the scan
    logged, a selection of the audit table by organization sees the scan
    entry alone. *)
Theorem scan_logs_one_entry_per_row :
  forall (AWS_CONTROLS : list Control)
    (ClientSecretCredential : pyval -> pyval -> pyval -> option exn)
    (account_id : Z) (control_ids : option (list string)) (w : World)
    (account : CloudAccount.t),
    get_account account_id (session w) = Some account ->
    CloudAccount.provider account = "aws"%string ->
    exists (r : pyval) (w' : World) (rows : list ControlResult.t)
           (entries : list AuditLog.t) (scan_entry : AuditLog.t),
      DetectionEngine.scan_account AWS_CONTROLS ClientSecretCredential account_id
        control_ids w = (Ok r, w')
      /\ control_results (session w') = control_results (session w) ++ rows
      /\ audit_logs (session w') = audit_logs (session w) ++ entries ++ [scan_entry]
      /\ List.length entries = List.length rows
      /\ Forall (detection_entry account_id) entries
      /\ AuditLog.event_type scan_entry = "scan"%string
      /\ AuditLog.organization_id scan_entry
         = Some (CloudAccount.organization_id account)
      /\ forall organization_id : Z,
           filter (fun l => opt_int_eqb (AuditLog.organization_id l)
                              (Some organization_id))
             (audit_logs (session w'))
           = filter (fun l => opt_int_eqb (AuditLog.organization_id l)
                                (Some organization_id))
               (audit_logs (session w))
             ++ (if CloudAccount.organization_id account =? organization_id
                 then [scan_entry] else []).
Proof.
  intros AWS_CONTROLS ClientSecretCredential account_id control_ids w account Hacc Hprov.
  destruct (scan_account_writes AWS_CONTROLS ClientSecretCredential account_id
              control_ids w account
              (Some (mkAWSClient (CloudAccount.credentials account))) AWS_CONTROLS Hacc)
    as (r & w' & n & rows & entries & scan_entry & Hrun & _ & _ & _ & _ & _
        & _ & _ & Hrows & _ & Hlogs & Hlen & Hdet & Htype & Horg & _).
  { unfold DetectionEngine.provider_controls. rewrite Hprov. reflexivity. }
  exists r, w', rows, entries, scan_entry.
  repeat (split; [assumption |]).
  intro organization_id.
  rewrite Hlogs, !filter_organization_app.
  rewrite (detection_entries_have_no_organization account_id organization_id entries Hdet).
  cbn [app filter]. rewrite Horg. reflexivity.
Qed.

Lemma scan_logs_one_entry_per_row_witness :
  exists (r : pyval) (w' : World) (entries : list AuditLog.t) (scan_entry : AuditLog.t),
    DetectionEngine.scan_account demo_controls demo_credential 1
      (Some ["AWS-S3-001"%string; "TEST-ERR-002"%string]) busy_world = (Ok r, w')
    /\ audit_logs (session w') = entries ++ [scan_entry]
    /\ filter (fun l => opt_int_eqb (AuditLog.organization_id l) (Some 1))
         (audit_logs (session w'))
       = [scan_entry].
Proof.
  destruct (scan_logs_one_entry_per_row demo_controls demo_credential 1
              (Some ["AWS-S3-001"%string; "TEST-ERR-002"%string]) busy_world
              (demo_account (Some "in_progress"%string)) eq_refl eq_refl)
    as (r & w' & rows & entries & scan_entry & Hrun & _ & Hlogs & _ & _ & _ & _ & Hsel).
  exists r, w', entries, scan_entry. split; [exact Hrun |].
  split; [exact Hlogs | exact (Hsel 1)].
Defined.

(** A scan of an account whose provider is neither "aws" nor "azure" raises
    [ValueError("Unsupported provider: ...")].  By then the account was
    committed as in progress; the handler commits it as failed.  No control
    runs, no finding row and no audit entry is written. *)
Theorem scan_of_unsupported_provider :
  forall (AWS_CONTROLS : list Control)
    (ClientSecretCredential : pyval -> pyval -> pyval -> option exn)
    (account_id : Z) (control_ids : option (list string)) (w : World)
    (account : CloudAccount.t),
    get_account account_id (session w) = Some account ->
    CloudAccount.provider account <> "aws"%string ->
    CloudAccount.provider account <> "azure"%string ->
    exists (w' : World) (marked : DB),
      DetectionEngine.scan_account AWS_CONTROLS ClientSecretCredential account_id
        control_ids w
      = (Raise (ValueError ("Unsupported provider: " +++ CloudAccount.provider account)),
         w')
      /\ option_map CloudAccount.last_scan_status (get_account account_id (committed w'))
         = Some (Some "failed"%string)
      /\ trace w' = trace w ++ [EvCommit marked; EvCommit (committed w')]
      /\ control_results (committed w') = control_results (session w)
      /\ audit_logs (committed w') = audit_logs (session w)
      /\ cloud w' = cloud w.
Proof.
  intros AWS_CONTROLS ClientSecretCredential account_id control_ids w account Hacc Haws
    Hazure.
  destruct (scan_account_fails AWS_CONTROLS ClientSecretCredential account_id control_ids
              w account
              (ValueError ("Unsupported provider: " +++ CloudAccount.provider account))
              Hacc)
    as (w' & marked & Hrun & Hst & Hcom & Htr & Hrows & Hlogs & Hcloud).
  { unfold DetectionEngine.provider_controls.
    apply String.eqb_neq in Haws. apply String.eqb_neq in Hazure.
    rewrite Haws, Hazure. reflexivity. }
  exists w', marked. rewrite Hcom. repeat split; assumption.
Qed.

Lemma scan_of_unsupported_provider_witness :
  exists (w' : World),
    DetectionEngine.scan_account demo_controls demo_credential 3 None
      (providers_world azure_credentials)
    = (Raise (ValueError "Unsupported provider: gcp"), w')
    /\ option_map CloudAccount.last_scan_status (get_account 3 (committed w'))
       = Some (Some "failed"%string)
    /\ control_results (committed w') = [].
Proof.
  destruct (scan_of_unsupported_provider demo_controls demo_credential 3 None
              (providers_world azure_credentials) gcp_account eq_refl)
    as (w' & marked & Hrun & Hst & _ & Hrows & _); [discriminate | discriminate |].
  exists w'. repeat split; assumption.
Defined.

Lemma filter_no_controls (control_ids : option (list string)) :
  DetectionEngine.filter_controls control_ids [] = [].
Proof. destruct control_ids as [[| i ids] |]; reflexivity. Qed.

(** A scan of an Azure account whose client can be built runs no control,
    whatever [control_ids] asks for: it completes with a summary of zeros,
    writes no finding row, logs the one [scan] entry and leaves the account
    marked as success. *)
Theorem azure_scan_runs_no_control :
  forall (AWS_CONTROLS : list Control)
    (ClientSecretCredential : pyval -> pyval -> pyval -> option exn)
    (account_id : Z) (control_ids : option (list string)) (w : World)
    (account : CloudAccount.t),
    get_account account_id (session w) = Some account ->
    CloudAccount.provider account = "azure"%string ->
    AzureClient ClientSecretCredential (CloudAccount.credentials account) = Ok tt ->
    exists (r : pyval) (w' : World) (scan_entry : AuditLog.t),
      DetectionEngine.scan_account AWS_CONTROLS ClientSecretCredential account_id
        control_ids w = (Ok r, w')
      /\ py_get "status" r = Some (PStr "completed")
      /\ py_get "summary" r
         = Some (PDict [ (PStr "total_controls", PInt 0); (PStr "pass", PInt 0);
                         (PStr "fail", PInt 0); (PStr "error", PInt 0);
                         (PStr "total_findings", PInt 0) ])
      /\ control_results (session w') = control_results (session w)
      /\ audit_logs (session w') = audit_logs (session w) ++ [scan_entry]
      /\ AuditLog.event_type scan_entry = "scan"%string
      /\ option_map CloudAccount.last_scan_status (get_account account_id (session w'))
         = Some (Some "success"%string).
Proof.
  intros AWS_CONTROLS ClientSecretCredential account_id control_ids w account Hacc Hprov
    Hclient.
  destruct (scan_account_writes AWS_CONTROLS ClientSecretCredential account_id
              control_ids w account None [] Hacc)
    as (r & w' & n & rows & entries & scan_entry & Hrun & Hsum & Htot & Hlen & Hp & Hf
        & He & _ & Hrows & _ & Hlogs & Hlen' & _ & Htype & _ & _ & Hstatus & Hsucc & _
        & _ & Hnone).
  { unfold DetectionEngine.provider_controls. rewrite Hprov, Hclient. reflexivity. }
  rewrite filter_no_controls in *.
  specialize (Hnone eq_refl). subst rows.
  destruct entries; [| discriminate].
  unfold len in Hlen, Hsum. cbn [List.length Z.of_nat] in Hlen, Hsum.
  assert (Hp0 : DetectionEngine.pass_count n = 0) by lia.
  assert (Hf0 : DetectionEngine.fail_count n = 0) by lia.
  assert (He0 : DetectionEngine.error_count n = 0) by lia.
  rewrite Htot, Hp0, Hf0, He0 in Hsum. rewrite app_nil_r in Hrows.
  exists r, w', scan_entry. repeat split; assumption.
Qed.

Lemma azure_scan_runs_no_control_witness :
  exists (r : pyval) (w' : World),
    DetectionEngine.scan_account demo_controls demo_credential 2
      (Some ["AWS-S3-001"%string]) (providers_world azure_credentials) = (Ok r, w')
    /\ py_get "status" r = Some (PStr "completed")
    /\ control_results (session w') = [].
Proof.
  destruct (azure_scan_runs_no_control demo_controls demo_credential 2
              (Some ["AWS-S3-001"%string]) (providers_world azure_credentials)
              (azure_account azure_credentials) eq_refl eq_refl eq_refl)
    as (r & w' & scan_entry & Hrun & Hst & _ & Hrows & _).
  exists r, w'. repeat split; assumption.
Defined.

(** When the Azure client cannot be built (a credential key is missing: the
    subscription raises [KeyError]; or the SDK refuses the credential), the
    scan raises that exception and leaves the account committed as failed,
    with no finding row and no audit entry. *)
Theorem azure_scan_without_client_fails :
  forall (AWS_CONTROLS : list Control)
    (ClientSecretCredential : pyval -> pyval -> pyval -> option exn)
    (account_id : Z) (control_ids : option (list string)) (w : World)
    (account : CloudAccount.t) (e : exn),
    get_account account_id (session w) = Some account ->
    CloudAccount.provider account = "azure"%string ->
    AzureClient ClientSecretCredential (CloudAccount.credentials account) = Raise e ->
    exists (w' : World),
      DetectionEngine.scan_account AWS_CONTROLS ClientSecretCredential account_id
        control_ids w = (Raise e, w')
      /\ option_map CloudAccount.last_scan_status (get_account account_id (committed w'))
         = Some (Some "failed"%string)
      /\ control_results (committed w') = control_results (session w)
      /\ audit_logs (committed w') = audit_logs (session w).
Proof.
  intros AWS_CONTROLS ClientSecretCredential account_id control_ids w account e Hacc
    Hprov Hclient.
  destruct (scan_account_fails AWS_CONTROLS ClientSecretCredential account_id control_ids
              w account e Hacc)
    as (w' & marked & Hrun & Hst & Hcom & _ & Hrows & Hlogs & _).
  { unfold DetectionEngine.provider_controls. rewrite Hprov, Hclient. reflexivity. }
  exists w'. rewrite Hcom. repeat split; assumption.
Qed.

Lemma azure_scan_without_client_fails_witness :
  exists (w' : World),
    DetectionEngine.scan_account demo_controls demo_credential 2 None
      (providers_world (PDict [(PStr "tenant_id", PStr "t-1")]))
    = (Raise (KeyError "client_id"), w')
    /\ option_map CloudAccount.last_scan_status (get_account 2 (committed w'))
       = Some (Some "failed"%string).
Proof.
  destruct (azure_scan_without_client_fails demo_controls demo_credential 2 None
              (providers_world (PDict [(PStr "tenant_id", PStr "t-1")]))
              (azure_account (PDict [(PStr "tenant_id", PStr "t-1")]))
              (KeyError "client_id") eq_refl eq_refl eq_refl)
    as (w' & Hrun & Hst & _).
  exists w'. split; assumption.
Defined.

Lemma filter_unknown_controls (ids : list string) (controls : list Control) :
  (forall c, In c controls -> ~ In (control_id c) ids) ->
  filter (fun c => existsb (String.eqb (control_id c)) ids) controls = [].
Proof.
  induction controls as [| c rest IH]; intro Hnone; [reflexivity |].
  cbn [filter].
  destruct (existsb (String.eqb (control_id c)) ids) eqn:E.
  - exfalso. apply existsb_exists in E. destruct E as (i & Hin & Heq).
    apply String.eqb_eq in Heq. subst i.
    exact (Hnone c (or_introl eq_refl) Hin).
  - apply IH. intros c' Hc'. apply Hnone. right. exact Hc'.
Qed.

(** The edges of the [control_ids] filter.  An empty list is no filter: the
    scan runs every control, as without the argument.  Ids that name no
    control are dropped without a word: a scan asked only for such ids runs
    nothing and still completes as a success with a summary of zeros. *)
Theorem control_ids_filter_edges :
  forall (AWS_CONTROLS : list Control)
    (ClientSecretCredential : pyval -> pyval -> pyval -> option exn)
    (account_id : Z) (w : World) (account : CloudAccount.t),
    get_account account_id (session w) = Some account ->
    CloudAccount.provider account = "aws"%string ->
    DetectionEngine.scan_account AWS_CONTROLS ClientSecretCredential account_id
      (Some []) w
    = DetectionEngine.scan_account AWS_CONTROLS ClientSecretCredential account_id None w
    /\ forall (ids : list string),
         ids <> [] ->
         (forall c, In c AWS_CONTROLS -> ~ In (control_id c) ids) ->
         exists (r : pyval) (w' : World),
           DetectionEngine.scan_account AWS_CONTROLS ClientSecretCredential account_id
             (Some ids) w = (Ok r, w')
           /\ py_get "status" r = Some (PStr "completed")
           /\ py_get "summary" r
              = Some (PDict [ (PStr "total_controls", PInt 0); (PStr "pass", PInt 0);
                              (PStr "fail", PInt 0); (PStr "error", PInt 0);
                              (PStr "total_findings", PInt 0) ])
           /\ control_results (session w') = control_results (session w)
           /\ option_map CloudAccount.last_scan_status
                (get_account account_id (session w'))
              = Some (Some "success"%string).
Proof.
  intros AWS_CONTROLS ClientSecretCredential account_id w account Hacc Hprov.
  split; [reflexivity |].
  intros ids Hids Hunknown.
  destruct (scan_account_writes AWS_CONTROLS ClientSecretCredential account_id
              (Some ids) w account
              (Some (mkAWSClient (CloudAccount.credentials account))) AWS_CONTROLS Hacc)
    as (r & w' & n & rows & entries & scan_entry & Hrun & Hsum & Htot & Hlen & Hp & Hf
        & He & _ & Hrows & _ & _ & _ & _ & _ & _ & _ & Hstatus & Hsucc & _ & _ & Hnone).
  { unfold DetectionEngine.provider_controls. rewrite Hprov. reflexivity. }
  assert (Hsel : DetectionEngine.filter_controls (Some ids) AWS_CONTROLS = []).
  { destruct ids as [| i ids]; [contradiction |].
    apply filter_unknown_controls. exact Hunknown. }
  rewrite Hsel in *. specialize (Hnone eq_refl). subst rows.
  unfold len in Hlen, Hsum. cbn [List.length Z.of_nat] in Hlen, Hsum.
  assert (Hp0 : DetectionEngine.pass_count n = 0) by lia.
  assert (Hf0 : DetectionEngine.fail_count n = 0) by lia.
  assert (He0 : DetectionEngine.error_count n = 0) by lia.
  rewrite Htot, Hp0, Hf0, He0 in Hsum. rewrite app_nil_r in Hrows.
  exists r, w'. repeat split; assumption.
Qed.

Lemma control_ids_filter_edges_witness :
  DetectionEngine.scan_account demo_controls demo_credential 1 (Some []) busy_world
  = DetectionEngine.scan_account demo_controls demo_credential 1 None busy_world
  /\ exists (r : pyval) (w' : World),
       DetectionEngine.scan_account demo_controls demo_credential 1
         (Some ["AWS-S3-999"%string]) busy_world = (Ok r, w')
       /\ py_get "status" r = Some (PStr "completed")
       /\ control_results (session w') = [].
Proof.
  destruct (control_ids_filter_edges demo_controls demo_credential 1 busy_world
              (demo_account (Some "in_progress"%string)) eq_refl eq_refl)
    as [Hall Hunknown].
  split; [exact Hall |].
  destruct (Hunknown ["AWS-S3-999"%string]) as (r & w' & Hrun & Hst & _ & Hrows & _).
  - discriminate.
  - intros c Hc Hin. cbn [In] in Hin. destruct Hin as [Heq | []].
    cbn [demo_controls In] in Hc.
    destruct Hc as [<- | [<- | [<- | [<- | [<- | []]]]]]; discriminate Heq.
  - exists r, w'. repeat split; assumption.
Defined.

(** ** Findings by severity *)

(** The entry of the string key [s] in a counter shown as a dictionary. *)
Lemma counter_view_add (s : string) (k : option string) (cnts : list (option string * Z)) :
  dict_get s (map (fun kn => (of_opt_str (fst kn), PInt (snd kn))) (counter_add k cnts))
  = if opt_str_eqb k (Some s)
    then Some (PInt (match dict_get s (map (fun kn => (of_opt_str (fst kn), PInt (snd kn)))
                                         cnts) with
                     | Some (PInt n) => n + 1
                     | _ => 1
                     end))
    else dict_get s (map (fun kn => (of_opt_str (fst kn), PInt (snd kn))) cnts).
Proof.
  induction cnts as [| [k0 n] rest IH]; cbn [counter_add map fst snd dict_get].
  - destruct k as [k |]; cbn [of_opt_str key_is opt_str_eqb]; [| reflexivity].
    destruct (String.eqb k s); reflexivity.
  - destruct (opt_str_eqb k0 k) eqn:E.
    + apply opt_str_eqb_eq in E. subst k0.
      cbn [map fst snd dict_get].
      destruct k as [k |]; cbn [of_opt_str key_is opt_str_eqb]; [| reflexivity].
      destruct (String.eqb k s); reflexivity.
    + cbn [map fst snd dict_get]. rewrite IH.
      destruct k0 as [k0 |], k as [k |]; cbn [of_opt_str key_is opt_str_eqb] in *;
        try reflexivity.
      destruct (String.eqb_spec k0 s) as [-> | _], (String.eqb_spec k s) as [-> | _];
        try reflexivity.
      rewrite String.eqb_refl in E. discriminate.
Qed.

Lemma counter_view_fold (s : string) (keys : list (option string)) :
  forall (cnts : list (option string * Z)) (c : Z),
    0 <= c ->
    dict_get s (map (fun kn => (of_opt_str (fst kn), PInt (snd kn))) cnts)
    = (if c =? 0 then None else Some (PInt c)) ->
    dict_get s (map (fun kn => (of_opt_str (fst kn), PInt (snd kn)))
                  (fold_left (fun cnts k => counter_add k cnts) keys cnts))
    = (if c + len (filter (fun k => opt_str_eqb k (Some s)) keys) =? 0 then None
       else Some (PInt (c + len (filter (fun k => opt_str_eqb k (Some s)) keys)))).
Proof.
  induction keys as [| k rest IH]; intros cnts c Hc Hview; cbn [fold_left filter].
  - unfold len. cbn [List.length Z.of_nat]. rewrite Z.add_0_r. exact Hview.
  - destruct (opt_str_eqb k (Some s)) eqn:E.
    + rewrite len_cons.
      replace (c + (1 + len (filter (fun k0 => opt_str_eqb k0 (Some s)) rest)))
        with ((c + 1) + len (filter (fun k0 => opt_str_eqb k0 (Some s)) rest)) by lia.
      apply IH; [lia |].
      rewrite counter_view_add, E, Hview.
      destruct (Z.eqb_spec c 0) as [-> | Hne].
      * reflexivity.
      * destruct (Z.eqb_spec (c + 1) 0); [lia | reflexivity].
    + apply IH; [exact Hc |]. rewrite counter_view_add, E. exact Hview.
Qed.

Lemma filter_map_filter {A B : Type} (f : A -> B) (p : A -> bool) (q : B -> bool)
  (xs : list A) :
  List.length (filter q (map f (filter p xs)))
  = List.length (filter (fun x => p x && q (f x)) xs).
Proof.
  induction xs as [| x rest IH]; [reflexivity |].
  cbn [filter]. destruct (p x); cbn [map filter andb]; [| exact IH].
  destruct (q (f x)); cbn [List.length]; rewrite IH; reflexivity.
Qed.

(** [by_severity] of the compliance score maps each severity to the number
    of FAIL rows of that severity.  Rows of any other status (ERROR rows,
    FIXED rows) are not counted, and a severity without a FAIL row has no
    entry rather than a zero. *)
Theorem by_severity_counts_failures :
  forall (results : list ControlResult.t) (s : string),
    py_get s (DetectionEngine._get_by_severity results)
    = (if len (filter (fun r => String.eqb (ControlResult.status r) "FAIL"
                                && opt_str_eqb (ControlResult.risk_level r) (Some s))
                 results) =? 0
       then None
       else Some (PInt (len (filter
                               (fun r => String.eqb (ControlResult.status r) "FAIL"
                                         && opt_str_eqb (ControlResult.risk_level r)
                                              (Some s))
                               results)))).
Proof.
  intros results s. unfold DetectionEngine._get_by_severity, Counter. cbn [py_get].
  rewrite (counter_view_fold s _ [] 0); [| lia | reflexivity].
  rewrite Z.add_0_l. unfold len.
  rewrite (filter_map_filter ControlResult.risk_level
             (fun r => String.eqb (ControlResult.status r) "FAIL")
             (fun k => opt_str_eqb k (Some s))).
  reflexivity.
Qed.

(** ** Requests that name a row that does not exist *)

(** Every entry point looks its row up first and raises [ValueError] when
    there is none, before it draws a scan id, calls a control or writes
    anything: the world is as it was.  The messages name the id; a rollback
    of a missing finding is reported as "not in rollback-able state". *)
Theorem missing_rows_are_reported :
  forall (AWS_CONTROLS : list Control)
    (ClientSecretCredential : pyval -> pyval -> pyval -> option exn)
    (EVIDENCE_BUCKET_NAME : string)
    (pdf_build : Organization.t -> list AuditLog.t -> list ControlResult.t
                 -> option Z -> option Z -> Z -> outcome (list ascii))
    (json_dumps : pyval -> list ascii) (presigned_url : string -> string -> Z -> string)
    (n : Z) (w : World),
    (get_account n (session w) = None ->
     forall control_ids,
       DetectionEngine.scan_account AWS_CONTROLS ClientSecretCredential n control_ids w
       = (Raise (ValueError ("Account " +++ str_int n +++ " not found")), w))
    /\ (get_finding n (session w) = None ->
        (forall dry_run approved_by,
            RemediationEngine.remediate_finding AWS_CONTROLS n dry_run approved_by w
            = (Raise (ValueError ("Finding " +++ str_int n +++ " not found")), w))
        /\ (forall rolled_back_by,
              RemediationEngine.rollback_remediation AWS_CONTROLS n rolled_back_by w
              = (Raise (ValueError ("Finding " +++ str_int n
                                    +++ " not in rollback-able state")), w)))
    /\ (get_organization n (session w) = None ->
        forall start_date end_date format,
          EvidenceEngine.export_audit_report EVIDENCE_BUCKET_NAME pdf_build json_dumps
            presigned_url n start_date end_date format w
          = (Raise (ValueError ("Organization " +++ str_int n +++ " not found")), w)).
Proof.
  intros. split; [| split].
  - intros Hnone control_ids. unfold DetectionEngine.scan_account.
    rewrite bind_gets, Hnone. reflexivity.
  - intro Hnone. split.
    + intros dry_run approved_by. unfold RemediationEngine.remediate_finding.
      rewrite bind_gets, Hnone. reflexivity.
    + intro rolled_back_by. unfold RemediationEngine.rollback_remediation.
      rewrite bind_gets, Hnone. reflexivity.
  - intros Hnone start_date end_date format.
    unfold EvidenceEngine.export_audit_report. rewrite bind_gets, Hnone. reflexivity.
Qed.

Lemma missing_rows_are_reported_witness :
  DetectionEngine.scan_account demo_controls demo_credential 7 None open_world
  = (Raise (ValueError "Account 7 not found"), open_world)
  /\ RemediationEngine.remediate_finding demo_controls 7 false (Some "a@x"%string)
       open_world
     = (Raise (ValueError "Finding 7 not found"), open_world)
  /\ RemediationEngine.rollback_remediation demo_controls 7 "a@x" open_world
     = (Raise (ValueError "Finding 7 not in rollback-able state"), open_world)
  /\ export_demo "pdf" (demo_world cloud_open store_up (mkDB [] [] [] [] coarse_now newest_id_first))
     = (Raise (ValueError "Organization 1 not found"),
        demo_world cloud_open store_up (mkDB [] [] [] [] coarse_now newest_id_first)).
Proof.
  destruct (missing_rows_are_reported demo_controls demo_credential
              "compliance-evidence-bucket" pdf_stub json_stub url_stub 7 open_world)
    as (Hscan & Hfinding & _).
  destruct (Hfinding eq_refl) as [Hremediate Hrollback].
  split; [exact (Hscan eq_refl None) |].
  split; [exact (Hremediate false (Some "a@x"%string)) |].
  split; [exact (Hrollback "a@x"%string) |].
  exact (proj2 (proj2 (missing_rows_are_reported demo_controls demo_credential
                         "compliance-evidence-bucket" pdf_stub json_stub url_stub 1
                         (demo_world cloud_open store_up (mkDB [] [] [] [] coarse_now newest_id_first))))
           eq_refl None None "pdf"%string).
Defined.

Lemma raising_control_gives_error_finding_witness :
  exists (w' : World) (row : ControlResult.t),
    DetectionEngine.run_control 1 "uuid-0" None denied_control
      (DetectionEngine.mkCounts 0 0 0 0) failing_scan_world
    = (Ok (DetectionEngine.mkCounts 0 0 0 1), w')
    /\ control_results (session w') = [row]
    /\ ControlResult.status row = "ERROR"%string
    /\ ControlResult.finding_details row = PDict [(PStr "error", PStr "AccessDenied")].
Proof.
  destruct (raising_control_gives_error_finding 1 "uuid-0" None denied_control
              (DetectionEngine.mkCounts 0 0 0 0) failing_scan_world
              (ClientError "AccessDenied") eq_refl)
    as (w' & row & entry & Hrun & Hrows & Hst & _ & _ & Hdetails & _).
  exists w', row. repeat split; assumption.
Defined.

Lemma scan_of_aws_account_completes_witness :
  exists (r : pyval) (w' : World),
    DetectionEngine.scan_account demo_controls demo_credential 1
      (Some ["TEST-ERR-001"%string; "TEST-ERR-002"%string]) failing_scan_world
    = (Ok r, w')
    /\ py_get "status" r = Some (PStr "completed")
    /\ option_map CloudAccount.last_scan_status (get_account 1 (session w'))
       = Some (Some "success"%string).
Proof.
  destruct (scan_of_aws_account_completes demo_controls demo_credential 1
              (Some ["TEST-ERR-001"%string; "TEST-ERR-002"%string]) failing_scan_world
              (demo_account None) eq_refl eq_refl)
    as (r & w' & Hrun & Hst & _ & Hsucc).
  exists r, w'. repeat split; assumption.
Defined.

(** ** Remediation: what is recorded, what is refused *)

Lemma kw_str_of_opt (k : string) (o : option string) (before after : list (pyval * pyval)) :
  dict_get k before = None ->
  kw_str k (before ++ (PStr k, of_opt_str o) :: after) = o.
Proof.
  intro Hb. unfold kw_str.
  induction before as [| [key v] rest IH]; cbn [app dict_get] in *.
  - rewrite key_is_refl. destruct o; reflexivity.
  - destruct (key_is k key); [discriminate | exact (IH Hb)].
Qed.

(** What an executed remediation writes, column by column. *)
Lemma executed_remediation_row :
  forall (AWS_CONTROLS : list Control) (finding_id : Z) (approved_by : option string)
    (w : World) (rec : ControlResult.t) (account : CloudAccount.t) (control : Control)
    (rr : RemediationResult.t) (c' : pyval),
    get_finding finding_id (session w) = Some rec ->
    RemediationEngine.remediable (ControlResult.status rec) = true ->
    get_account (ControlResult.cloud_account_id rec) (session w) = Some account ->
    RemediationEngine.find_control AWS_CONTROLS (ControlResult.control_id rec)
    = Some control ->
    remediate control (RemediationEngine.client_for account)
      (Finding.mk (ControlResult.resource_id rec) (ControlResult.resource_type rec)
         (ControlResult.evidence_before rec) (ControlResult.finding_details rec))
      false (cloud w) = (Ok rr, c') ->
    RemediationResult.success rr = true ->
    exists (r : pyval) (w' : World) (entry : AuditLog.t),
      RemediationEngine.remediate_finding AWS_CONTROLS finding_id false approved_by w
      = (Ok r, w')
      /\ py_get "success" r = Some (PBool true)
      /\ committed w' = session w'
      /\ cloud w' = c'
      /\ get_finding finding_id (session w')
         = Some (ControlResult.set_resolved_at (Some (clock w + 1))
                   (ControlResult.set_rollback_data (RemediationResult.rollback_data rr)
                      (ControlResult.set_evidence_after
                         (RemediationResult.after_state rr)
                         (ControlResult.set_remediation_executed_at (Some (clock w))
                            (ControlResult.set_remediation_approved_by approved_by
                               (ControlResult.set_remediation_status
                                  (Some "executed"%string)
                                  (ControlResult.set_status "FIXED" rec)))))))
      /\ cloud_accounts (session w') = cloud_accounts (session w)
      /\ audit_logs (session w') = audit_logs (session w) ++ [entry]
      /\ AuditLog.event_type entry = "remediation"%string
      /\ AuditLog.actor entry = Some (RemediationEngine.actor_of approved_by)
      /\ AuditLog.control_result_id entry = Some finding_id
      /\ AuditLog.organization_id entry = Some (CloudAccount.organization_id account)
      /\ AuditLog.before_state entry = RemediationResult.before_state rr
      /\ AuditLog.after_state entry = RemediationResult.after_state rr
      /\ AuditLog.success entry = Some "success"%string
      /\ py_get "dry_run" (AuditLog.event_data entry) = Some (PBool false).
Proof.
  intros until c'. intros Hf Hrem Hacc Hctl Hcall Hok.
  unfold RemediationEngine.remediate_finding, bind, gets.
  rewrite Hf, Hrem. cbn [negb]. rewrite Hacc, Hctl.
  unfold call_remediate. rewrite Hcall, Hok.
  cbn -[next_id Z.add String.append find RemediationEngine.actor_of]. unfold ret.
  do 3 eexists. split; [reflexivity |].
  cbn -[next_id Z.add String.append find RemediationEngine.actor_of].
  split; [reflexivity |]. split; [reflexivity |]. split; [reflexivity |].
  split.
  { unfold get_finding. cbn [control_results].
    rewrite !find_update by (intro; reflexivity).
    unfold get_finding in Hf. rewrite Hf. reflexivity. }
  repeat split.
Qed.

(** An executed remediation (the control reports success, not a dry run)
    marks the finding FIXED and executed, stores the approver as given, the
    control's [after_state] and [rollback_data], and the two timestamps,
    commits, and appends one [remediation] audit entry that carries the
    finding id, the organization of the account and the control's before
    and after state.  The provider-side state is what the control left. *)
Theorem executed_remediation_is_recorded :
  forall (AWS_CONTROLS : list Control) (finding_id : Z) (approved_by : option string)
    (w : World) (rec : ControlResult.t) (account : CloudAccount.t) (control : Control)
    (rr : RemediationResult.t) (c' : pyval),
    get_finding finding_id (session w) = Some rec ->
    RemediationEngine.remediable (ControlResult.status rec) = true ->
    get_account (ControlResult.cloud_account_id rec) (session w) = Some account ->
    RemediationEngine.find_control AWS_CONTROLS (ControlResult.control_id rec)
    = Some control ->
    remediate control (RemediationEngine.client_for account)
      (Finding.mk (ControlResult.resource_id rec) (ControlResult.resource_type rec)
         (ControlResult.evidence_before rec) (ControlResult.finding_details rec))
      false (cloud w) = (Ok rr, c') ->
    RemediationResult.success rr = true ->
    exists (r : pyval) (w' : World) (rec' : ControlResult.t) (entry : AuditLog.t),
      RemediationEngine.remediate_finding AWS_CONTROLS finding_id false approved_by w
      = (Ok r, w')
      /\ cloud w' = c'
      /\ get_finding finding_id (committed w') = Some rec'
      /\ ControlResult.status rec' = "FIXED"%string
      /\ ControlResult.remediation_status rec' = Some "executed"%string
      /\ ControlResult.remediation_approved_by rec' = approved_by
      /\ ControlResult.remediation_executed_at rec' = Some (clock w)
      /\ ControlResult.resolved_at rec' = Some (clock w + 1)
      /\ ControlResult.evidence_after rec' = RemediationResult.after_state rr
      /\ ControlResult.rollback_data rec' = RemediationResult.rollback_data rr
      /\ ControlResult.evidence_before rec' = ControlResult.evidence_before rec
      /\ ControlResult.remediation_details rec' = ControlResult.remediation_details rec
      /\ audit_logs (committed w') = audit_logs (session w) ++ [entry]
      /\ AuditLog.event_type entry = "remediation"%string
      /\ AuditLog.control_result_id entry = Some finding_id
      /\ AuditLog.organization_id entry = Some (CloudAccount.organization_id account)
      /\ AuditLog.before_state entry = RemediationResult.before_state rr
      /\ AuditLog.after_state entry = RemediationResult.after_state rr.
Proof.
  intros until c'. intros Hf Hrem Hacc Hctl Hcall Hok.
  destruct (executed_remediation_row AWS_CONTROLS finding_id approved_by w rec account
              control rr c' Hf Hrem Hacc Hctl Hcall Hok)
    as (r & w' & entry & Hrun & _ & Hcom & Hcloud & Hrow & _ & Hlogs & Htype & _ & Hfid
        & Horg & Hbefore & Hafter & _).
  exists r, w'. eexists. exists entry. rewrite Hcom.
  split; [exact Hrun |]. split; [exact Hcloud |]. split; [exact Hrow |].
  repeat split; assumption.
Qed.

Lemma executed_remediation_is_recorded_witness :
  exists (r : pyval) (w' : World) (rec' : ControlResult.t),
    RemediationEngine.remediate_finding demo_controls 1 false (Some "a@x"%string)
      open_world = (Ok r, w')
    /\ get_finding 1 (committed w') = Some rec'
    /\ ControlResult.status rec' = "FIXED"%string
    /\ ControlResult.rollback_data rec' = PDict [(PStr "bucket", PStr "b1")].
Proof.
  destruct (executed_remediation_is_recorded demo_controls 1 (Some "a@x"%string)
              open_world open_finding (demo_account None) S3PublicAccessControl.control
              (RemediationResult.mk true (PStr "arn:aws:s3:::b1")
                 (PDict [(PStr "bucket", PStr "b1")])
                 (PDict [(PStr "blocked", PBool true)])
                 (PDict [(PStr "bucket", PStr "b1")]) None)
              (cloud fixed_world) eq_refl eq_refl eq_refl eq_refl eq_refl eq_refl)
    as (r & w' & rec' & entry & Hrun & _ & Hrow & Hst & _ & _ & _ & _ & _ & Hrb & _).
  exists r, w', rec'. repeat split; assumption.
Defined.

(** A remediation the control reports as failed.  The response says so and
    carries the control's error.  A dry run changes no finding; otherwise
    the finding gets [remediation_status = failed] and the error in
    [remediation_details] (replacing what was there), and keeps its status,
    so it can be tried again.  Either way one [remediation] audit entry
    marked as a failure is appended; unlike the entry of a success it
    carries no organization id. *)
Theorem failed_remediation_is_recorded :
  forall (AWS_CONTROLS : list Control) (finding_id : Z) (dry_run : bool)
    (approved_by : option string) (w : World) (rec : ControlResult.t)
    (account : CloudAccount.t) (control : Control) (rr : RemediationResult.t)
    (c' : pyval),
    get_finding finding_id (session w) = Some rec ->
    RemediationEngine.remediable (ControlResult.status rec) = true ->
    get_account (ControlResult.cloud_account_id rec) (session w) = Some account ->
    RemediationEngine.find_control AWS_CONTROLS (ControlResult.control_id rec)
    = Some control ->
    remediate control (RemediationEngine.client_for account)
      (Finding.mk (ControlResult.resource_id rec) (ControlResult.resource_type rec)
         (ControlResult.evidence_before rec) (ControlResult.finding_details rec))
      dry_run (cloud w) = (Ok rr, c') ->
    RemediationResult.success rr = false ->
    exists (w' : World) (entry : AuditLog.t),
      RemediationEngine.remediate_finding AWS_CONTROLS finding_id dry_run approved_by w
      = (Ok (PDict [ (PStr "success", PBool false);
                     (PStr "finding_id", PInt finding_id);
                     (PStr "error", of_opt_str (RemediationResult.error_message rr)) ]),
         w')
      /\ cloud w' = c'
      /\ committed w' = session w'
      /\ get_finding finding_id (session w')
         = Some (if dry_run then rec
                 else ControlResult.set_remediation_details
                        (PDict [ (PStr "error",
                                   of_opt_str (RemediationResult.error_message rr)) ])
                        (ControlResult.set_remediation_status (Some "failed"%string)
                           rec))
      /\ (dry_run = true -> control_results (session w') = control_results (session w))
      /\ audit_logs (session w') = audit_logs (session w) ++ [entry]
      /\ AuditLog.event_type entry = "remediation"%string
      /\ AuditLog.control_result_id entry = Some finding_id
      /\ AuditLog.success entry = Some "failure"%string
      /\ AuditLog.error_message entry = RemediationResult.error_message rr
      /\ AuditLog.organization_id entry = None.
Proof.
  intros until c'. intros Hf Hrem Hacc Hctl Hcall Hok.
  unfold RemediationEngine.remediate_finding, bind, gets.
  rewrite Hf, Hrem. cbn [negb]. rewrite Hacc, Hctl.
  unfold call_remediate. rewrite Hcall, Hok.
  destruct dry_run;
    cbn -[next_id Z.add String.append find RemediationEngine.actor_of of_opt_str];
    unfold ret; do 2 eexists; (split; [reflexivity |]);
    cbn -[next_id Z.add String.append find RemediationEngine.actor_of of_opt_str].
  - split; [reflexivity |]. split; [reflexivity |]. split; [exact Hf |].
    split; [reflexivity |]. split; [reflexivity |]. split; [reflexivity |].
    split; [reflexivity |]. split; [reflexivity |].
    split; [| reflexivity].
    destruct (RemediationResult.error_message rr); reflexivity.
  - split; [reflexivity |]. split; [reflexivity |].
    split.
    { unfold get_finding. cbn [control_results].
      rewrite !find_update by (intro; reflexivity).
      unfold get_finding in Hf. rewrite Hf. reflexivity. }
    split; [discriminate |]. split; [reflexivity |]. split; [reflexivity |].
    split; [reflexivity |]. split; [reflexivity |].
    split; [| reflexivity].
    destruct (RemediationResult.error_message rr); reflexivity.
Qed.

Lemma failed_remediation_is_recorded_witness :
  exists (w' : World) (rec' : ControlResult.t),
    RemediationEngine.remediate_finding demo_controls 1 false (Some "a@x"%string)
      failed_scan_world
    = (Ok (PDict [ (PStr "success", PBool false); (PStr "finding_id", PInt 1);
                   (PStr "error",
                     PStr "Remediation not implemented for this control") ]), w')
    /\ get_finding 1 (session w') = Some rec'
    /\ ControlResult.status rec' = "ERROR"%string
    /\ ControlResult.remediation_status rec' = Some "failed"%string.
Proof.
  edestruct (failed_remediation_is_recorded demo_controls 1 false (Some "a@x"%string)
               failed_scan_world)
    as (w' & entry & Hrun & _ & _ & Hrow & _).
  - reflexivity.
  - reflexivity.
  - reflexivity.
  - reflexivity.
  - reflexivity.
  - reflexivity.
  - exists w'. eexists. split; [exact Hrun |]. split; [exact Hrow |].
    split; reflexivity.
Defined.

(** A remediation that cannot start is refused before anything happens:
    when the finding is FIXED, PASS or in any state other than FAIL and
    ERROR, when the account row of the finding is gone (an
    [AttributeError], the account is not checked before it is used), or when
    the registry has no control of the finding's [control_id].  The engine
    raises, calls no control and writes nothing, not even an audit entry:
    the world is as it was. *)
Theorem refused_remediation_changes_nothing :
  forall (AWS_CONTROLS : list Control) (finding_id : Z) (dry_run : bool)
    (approved_by : option string) (w : World) (rec : ControlResult.t),
    get_finding finding_id (session w) = Some rec ->
    RemediationEngine.remediable (ControlResult.status rec) = false
    \/ get_account (ControlResult.cloud_account_id rec) (session w) = None
    \/ RemediationEngine.find_control AWS_CONTROLS (ControlResult.control_id rec) = None ->
    exists e : exn,
      RemediationEngine.remediate_finding AWS_CONTROLS finding_id dry_run approved_by w
      = (Raise e, w)
      /\ (RemediationEngine.remediable (ControlResult.status rec) = false ->
          e = ValueError ("Finding " +++ str_int finding_id
                          +++ " is not in remediable state"))
      /\ (RemediationEngine.remediable (ControlResult.status rec) = true ->
          get_account (ControlResult.cloud_account_id rec) (session w) = None ->
          exc_class e = "AttributeError"%string)
      /\ (RemediationEngine.remediable (ControlResult.status rec) = true ->
          get_account (ControlResult.cloud_account_id rec) (session w) <> None ->
          e = ValueError ("Control " +++ ControlResult.control_id rec +++ " not found")).
Proof.
  intros AWS_CONTROLS finding_id dry_run approved_by w rec Hf Hcase.
  unfold RemediationEngine.remediate_finding. rewrite bind_gets, Hf.
  destruct (RemediationEngine.remediable (ControlResult.status rec)) eqn:Hrem;
    cbn [negb].
  - rewrite bind_gets.
    destruct (get_account (ControlResult.cloud_account_id rec) (session w))
      as [account |] eqn:Hacc.
    + destruct (RemediationEngine.find_control AWS_CONTROLS (ControlResult.control_id rec))
        as [control |] eqn:Hctl.
      * destruct Hcase as [H | [H | H]]; discriminate.
      * eexists. split; [reflexivity |].
        split; [discriminate |]. split; [intros _ H; discriminate | reflexivity].
    + eexists. split; [reflexivity |].
      split; [discriminate |]. split; [reflexivity |].
      intros _ H. contradiction.
  - eexists. split; [reflexivity |].
    split; [reflexivity |]. split; discriminate.
Qed.

Lemma refused_remediation_changes_nothing_witness :
  (exists e : exn,
     RemediationEngine.remediate_finding demo_controls 1 true None fixed_world
     = (Raise e, fixed_world))
  /\ (exists e : exn,
        RemediationEngine.remediate_finding [S3EncryptionControl.control] 1 false
          (Some "a@x"%string) open_world
        = (Raise e, open_world)
        /\ e = ValueError "Control AWS-S3-001 not found").
Proof.
  split.
  - edestruct (refused_remediation_changes_nothing demo_controls 1 true None fixed_world)
      as (e & Hrun & _).
    + reflexivity.
    + left. reflexivity.
    + exists e. exact Hrun.
  - edestruct (refused_remediation_changes_nothing [S3EncryptionControl.control] 1 false
                 (Some "a@x"%string) open_world)
      as (e & Hrun & _ & _ & Hmsg).
    + reflexivity.
    + right. right. reflexivity.
    + exists e. split; [exact Hrun |]. apply Hmsg; [reflexivity | discriminate].
Defined.

(** An exception raised by [control.remediate] goes up to the caller as it
    is.  No column of any finding changes, nothing is committed and no audit
    entry is written; what the control did to the provider before it raised
    stays done. *)
Theorem raising_remediation_is_not_recorded :
  forall (AWS_CONTROLS : list Control) (finding_id : Z) (dry_run : bool)
    (approved_by : option string) (w : World) (rec : ControlResult.t)
    (account : CloudAccount.t) (control : Control) (e : exn) (c' : pyval),
    get_finding finding_id (session w) = Some rec ->
    RemediationEngine.remediable (ControlResult.status rec) = true ->
    get_account (ControlResult.cloud_account_id rec) (session w) = Some account ->
    RemediationEngine.find_control AWS_CONTROLS (ControlResult.control_id rec)
    = Some control ->
    remediate control (RemediationEngine.client_for account)
      (Finding.mk (ControlResult.resource_id rec) (ControlResult.resource_type rec)
         (ControlResult.evidence_before rec) (ControlResult.finding_details rec))
      dry_run (cloud w) = (Raise e, c') ->
    exists w' : World,
      RemediationEngine.remediate_finding AWS_CONTROLS finding_id dry_run approved_by w
      = (Raise e, w')
      /\ session w' = session w
      /\ committed w' = committed w
      /\ cloud w' = c'
      /\ trace w' = trace w ++ [EvRemediate (control_id control) dry_run].
Proof.
  intros until c'. intros Hf Hrem Hacc Hctl Hcall.
  unfold RemediationEngine.remediate_finding, bind, gets.
  rewrite Hf, Hrem. cbn [negb]. rewrite Hacc, Hctl.
  unfold call_remediate. rewrite Hcall.
  eexists. split; [reflexivity |]. repeat split.
Qed.

Lemma raising_remediation_is_not_recorded_witness :
  exists w' : World,
    RemediationEngine.remediate_finding [half_done_control] 1 false (Some "a@x"%string)
      half_done_world
    = (Raise (ClientError "Throttling"), w')
    /\ session w' = session half_done_world
    /\ cloud w' = PDict [(PStr "half", PBool true)].
Proof.
  edestruct (raising_remediation_is_not_recorded [half_done_control] 1 false
               (Some "a@x"%string) half_done_world)
    as (w' & Hrun & Hs & _ & Hc & _).
  - reflexivity.
  - reflexivity.
  - reflexivity.
  - reflexivity.
  - reflexivity.
  - exists w'. repeat split; assumption.
Defined.

(** A rollback the control reports as failed answers with [success = False]
    and the control's error, and leaves no record: no column of the finding
    changes (it stays FIXED), nothing is committed, and no audit entry is
    written. *)
Theorem failed_rollback_leaves_no_record :
  forall (AWS_CONTROLS : list Control) (finding_id : Z) (rolled_back_by : string)
    (w : World) (rec : ControlResult.t) (account : CloudAccount.t) (control : Control)
    (rr : RemediationResult.t) (c' : pyval),
    get_finding finding_id (session w) = Some rec ->
    ControlResult.status rec = "FIXED"%string ->
    truthy (ControlResult.rollback_data rec) = true ->
    get_account (ControlResult.cloud_account_id rec) (session w) = Some account ->
    RemediationEngine.find_control AWS_CONTROLS (ControlResult.control_id rec)
    = Some control ->
    rollback control (RemediationEngine.client_for account)
      (ControlResult.rollback_data rec) (cloud w) = (Ok rr, c') ->
    RemediationResult.success rr = false ->
    exists w' : World,
      RemediationEngine.rollback_remediation AWS_CONTROLS finding_id rolled_back_by w
      = (Ok (PDict [ (PStr "success", PBool false);
                     (PStr "finding_id", PInt finding_id);
                     (PStr "error", of_opt_str (RemediationResult.error_message rr)) ]),
         w')
      /\ session w' = session w
      /\ committed w' = committed w
      /\ cloud w' = c'
      /\ trace w' = trace w ++ [EvRollback (control_id control)].
Proof.
  intros until c'. intros Hf Hst Hrb Hacc Hctl Hcall Hok.
  unfold RemediationEngine.rollback_remediation, bind, gets.
  rewrite Hf, Hst. cbn [String.eqb Ascii.eqb Bool.eqb negb].
  rewrite Hrb. cbn [negb]. rewrite Hacc, Hctl.
  unfold call_rollback. rewrite Hcall, Hok. unfold ret.
  eexists. split; [reflexivity |]. repeat split.
Qed.

Lemma failed_rollback_leaves_no_record_witness :
  exists w' : World,
    RemediationEngine.rollback_remediation demo_controls 1 "a@x" fixed_world
    = (Ok (PDict [ (PStr "success", PBool false); (PStr "finding_id", PInt 1);
                   (PStr "error", PStr "Rollback not implemented for this control") ]),
       w')
    /\ session w' = session fixed_world.
Proof.
  edestruct (failed_rollback_leaves_no_record demo_controls 1 "a@x" fixed_world)
    as (w' & Hrun & Hs & _).
  - reflexivity.
  - reflexivity.
  - reflexivity.
  - reflexivity.
  - reflexivity.
  - reflexivity.
  - reflexivity.
  - exists w'. split; [exact Hrun | exact Hs].
Defined.

(** No remediation by a control that inherits [rollback] from
    [BaseControl] can be undone, and every shipped control inherits it.
    Once such a control has fixed a finding and left rollback data (a
    non-empty dictionary), every rollback request answers "Rollback not
    implemented for this control" and changes nothing, here or at the
    provider: the finding stays FIXED. *)
Theorem inherited_rollback_never_restores :
  forall (AWS_CONTROLS : list Control) (finding_id : Z) (rolled_back_by : string)
    (w : World) (rec : ControlResult.t) (account : CloudAccount.t) (control : Control)
    (kvs : list (pyval * pyval)),
    get_finding finding_id (session w) = Some rec ->
    ControlResult.status rec = "FIXED"%string ->
    ControlResult.rollback_data rec = PDict kvs ->
    kvs <> [] ->
    get_account (ControlResult.cloud_account_id rec) (session w) = Some account ->
    RemediationEngine.find_control AWS_CONTROLS (ControlResult.control_id rec)
    = Some control ->
    rollback control = BaseControl_rollback ->
    exists w' : World,
      RemediationEngine.rollback_remediation AWS_CONTROLS finding_id rolled_back_by w
      = (Ok (PDict [ (PStr "success", PBool false);
                     (PStr "finding_id", PInt finding_id);
                     (PStr "error",
                       PStr "Rollback not implemented for this control") ]), w')
      /\ session w' = session w
      /\ cloud w' = cloud w
      /\ option_map ControlResult.status (get_finding finding_id (session w'))
         = Some "FIXED"%string.
Proof.
  intros AWS_CONTROLS finding_id rolled_back_by w rec account control kvs
    Hf Hst Hdata Hkvs Hacc Hctl Hbase.
  unfold RemediationEngine.rollback_remediation, bind, gets.
  rewrite Hf, Hst. cbn [String.eqb Ascii.eqb Bool.eqb negb].
  rewrite Hdata. destruct kvs as [| kv kvs]; [contradiction |].
  cbn [truthy negb]. rewrite Hacc, Hctl.
  unfold call_rollback. rewrite Hbase. cbn [BaseControl_rollback].
  cbn [RemediationResult.success RemediationResult.error_message of_opt_str].
  unfold ret. eexists. split; [reflexivity |].
  cbn [session cloud with_cloud emit]. rewrite Hf. cbn [option_map]. rewrite Hst.
  repeat split.
Qed.

Lemma inherited_rollback_never_restores_witness :
  exists w' : World,
    RemediationEngine.rollback_remediation
      [S3PublicAccessControl.control; S3EncryptionControl.control] 1 "a@x" fixed_world
    = (Ok (PDict [ (PStr "success", PBool false); (PStr "finding_id", PInt 1);
                   (PStr "error", PStr "Rollback not implemented for this control") ]),
       w')
    /\ cloud w' = cloud fixed_world.
Proof.
  edestruct (inherited_rollback_never_restores
               [S3PublicAccessControl.control; S3EncryptionControl.control] 1 "a@x"
               fixed_world)
    as (w' & Hrun & _ & Hc & _).
  - reflexivity.
  - reflexivity.
  - reflexivity.
  - discriminate.
  - reflexivity.
  - reflexivity.
  - reflexivity.
  - exists w'. split; [exact Hrun | exact Hc].
Defined.

(** What a successful rollback writes, column by column. *)
Lemma rollback_success_row :
  forall (AWS_CONTROLS : list Control) (finding_id : Z) (rolled_back_by : string)
    (w : World) (rec : ControlResult.t) (account : CloudAccount.t) (control : Control)
    (rr : RemediationResult.t) (c' : pyval) (details : list (pyval * pyval)),
    get_finding finding_id (session w) = Some rec ->
    ControlResult.status rec = "FIXED"%string ->
    truthy (ControlResult.rollback_data rec) = true ->
    ControlResult.remediation_details rec = PDict details ->
    get_account (ControlResult.cloud_account_id rec) (session w) = Some account ->
    RemediationEngine.find_control AWS_CONTROLS (ControlResult.control_id rec)
    = Some control ->
    rollback control (RemediationEngine.client_for account)
      (ControlResult.rollback_data rec) (cloud w) = (Ok rr, c') ->
    RemediationResult.success rr = true ->
    exists (r : pyval) (w' : World) (entry : AuditLog.t),
      RemediationEngine.rollback_remediation AWS_CONTROLS finding_id rolled_back_by w
      = (Ok r, w')
      /\ py_get "success" r = Some (PBool true)
      /\ committed w' = session w'
      /\ cloud w' = c'
      /\ get_finding finding_id (session w')
         = Some (ControlResult.set_remediation_details
                   (PDict (dict_set "rolled_back_by" (PStr rolled_back_by)
                             (dict_set "rolled_back_at" (PStr (isoformat (clock w)))
                                details)))
                   (ControlResult.set_remediation_status (Some "rolled_back"%string)
                      (ControlResult.set_status "FAIL" rec)))
      /\ audit_logs (session w') = audit_logs (session w) ++ [entry]
      /\ AuditLog.event_type entry = "rollback"%string
      /\ AuditLog.actor entry = Some rolled_back_by
      /\ AuditLog.control_result_id entry = Some finding_id
      /\ AuditLog.organization_id entry = None.
Proof.
  intros AWS_CONTROLS finding_id rolled_back_by w rec account control rr c' details
    Hf Hst Hrb Hdet Hacc Hctl Hcall Hok.
  unfold RemediationEngine.rollback_remediation, bind, gets.
  rewrite Hf, Hst. cbn [String.eqb Ascii.eqb Bool.eqb negb].
  rewrite Hrb. cbn [negb]. rewrite Hacc, Hctl.
  unfold call_rollback. rewrite Hcall, Hok, Hdet.
  cbn -[next_id Z.add String.append dict_set isoformat find]. unfold ret.
  do 3 eexists. split; [reflexivity |].
  cbn -[next_id Z.add String.append dict_set isoformat find].
  split; [reflexivity |]. split; [reflexivity |]. split; [reflexivity |].
  split.
  { unfold get_finding. cbn [control_results].
    rewrite !find_update by (intro; reflexivity).
    unfold get_finding in Hf. rewrite Hf. reflexivity. }
  repeat split.
Qed.

(** Remediate, then roll back.  When the control fixes the finding and then
    restores the resource, the finding is FAIL again with
    [remediation_status = rolled_back] and can be remediated once more, and
    the provider is in the state the rollback left.  The row still carries
    the traces of the remediation: the approver, [evidence_after],
    [rollback_data], the execution time, and even [resolved_at], although
    the finding is not resolved any more.  The audit table has gained the
    remediation entry and the rollback entry, in that order; the rollback
    entry has no organization id. *)
Theorem remediate_then_rollback :
  forall (AWS_CONTROLS : list Control) (finding_id : Z) (approved_by : option string)
    (rolled_back_by : string) (w : World) (rec : ControlResult.t)
    (account : CloudAccount.t) (control : Control) (rr rb : RemediationResult.t)
    (c1 c2 : pyval) (details : list (pyval * pyval)),
    get_finding finding_id (session w) = Some rec ->
    RemediationEngine.remediable (ControlResult.status rec) = true ->
    ControlResult.remediation_details rec = PDict details ->
    get_account (ControlResult.cloud_account_id rec) (session w) = Some account ->
    RemediationEngine.find_control AWS_CONTROLS (ControlResult.control_id rec)
    = Some control ->
    remediate control (RemediationEngine.client_for account)
      (Finding.mk (ControlResult.resource_id rec) (ControlResult.resource_type rec)
         (ControlResult.evidence_before rec) (ControlResult.finding_details rec))
      false (cloud w) = (Ok rr, c1) ->
    RemediationResult.success rr = true ->
    truthy (RemediationResult.rollback_data rr) = true ->
    rollback control (RemediationEngine.client_for account)
      (RemediationResult.rollback_data rr) c1 = (Ok rb, c2) ->
    RemediationResult.success rb = true ->
    exists (r1 r2 : pyval) (w1 w2 : World) (rec2 : ControlResult.t)
           (e1 e2 : AuditLog.t),
      RemediationEngine.remediate_finding AWS_CONTROLS finding_id false approved_by w
      = (Ok r1, w1)
      /\ RemediationEngine.rollback_remediation AWS_CONTROLS finding_id rolled_back_by w1
         = (Ok r2, w2)
      /\ py_get "success" r2 = Some (PBool true)
      /\ cloud w2 = c2
      /\ get_finding finding_id (committed w2) = Some rec2
      /\ ControlResult.status rec2 = "FAIL"%string
      /\ ControlResult.remediation_status rec2 = Some "rolled_back"%string
      /\ RemediationEngine.remediable (ControlResult.status rec2) = true
      /\ ControlResult.remediation_approved_by rec2 = approved_by
      /\ ControlResult.remediation_executed_at rec2 = Some (clock w)
      /\ ControlResult.resolved_at rec2 = Some (clock w + 1)
      /\ ControlResult.evidence_after rec2 = RemediationResult.after_state rr
      /\ ControlResult.rollback_data rec2 = RemediationResult.rollback_data rr
      /\ ControlResult.evidence_before rec2 = ControlResult.evidence_before rec
      /\ audit_logs (committed w2) = audit_logs (session w) ++ [e1; e2]
      /\ AuditLog.event_type e1 = "remediation"%string
      /\ AuditLog.event_type e2 = "rollback"%string
      /\ AuditLog.organization_id e2 = None.
Proof.
  intros until details.
  intros Hf Hrem Hdet Hacc Hctl Hcall Hok Hdata Hback Hbok.
  destruct (executed_remediation_row AWS_CONTROLS finding_id approved_by w rec account
              control rr c1 Hf Hrem Hacc Hctl Hcall Hok)
    as (r1 & w1 & e1 & Hrun1 & _ & _ & Hcloud1 & Hrow1 & Haccs & Hlogs1 & Htype1 & _).
  assert (Hacc1 : get_account (ControlResult.cloud_account_id rec) (session w1)
                  = Some account).
  { unfold get_account. rewrite Haccs. exact Hacc. }
  rewrite <- Hcloud1 in Hback.
  destruct (rollback_success_row AWS_CONTROLS finding_id rolled_back_by w1 _ account
              control rb c2 details Hrow1 eq_refl Hdata Hdet Hacc1 Hctl Hback Hbok)
    as (r2 & w2 & e2 & Hrun2 & Hsucc & Hcom & Hcloud2 & Hrow2 & Hlogs2 & Htype2 & _ & _
        & Horg2).
  exists r1, r2, w1, w2. eexists. exists e1, e2. rewrite Hcom.
  split; [exact Hrun1 |]. split; [exact Hrun2 |]. split; [exact Hsucc |].
  split; [exact Hcloud2 |]. split; [exact Hrow2 |].
  split; [reflexivity |]. split; [reflexivity |]. split; [reflexivity |].
  split; [reflexivity |]. split; [reflexivity |]. split; [reflexivity |].
  split; [reflexivity |]. split; [reflexivity |]. split; [reflexivity |].
  split; [rewrite Hlogs2, Hlogs1, <- app_assoc; reflexivity |].
  split; [exact Htype1 |]. split; [exact Htype2 | exact Horg2].
Qed.

Lemma remediate_then_rollback_witness :
  exists (r1 r2 : pyval) (w1 w2 : World) (rec2 : ControlResult.t),
    RemediationEngine.remediate_finding demo_controls 1 false (Some "a@x"%string)
      reversible_world = (Ok r1, w1)
    /\ RemediationEngine.rollback_remediation demo_controls 1 "b@x" w1 = (Ok r2, w2)
    /\ cloud w2 = PDict [(PStr "fixed", PBool false)]
    /\ get_finding 1 (committed w2) = Some rec2
    /\ ControlResult.status rec2 = "FAIL"%string
    /\ ControlResult.resolved_at rec2 = Some 101.
Proof.
  edestruct (remediate_then_rollback demo_controls 1 (Some "a@x"%string) "b@x"
               reversible_world)
    as (r1 & r2 & w1 & w2 & rec2 & e1 & e2 & Hrun1 & Hrun2 & _ & Hcloud & Hrow & Hst & _
        & _ & _ & _ & Hres & _).
  - reflexivity.
  - reflexivity.
  - reflexivity.
  - reflexivity.
  - reflexivity.
  - reflexivity.
  - reflexivity.
  - reflexivity.
  - reflexivity.
  - reflexivity.
  - exists r1, r2, w1, w2, rec2. repeat split; assumption.
Defined.

(** ** What a remediation may touch *)

Lemma only_finding_changes_refl (finding_id : Z) (w : World) :
  only_finding_changes finding_id w w.
Proof. repeat split. Qed.

Lemma only_finding_changes_trans (finding_id : Z) (a b c : World) :
  only_finding_changes finding_id a b -> only_finding_changes finding_id b c ->
  only_finding_changes finding_id a c.
Proof.
  intros (Ha1 & Ho1 & Hi1 & Hf1) (Ha2 & Ho2 & Hi2 & Hf2).
  repeat split; try congruence.
  intros j Hj. rewrite (Hf2 j Hj). exact (Hf1 j Hj).
Qed.

Lemma only_finding_changes_same (finding_id : Z) (w w' : World) :
  session w' = session w -> only_finding_changes finding_id w w'.
Proof. intro H. unfold only_finding_changes. rewrite H. repeat split. Qed.

Lemma find_other_row (finding_id j : Z) (f : ControlResult.t -> ControlResult.t)
  (rows : list ControlResult.t) :
  (forall r, ControlResult.id (f r) = ControlResult.id r) ->
  j <> finding_id ->
  find (fun r => ControlResult.id r =? j)
    (map (fun r => if ControlResult.id r =? finding_id then f r else r) rows)
  = find (fun r => ControlResult.id r =? j) rows.
Proof.
  intros Hid Hj. induction rows as [| r rest IH]; [reflexivity |].
  cbn [map find].
  destruct (Z.eqb_spec (ControlResult.id r) finding_id) as [Heq | Hne].
  - rewrite Hid. destruct (Z.eqb_spec (ControlResult.id r) j) as [Hj' | _].
    + exfalso. apply Hj. congruence.
    + exact IH.
  - destruct (ControlResult.id r =? j); [reflexivity | exact IH].
Qed.

Lemma frame_update_finding (finding_id : Z) (f : ControlResult.t -> ControlResult.t) :
  (forall r, ControlResult.id (f r) = ControlResult.id r) ->
  keeps (only_finding_changes finding_id) (update_finding finding_id f).
Proof.
  intros Hid w. unfold update_finding, modify, only_finding_changes.
  cbn [snd session with_session cloud_accounts organizations control_results].
  split; [reflexivity |]. split; [reflexivity |]. split.
  - rewrite map_map. apply map_ext. intro r.
    destruct (ControlResult.id r =? finding_id); [apply Hid | reflexivity].
  - intros j Hj. unfold get_finding. cbn [control_results].
    apply find_other_row; assumption.
Qed.

Lemma frame_remediation_log (finding_id : Z) (event_type action actor : string)
  (kwargs : list (pyval * pyval)) :
  keeps (only_finding_changes finding_id)
    (RemediationEngine._log_audit event_type action actor kwargs).
Proof. intro w. repeat split. Qed.

Ltac frame_step finding_id :=
  lazymatch goal with
  | |- keeps _ (bind _ _) =>
      apply (keeps_bind _ (only_finding_changes_trans finding_id)); [| intro]
  | |- keeps _ (ret _) => apply (keeps_ret _ (only_finding_changes_refl finding_id))
  | |- keeps _ (raise _) => apply (keeps_raise _ (only_finding_changes_refl finding_id))
  | |- keeps _ (gets _) => apply (keeps_gets _ (only_finding_changes_refl finding_id))
  | |- keeps _ utcnow => intro; apply only_finding_changes_same; reflexivity
  | |- keeps _ commit => intro; apply only_finding_changes_same; reflexivity
  | |- keeps _ (update_finding _ _) =>
      apply frame_update_finding; intro; reflexivity
  | |- keeps _ (RemediationEngine._log_audit _ _ _ _) => apply frame_remediation_log
  | |- keeps _ (call_remediate _ _ _ _) =>
      let w := fresh "w" in
      intro w; unfold call_remediate;
      match goal with
      | |- context [remediate ?c ?cl ?f ?d ?s] => destruct (remediate c cl f d s)
      end; apply only_finding_changes_same; reflexivity
  | |- keeps _ (call_rollback _ _ _) =>
      let w := fresh "w" in
      intro w; unfold call_rollback;
      match goal with
      | |- context [rollback ?c ?cl ?d ?s] => destruct (rollback c cl d s)
      end; apply only_finding_changes_same; reflexivity
  | |- keeps _ (match ?x with _ => _ end) => destruct x
  end.

(** Whatever a remediation or a rollback request does, and whether it
    answers or raises, it touches one finding only: every other finding row
    is as it was, no row is added or removed, and the accounts and the
    organizations are not written to. *)
Theorem remediation_touches_one_finding :
  forall (AWS_CONTROLS : list Control) (finding_id : Z) (w : World),
    (forall (dry_run : bool) (approved_by : option string),
        only_finding_changes finding_id w
          (snd (RemediationEngine.remediate_finding AWS_CONTROLS finding_id dry_run
                  approved_by w)))
    /\ (forall (rolled_back_by : string),
          only_finding_changes finding_id w
            (snd (RemediationEngine.rollback_remediation AWS_CONTROLS finding_id
                    rolled_back_by w))).
Proof.
  intros AWS_CONTROLS finding_id w. split.
  - intros dry_run approved_by. revert w.
    change (keeps (only_finding_changes finding_id)
              (RemediationEngine.remediate_finding AWS_CONTROLS finding_id dry_run
                 approved_by)).
    unfold RemediationEngine.remediate_finding. cbv zeta.
    repeat frame_step finding_id.
  - intro rolled_back_by. revert w.
    change (keeps (only_finding_changes finding_id)
              (RemediationEngine.rollback_remediation AWS_CONTROLS finding_id
                 rolled_back_by)).
    unfold RemediationEngine.rollback_remediation. cbv zeta.
    repeat frame_step finding_id.
Qed.

(** ** The remediation endpoint *)

Lemma or_else_names_someone (a : option string) (b : string) :
  b <> EmptyString ->
  exists s : string,
    or_else a b = Some s
    /\ s <> EmptyString
    /\ RemediationEngine.actor_of (or_else a b) = s
    /\ s = match a with
           | Some x => if String.eqb x EmptyString then b else x
           | None => b
           end.
Proof.
  intro Hb. unfold or_else.
  destruct a as [x |]; cbn [truthy_str].
  - destruct (String.eqb_spec x EmptyString) as [-> | Hx]; cbn [negb].
    + exists b. repeat split; [exact Hb |].
      unfold RemediationEngine.actor_of. cbn [truthy_str].
      apply String.eqb_neq in Hb. rewrite Hb. reflexivity.
    + exists x. repeat split; [exact Hx |].
      unfold RemediationEngine.actor_of. cbn [truthy_str].
      apply String.eqb_neq in Hx. rewrite Hx. reflexivity.
  - exists b. repeat split; [exact Hb |].
    unfold RemediationEngine.actor_of. cbn [truthy_str].
    apply String.eqb_neq in Hb. rewrite Hb. reflexivity.
Qed.

(** Through the endpoint an executed remediation always carries an
    approver.  The engine itself accepts a missing approver, but the
    endpoint passes [approved_by or current_user.email]: for a user with an
    email, the approver stored with the finding and the actor of the audit
    entry are one and the same string, the request's [approved_by] when it
    is given and not empty (whatever it says: the endpoint does not check
    it against the user), and the user's email otherwise.  That string is
    never empty. *)
Theorem endpoint_names_the_approver :
  forall (AWS_CONTROLS : list Control) (remediation_request : RemediationRequest.t)
    (current_user_email : string) (w : World) (rec : ControlResult.t)
    (account : CloudAccount.t) (control : Control) (rr : RemediationResult.t)
    (c' : pyval),
    current_user_email <> EmptyString ->
    RemediationRequest.dry_run remediation_request = false ->
    get_finding (RemediationRequest.finding_id remediation_request) (session w)
    = Some rec ->
    RemediationEngine.remediable (ControlResult.status rec) = true ->
    get_account (ControlResult.cloud_account_id rec) (session w) = Some account ->
    RemediationEngine.find_control AWS_CONTROLS (ControlResult.control_id rec)
    = Some control ->
    remediate control (RemediationEngine.client_for account)
      (Finding.mk (ControlResult.resource_id rec) (ControlResult.resource_type rec)
         (ControlResult.evidence_before rec) (ControlResult.finding_details rec))
      false (cloud w) = (Ok rr, c') ->
    RemediationResult.success rr = true ->
    exists (r : pyval) (w' : World) (rec' : ControlResult.t) (entry : AuditLog.t)
           (approver : string),
      Api.remediate_finding AWS_CONTROLS remediation_request current_user_email w
      = (Ok r, w')
      /\ approver = match RemediationRequest.approved_by remediation_request with
                    | Some x => if String.eqb x EmptyString then current_user_email else x
                    | None => current_user_email
                    end
      /\ approver <> EmptyString
      /\ get_finding (RemediationRequest.finding_id remediation_request) (committed w')
         = Some rec'
      /\ ControlResult.status rec' = "FIXED"%string
      /\ ControlResult.remediation_approved_by rec' = Some approver
      /\ audit_logs (committed w') = audit_logs (session w) ++ [entry]
      /\ AuditLog.actor entry = Some approver.
Proof.
  intros AWS_CONTROLS remediation_request current_user_email w rec account control rr c'
    Hemail Hdry Hf Hrem Hacc Hctl Hcall Hok.
  destruct (or_else_names_someone (RemediationRequest.approved_by remediation_request)
              current_user_email Hemail)
    as (approver & Hor & Hne & Hactor & Hwho).
  destruct (executed_remediation_row AWS_CONTROLS
              (RemediationRequest.finding_id remediation_request)
              (or_else (RemediationRequest.approved_by remediation_request)
                 current_user_email)
              w rec account control rr c' Hf Hrem Hacc Hctl Hcall Hok)
    as (r & w' & entry & Hrun & _ & Hcom & _ & Hrow & _ & Hlogs & _ & Hby & _).
  exists r, w'. eexists. exists entry, approver.
  unfold Api.remediate_finding. rewrite Hdry, Hcom.
  split; [exact Hrun |]. split; [exact Hwho |]. split; [exact Hne |].
  split; [exact Hrow |]. split; [reflexivity |].
  split; [exact Hor |]. split; [exact Hlogs |].
  rewrite Hby, Hactor. reflexivity.
Qed.

Lemma endpoint_names_the_approver_witness :
  exists (r : pyval) (w' : World) (rec' : ControlResult.t) (entry : AuditLog.t),
    Api.remediate_finding demo_controls (RemediationRequest.mk 1 false None)
      "user@demo.com" open_world = (Ok r, w')
    /\ get_finding 1 (committed w') = Some rec'
    /\ ControlResult.remediation_approved_by rec' = Some "user@demo.com"%string
    /\ audit_logs (committed w') = [entry]
    /\ AuditLog.actor entry = Some "user@demo.com"%string.
Proof.
  edestruct (endpoint_names_the_approver demo_controls
               (RemediationRequest.mk 1 false None) "user@demo.com" open_world)
    as (r & w' & rec' & entry & approver & Hrun & Hwho & _ & Hrow & _ & Hby & Hlogs
        & Hactor).
  - discriminate.
  - reflexivity.
  - reflexivity.
  - reflexivity.
  - reflexivity.
  - reflexivity.
  - reflexivity.
  - reflexivity.
  - cbn [RemediationRequest.approved_by] in Hwho. subst approver.
    exists r, w', rec', entry. repeat split; assumption.
Defined.

(** ** Evidence engine: the export and the object store *)

Section ExportSteps.

Variable EVIDENCE_BUCKET_NAME : string.
Variable pdf_build :
  Organization.t -> list AuditLog.t -> list ControlResult.t -> option Z -> option Z
  -> Z -> outcome (list ascii).
Variable json_dumps : pyval -> list ascii.
Variable presigned_url : string -> string -> Z -> string.

(** The export once the report bytes exist: what is stored and what is
    answered, for each way the object store may behave. *)
Lemma export_after_generation :
  forall (organization_id : Z) (start_date end_date : option Z) (format : string)
    (w w1 : World) (organization : Organization.t) (data : list ascii),
    get_organization organization_id (session w) = Some organization ->
    (if String.eqb format "pdf"
     then EvidenceEngine._generate_pdf_report pdf_build organization
            (EvidenceEngine.report_audit_logs organization_id start_date end_date
               (session w))
            (EvidenceEngine.report_control_results organization_id (session w))
            start_date end_date
     else EvidenceEngine._generate_json_report json_dumps organization
            (EvidenceEngine.report_audit_logs organization_id start_date end_date
               (session w))
            (EvidenceEngine.report_control_results organization_id (session w))) w
    = (Ok data, w1) ->
    let file_ext := if String.eqb format "pdf" then "pdf"%string else "json"%string in
    let content_type :=
      if String.eqb format "pdf" then "application/pdf"%string
      else "application/json"%string in
    let report_key :=
      ("audit-reports/" +++ str_int organization_id +++ "/" +++ strftime (clock w + 1)
       +++ "." +++ file_ext)%string in
    let stored :=
      mkObject data content_type "AES256"
        [ ("organization_id"%string, str_int organization_id);
          ("generated_at"%string, isoformat (clock w + 2)) ] in
    let answer (download_url : pyval) (extra : list (pyval * pyval)) :=
      PDict ([ (PStr "report_key", PStr report_key);
               (PStr "download_url", download_url);
               (PStr "format", PStr format);
               (PStr "generated_at", PStr (isoformat (clock w + 3)));
               (PStr "total_audit_logs",
                 PInt (len (EvidenceEngine.report_audit_logs organization_id
                              start_date end_date (session w))));
               (PStr "total_findings",
                 PInt (len (EvidenceEngine.report_control_results organization_id
                              (session w)))) ] ++ extra) in
    let unavailable :=
      [ (PStr "message",
          PStr "Report generated successfully (S3 upload unavailable in demo mode)") ] in
    exists (r : pyval) (w' : World),
      EvidenceEngine.export_audit_report EVIDENCE_BUCKET_NAME pdf_build json_dumps
        presigned_url organization_id start_date end_date format w = (Ok r, w')
      /\ session w' = session w
      /\ committed w' = committed w
      /\ match put_object_error (store w), presign_error (store w) with
         | Some _, _ => r = answer PNone unavailable /\ objects (store w') = objects (store w)
         | None, Some _ =>
             r = answer PNone unavailable
             /\ objects (store w')
                = (EVIDENCE_BUCKET_NAME, report_key, stored) :: objects (store w)
         | None, None =>
             r = answer (PStr (presigned_url EVIDENCE_BUCKET_NAME report_key 3600)) []
             /\ objects (store w')
                = (EVIDENCE_BUCKET_NAME, report_key, stored) :: objects (store w)
         end.
Proof.
  intros organization_id start_date end_date format w w1 organization data Horg Hgen.
  cbv zeta.
  unfold EvidenceEngine.export_audit_report. rewrite bind_gets, Horg.
  rewrite !bind_gets.
  assert (Hw1 : w1 = snd (utcnow w)).
  { destruct (String.eqb format "pdf").
    - unfold EvidenceEngine._generate_pdf_report in Hgen.
      rewrite (bind_ok utcnow _ w _ _ eq_refl) in Hgen.
      destruct (pdf_build organization _ _ start_date end_date _); [| discriminate].
      injection Hgen as _ <-. reflexivity.
    - unfold EvidenceEngine._generate_json_report in Hgen.
      rewrite (bind_ok utcnow _ w _ _ eq_refl) in Hgen.
      injection Hgen as _ <-. reflexivity. }
  rewrite (bind_ok _ _ _ _ _ Hgen). subst w1.
  rewrite (bind_ok utcnow _ _ _ _ eq_refl).
  unfold try_except.
  rewrite (bind_ok utcnow _ _ _ _ eq_refl).
  unfold bind at 1. unfold put_object at 1.
  cbn [utcnow snd fst store clock session committed].
  replace (clock w + 1 + 1) with (clock w + 2) by lia.
  destruct (put_object_error (store w)) as [e |] eqn:Hput.
  - rewrite (bind_ok utcnow _ _ _ _ eq_refl). unfold ret.
    cbn [utcnow snd fst store clock session committed].
    replace (clock w + 2 + 1) with (clock w + 3) by lia.
    do 2 eexists. split; [reflexivity |]. repeat split.
  - unfold bind at 1. unfold EvidenceEngine.generate_presigned_url at 1.
    cbn [with_store store session committed clock presign_error objects].
    destruct (presign_error (store w)) as [e |] eqn:Hsign.
    + rewrite (bind_ok utcnow _ _ _ _ eq_refl). unfold ret.
      cbn [utcnow snd fst store clock session committed objects].
      replace (clock w + 2 + 1) with (clock w + 3) by lia.
      do 2 eexists. split; [reflexivity |]. repeat split.
    + rewrite (bind_ok utcnow _ _ _ _ eq_refl). unfold ret.
      cbn [utcnow snd fst store clock session committed objects].
      replace (clock w + 2 + 1) with (clock w + 3) by lia.
      do 2 eexists. split; [reflexivity |]. repeat split.
Qed.

End ExportSteps.

Lemma pdf_report_step :
  forall (pdf_build : Organization.t -> list AuditLog.t -> list ControlResult.t
                      -> option Z -> option Z -> Z -> outcome (list ascii))
    (organization : Organization.t) (logs : list AuditLog.t)
    (rows : list ControlResult.t) (start_date end_date : option Z) (w : World),
    EvidenceEngine._generate_pdf_report pdf_build organization logs rows start_date
      end_date w
    = (match pdf_build organization logs rows start_date end_date (clock w) with
       | Ok data => Ok data
       | Raise e => Raise e
       end, snd (utcnow w)).
Proof.
  intros. unfold EvidenceEngine._generate_pdf_report.
  rewrite (bind_ok utcnow _ w _ _ eq_refl).
  destruct (pdf_build organization logs rows start_date end_date (clock w)); reflexivity.
Qed.

(** A PDF export with the object store up: the bytes reportlab built are
    stored under [audit-reports/<organization>/<time>.pdf] in the evidence
    bucket, as [application/pdf], encrypted with AES256 and tagged with the
    organization id; the response carries that key and a one-hour download
    URL for it, and no warning.  The export writes nothing to the database,
    not even an audit entry of its own. *)
Theorem pdf_export_is_stored :
  forall (EVIDENCE_BUCKET_NAME : string)
    (pdf_build : Organization.t -> list AuditLog.t -> list ControlResult.t
                 -> option Z -> option Z -> Z -> outcome (list ascii))
    (json_dumps : pyval -> list ascii) (presigned_url : string -> string -> Z -> string)
    (organization_id : Z) (start_date end_date : option Z) (w : World)
    (organization : Organization.t) (data : list ascii),
    get_organization organization_id (session w) = Some organization ->
    pdf_build organization
      (EvidenceEngine.report_audit_logs organization_id start_date end_date (session w))
      (EvidenceEngine.report_control_results organization_id (session w))
      start_date end_date (clock w) = Ok data ->
    put_object_error (store w) = None ->
    presign_error (store w) = None ->
    exists (r : pyval) (w' : World) (report_key : string),
      EvidenceEngine.export_audit_report EVIDENCE_BUCKET_NAME pdf_build json_dumps
        presigned_url organization_id start_date end_date "pdf" w = (Ok r, w')
      /\ report_key = ("audit-reports/" +++ str_int organization_id +++ "/"
                       +++ strftime (clock w + 1) +++ ".pdf")%string
      /\ objects (store w')
         = (EVIDENCE_BUCKET_NAME, report_key,
            mkObject data "application/pdf" "AES256"
              [ ("organization_id"%string, str_int organization_id);
                ("generated_at"%string, isoformat (clock w + 2)) ])
           :: objects (store w)
      /\ py_get "report_key" r = Some (PStr report_key)
      /\ py_get "download_url" r
         = Some (PStr (presigned_url EVIDENCE_BUCKET_NAME report_key 3600))
      /\ py_get "message" r = None
      /\ py_get "total_audit_logs" r
         = Some (PInt (len (EvidenceEngine.report_audit_logs organization_id start_date
                              end_date (session w))))
      /\ session w' = session w
      /\ committed w' = committed w.
Proof.
  intros EVIDENCE_BUCKET_NAME pdf_build json_dumps presigned_url organization_id
    start_date end_date w organization data Horg Hpdf Hput Hsign.
  destruct (export_after_generation EVIDENCE_BUCKET_NAME pdf_build json_dumps
              presigned_url organization_id start_date end_date "pdf" w (snd (utcnow w))
              organization data Horg)
    as (r & w' & Hrun & Hs & Hc & Hstore).
  { cbn [String.eqb Ascii.eqb Bool.eqb]. rewrite pdf_report_step, Hpdf. reflexivity. }
  rewrite Hput, Hsign in Hstore. destruct Hstore as [Hr Hobjects].
  exists r, w'. eexists. split; [exact Hrun |]. split; [reflexivity |].
  split; [exact Hobjects |]. subst r. repeat split; assumption.
Qed.

Lemma pdf_export_is_stored_witness :
  exists (r : pyval) (w' : World),
    export_demo "pdf" open_world = (Ok r, w')
    /\ py_get "download_url" r
       = Some (PStr "https://compliance-evidence-bucket.s3.amazonaws.com/audit-reports/1/101.pdf")
    /\ List.length (objects (store w')) = 1%nat.
Proof.
  edestruct (pdf_export_is_stored "compliance-evidence-bucket" pdf_stub json_stub url_stub
               1 None None open_world)
    as (r & w' & report_key & Hrun & Hkey & Hobjects & _ & Hurl & _).
  - reflexivity.
  - reflexivity.
  - reflexivity.
  - reflexivity.
  - exists r, w'. split; [exact Hrun |]. subst report_key.
    split; [exact Hurl |]. rewrite Hobjects. reflexivity.
Defined.

(** Only the exact format "pdf" gives a PDF.  Any other [format] ("json",
    "csv", "PDF") gives the JSON report: stored as [application/json] under
    a key that ends in [.json], with the bytes [json.dumps] made of a report
    whose summary counts the organization's findings.  The response still
    echoes the format that was asked for. *)
Theorem other_formats_export_json :
  forall (EVIDENCE_BUCKET_NAME : string)
    (pdf_build : Organization.t -> list AuditLog.t -> list ControlResult.t
                 -> option Z -> option Z -> Z -> outcome (list ascii))
    (json_dumps : pyval -> list ascii) (presigned_url : string -> string -> Z -> string)
    (organization_id : Z) (start_date end_date : option Z) (format : string) (w : World)
    (organization : Organization.t),
    get_organization organization_id (session w) = Some organization ->
    format <> "pdf"%string ->
    put_object_error (store w) = None ->
    presign_error (store w) = None ->
    exists (r : pyval) (w' : World) (report_key : string) (stored : StoredObject)
           (report : pyval),
      EvidenceEngine.export_audit_report EVIDENCE_BUCKET_NAME pdf_build json_dumps
        presigned_url organization_id start_date end_date format w = (Ok r, w')
      /\ report_key = ("audit-reports/" +++ str_int organization_id +++ "/"
                       +++ strftime (clock w + 1) +++ ".json")%string
      /\ objects (store w') = (EVIDENCE_BUCKET_NAME, report_key, stored) :: objects (store w)
      /\ ContentType stored = "application/json"%string
      /\ ServerSideEncryption stored = "AES256"%string
      /\ Body stored = json_dumps report
      /\ py_get "generated_at" report = Some (PStr (isoformat (clock w)))
      /\ py_get "summary" report
         = Some (PDict
                   [ (PStr "total_controls",
                       PInt (len (EvidenceEngine.report_control_results organization_id
                                    (session w))));
                     (PStr "pass",
                       PInt (EvidenceEngine.count_rows "PASS"
                               (EvidenceEngine.report_control_results organization_id
                                  (session w))));
                     (PStr "fail",
                       PInt (EvidenceEngine.count_rows "FAIL"
                               (EvidenceEngine.report_control_results organization_id
                                  (session w))));
                     (PStr "fixed",
                       PInt (EvidenceEngine.count_rows "FIXED"
                               (EvidenceEngine.report_control_results organization_id
                                  (session w)))) ])
      /\ py_get "report_key" r = Some (PStr report_key)
      /\ py_get "format" r = Some (PStr format)
      /\ py_get "download_url" r
         = Some (PStr (presigned_url EVIDENCE_BUCKET_NAME report_key 3600)).
Proof.
  intros EVIDENCE_BUCKET_NAME pdf_build json_dumps presigned_url organization_id
    start_date end_date format w organization Horg Hformat Hput Hsign.
  apply String.eqb_neq in Hformat.
  edestruct (export_after_generation EVIDENCE_BUCKET_NAME pdf_build json_dumps
               presigned_url organization_id start_date end_date format w
               (snd (utcnow w)) organization)
    as (r & w' & Hrun & _ & _ & Hstore); [exact Horg | |].
  { rewrite Hformat. unfold EvidenceEngine._generate_json_report.
    rewrite (bind_ok utcnow _ w _ _ eq_refl). reflexivity. }
  rewrite Hput, Hsign, Hformat in Hstore. destruct Hstore as [Hr Hobjects].
  exists r, w'. do 3 eexists. split; [exact Hrun |]. split; [reflexivity |].
  split; [exact Hobjects |]. subst r. repeat split.
Qed.

Lemma other_formats_export_json_witness :
  exists (r : pyval) (w' : World) (stored : StoredObject),
    export_demo "csv" open_world = (Ok r, w')
    /\ objects (store w')
       = [("compliance-evidence-bucket"%string, "audit-reports/1/101.json"%string, stored)]
    /\ ContentType stored = "application/json"%string
    /\ py_get "format" r = Some (PStr "csv").
Proof.
  edestruct (other_formats_export_json "compliance-evidence-bucket" pdf_stub json_stub
               url_stub 1 None None "csv" open_world)
    as (r & w' & report_key & stored & report & Hrun & Hkey & Hobjects & Htype & _ & _ & _
        & _ & _ & Hformat & _).
  - reflexivity.
  - discriminate.
  - reflexivity.
  - reflexivity.
  - exists r, w', stored. subst report_key. repeat split; assumption.
Defined.

(** The upload succeeds but signing the download URL fails: the report is
    in the bucket, yet the response is the one of a failed upload, with no
    URL and the message that the S3 upload was unavailable. *)
Theorem presign_failure_reports_no_upload :
  forall (EVIDENCE_BUCKET_NAME : string)
    (pdf_build : Organization.t -> list AuditLog.t -> list ControlResult.t
                 -> option Z -> option Z -> Z -> outcome (list ascii))
    (json_dumps : pyval -> list ascii) (presigned_url : string -> string -> Z -> string)
    (organization_id : Z) (start_date end_date : option Z) (w : World)
    (organization : Organization.t) (data : list ascii) (err : exn),
    get_organization organization_id (session w) = Some organization ->
    pdf_build organization
      (EvidenceEngine.report_audit_logs organization_id start_date end_date (session w))
      (EvidenceEngine.report_control_results organization_id (session w))
      start_date end_date (clock w) = Ok data ->
    put_object_error (store w) = None ->
    presign_error (store w) = Some err ->
    exists (r : pyval) (w' : World) (report_key : string) (stored : StoredObject),
      EvidenceEngine.export_audit_report EVIDENCE_BUCKET_NAME pdf_build json_dumps
        presigned_url organization_id start_date end_date "pdf" w = (Ok r, w')
      /\ objects (store w') = (EVIDENCE_BUCKET_NAME, report_key, stored) :: objects (store w)
      /\ Body stored = data
      /\ py_get "report_key" r = Some (PStr report_key)
      /\ py_get "download_url" r = Some PNone
      /\ py_get "message" r
         = Some (PStr "Report generated successfully (S3 upload unavailable in demo mode)").
Proof.
  intros EVIDENCE_BUCKET_NAME pdf_build json_dumps presigned_url organization_id
    start_date end_date w organization data err Horg Hpdf Hput Hsign.
  destruct (export_after_generation EVIDENCE_BUCKET_NAME pdf_build json_dumps
              presigned_url organization_id start_date end_date "pdf" w (snd (utcnow w))
              organization data Horg)
    as (r & w' & Hrun & _ & _ & Hstore).
  { cbn [String.eqb Ascii.eqb Bool.eqb]. rewrite pdf_report_step, Hpdf. reflexivity. }
  rewrite Hput, Hsign in Hstore. destruct Hstore as [Hr Hobjects].
  exists r, w'. do 2 eexists. split; [exact Hrun |].
  split; [exact Hobjects |]. subst r. repeat split.
Qed.

(** When reportlab fails to build the PDF the export raises that exception:
    generation is outside the [try] that guards the upload.  Nothing is
    stored and nothing is written to the database. *)
Theorem pdf_failure_aborts_the_export :
  forall (EVIDENCE_BUCKET_NAME : string)
    (pdf_build : Organization.t -> list AuditLog.t -> list ControlResult.t
                 -> option Z -> option Z -> Z -> outcome (list ascii))
    (json_dumps : pyval -> list ascii) (presigned_url : string -> string -> Z -> string)
    (organization_id : Z) (start_date end_date : option Z) (w : World)
    (organization : Organization.t) (e : exn),
    get_organization organization_id (session w) = Some organization ->
    pdf_build organization
      (EvidenceEngine.report_audit_logs organization_id start_date end_date (session w))
      (EvidenceEngine.report_control_results organization_id (session w))
      start_date end_date (clock w) = Raise e ->
    exists w' : World,
      EvidenceEngine.export_audit_report EVIDENCE_BUCKET_NAME pdf_build json_dumps
        presigned_url organization_id start_date end_date "pdf" w = (Raise e, w')
      /\ store w' = store w
      /\ session w' = session w
      /\ committed w' = committed w.
Proof.
  intros EVIDENCE_BUCKET_NAME pdf_build json_dumps presigned_url organization_id
    start_date end_date w organization e Horg Hpdf.
  unfold EvidenceEngine.export_audit_report. rewrite bind_gets, Horg, !bind_gets.
  cbn [String.eqb Ascii.eqb Bool.eqb].
  unfold bind at 1. rewrite pdf_report_step, Hpdf.
  eexists. split; [reflexivity |]. repeat split.
Qed.

Lemma presign_failure_reports_no_upload_witness :
  exists (r : pyval) (w' : World),
    EvidenceEngine.export_audit_report "compliance-evidence-bucket" pdf_stub json_stub
      url_stub 1 None None "pdf" unsigned_world = (Ok r, w')
    /\ List.length (objects (store w')) = 1%nat
    /\ py_get "download_url" r = Some PNone.
Proof.
  edestruct (presign_failure_reports_no_upload "compliance-evidence-bucket" pdf_stub
               json_stub url_stub 1 None None unsigned_world)
    as (r & w' & report_key & stored & Hrun & Hobjects & _ & _ & Hurl & _).
  - reflexivity.
  - reflexivity.
  - reflexivity.
  - reflexivity.
  - exists r, w'. split; [exact Hrun |]. rewrite Hobjects. split; [reflexivity | exact Hurl].
Defined.

Lemma pdf_failure_aborts_the_export_witness :
  exists w' : World,
    EvidenceEngine.export_audit_report "compliance-evidence-bucket" pdf_broken json_stub
      url_stub 1 None None "pdf" open_world
    = (Raise (mkExn "LayoutError" "Flowable too large"), w')
    /\ store w' = store open_world.
Proof.
  edestruct (pdf_failure_aborts_the_export "compliance-evidence-bucket" pdf_broken
               json_stub url_stub 1 None None open_world)
    as (w' & Hrun & Hstore & _).
  - reflexivity.
  - reflexivity.
  - exists w'. split; [exact Hrun | exact Hstore].
Defined.

Lemma failed_upload_response_witness :
  exists (r : pyval) (w' : World),
    export_demo "json" export_down_world = (Ok r, w')
    /\ py_get "download_url" r = Some PNone
    /\ store w' = store export_down_world.
Proof.
  edestruct (failed_upload_response "compliance-evidence-bucket" pdf_stub json_stub
               url_stub 1 None None "json" export_down_world)
    as (r & w' & Hrun & Hr & _ & Hstore & _).
  - reflexivity.
  - reflexivity.
  - reflexivity.
  - exists r, w'. split; [exact Hrun |]. subst r. split; [reflexivity | exact Hstore].
Defined.

(** ** The order of the report *)

Lemma insert_desc_perm (first : AuditLog.t -> AuditLog.t -> bool) (l : AuditLog.t)
  (sorted : list AuditLog.t) :
  Permutation (insert_desc first l sorted) (l :: sorted).
Proof.
  induction sorted as [| x rest IH]; cbn [insert_desc]; [reflexivity |].
  destruct ((AuditLog.timestamp x <? AuditLog.timestamp l)
            || ((AuditLog.timestamp x =? AuditLog.timestamp l) && first l x));
    [reflexivity |].
  rewrite IH. apply perm_swap.
Qed.

Lemma order_by_timestamp_desc_perm (first : AuditLog.t -> AuditLog.t -> bool)
  (logs : list AuditLog.t) :
  Permutation (order_by_timestamp_desc first logs) logs.
Proof.
  unfold order_by_timestamp_desc.
  induction logs as [| l rest IH]; cbn [fold_right]; [reflexivity |].
  rewrite insert_desc_perm. apply perm_skip. exact IH.
Qed.

Lemma insert_desc_sorted (first : AuditLog.t -> AuditLog.t -> bool) (l : AuditLog.t)
  (sorted : list AuditLog.t) :
  StronglySorted (fun a b => AuditLog.timestamp b <= AuditLog.timestamp a) sorted ->
  StronglySorted (fun a b => AuditLog.timestamp b <= AuditLog.timestamp a)
    (insert_desc first l sorted).
Proof.
  induction 1 as [| x rest Hrest IH Hx]; cbn [insert_desc].
  - constructor; constructor.
  - destruct ((AuditLog.timestamp x <? AuditLog.timestamp l)
              || ((AuditLog.timestamp x =? AuditLog.timestamp l) && first l x)) eqn:E.
    + assert (Hle : AuditLog.timestamp x <= AuditLog.timestamp l).
      { apply orb_true_iff in E. destruct E as [E | E].
        - apply Z.ltb_lt in E. lia.
        - apply andb_true_iff in E. destruct E as [E _]. apply Z.eqb_eq in E. lia. }
      constructor; [constructor; assumption |].
      constructor; [exact Hle |].
      rewrite Forall_forall in *. intros y Hy. specialize (Hx y Hy). lia.
    + assert (Hge : AuditLog.timestamp l <= AuditLog.timestamp x).
      { apply orb_false_iff in E. destruct E as [E _]. apply Z.ltb_ge in E. exact E. }
      constructor; [exact IH |].
      rewrite Forall_forall in *. intros y Hy.
      apply (Permutation_in _ (insert_desc_perm first l rest)) in Hy.
      destruct Hy as [<- | Hy]; [exact Hge | exact (Hx y Hy)].
Qed.

Lemma order_by_timestamp_desc_sorted (first : AuditLog.t -> AuditLog.t -> bool)
  (logs : list AuditLog.t) :
  StronglySorted (fun a b => AuditLog.timestamp b <= AuditLog.timestamp a)
    (order_by_timestamp_desc first logs).
Proof.
  unfold order_by_timestamp_desc.
  induction logs as [| l rest IH]; cbn [fold_right]; [constructor |].
  apply insert_desc_sorted. exact IH.
Qed.

(** The audit entries of an exported report are exactly the entries of the
    organization inside the window, each once, ordered by timestamp from
    the latest to the earliest.  Which of two entries with the same
    timestamp comes first is the database's choice, and the report takes it
    as it comes. *)
Theorem report_is_newest_first :
  forall (organization_id : Z) (start_date end_date : option Z) (d : DB),
    let in_report (l : AuditLog.t) :=
      opt_int_eqb (AuditLog.organization_id l) (Some organization_id)
      && match start_date with
         | Some s => s <=? AuditLog.timestamp l
         | None => true
         end
      && match end_date with
         | Some e => AuditLog.timestamp l <=? e
         | None => true
         end in
    Permutation
      (EvidenceEngine.report_audit_logs organization_id start_date end_date d)
      (filter in_report (audit_logs d))
    /\ StronglySorted (fun a b => AuditLog.timestamp b <= AuditLog.timestamp a)
         (EvidenceEngine.report_audit_logs organization_id start_date end_date d).
Proof.
  intros organization_id start_date end_date d in_report.
  unfold EvidenceEngine.report_audit_logs. fold in_report.
  split; [apply order_by_timestamp_desc_perm | apply order_by_timestamp_desc_sorted].
Qed.

(** In the database of the examples the entries a scan writes all carry the
    same timestamp, and the report of the two scans lists the later entry
    first. *)
Example scan_entries_share_a_timestamp :
  map (fun l => (AuditLog.id l, AuditLog.timestamp l))
    (audit_logs (committed (snd busy_scan)))
  = [(1, 100); (2, 100)].
Proof. reflexivity. Qed.

Example report_order_of_equal_timestamps :
  map AuditLog.id
    (EvidenceEngine.report_audit_logs 1 None None
       (committed (serve_all demo_controls demo_credential two_scans
                     (demo_world cloud_open store_up (demo_db None [])))))
  = [4; 2].
Proof. vm_compute. reflexivity. Qed.

(** The JSON report lists every finding of the organization but at most
    1000 audit entries, the first 1000 of the list it is given (the newest,
    in an export); the export's [total_audit_logs] counts them all. *)
Theorem json_report_caps_the_audit_entries :
  forall (json_dumps : pyval -> list ascii) (organization : Organization.t)
    (logs : list AuditLog.t) (rows : list ControlResult.t) (w : World),
    exists (report : pyval) (listed findings : list pyval),
      EvidenceEngine._generate_json_report json_dumps organization logs rows w
      = (Ok (json_dumps report), snd (utcnow w))
      /\ py_get "audit_logs" report = Some (PList listed)
      /\ len listed = Z.min 1000 (len logs)
      /\ map (py_get "timestamp") listed
         = map (fun l => Some (PStr (isoformat (AuditLog.timestamp l))))
             (firstn 1000 logs)
      /\ py_get "control_results" report = Some (PList findings)
      /\ len findings = len rows.
Proof.
  intros json_dumps organization logs rows w.
  unfold EvidenceEngine._generate_json_report.
  rewrite (bind_ok utcnow _ w _ _ eq_refl). unfold ret.
  do 3 eexists. split; [reflexivity |].
  split; [reflexivity |].
  split.
  { unfold len. rewrite length_map, length_firstn. lia. }
  split; [rewrite map_map; reflexivity |].
  split; [reflexivity |].
  unfold len. rewrite length_map. reflexivity.
Qed.

(** [store_evidence] either stores the snapshot and returns its key, or
    raises what went wrong (the serializer's error or the store's) and
    leaves the bucket as it was.  The object is JSON, encrypted with AES256,
    under [evidence/<finding>/<time>.json].  The finding row is not touched:
    its [evidence_s3_key] is left for the caller to set. *)
Theorem store_evidence_stores_or_raises :
  forall (EVIDENCE_BUCKET_NAME : string) (json_dumps_plain : pyval -> outcome (list ascii))
    (control_result_id : Z) (evidence_data : pyval) (w : World),
    let evidence_key :=
      ("evidence/" +++ str_int control_result_id +++ "/" +++ strftime (clock w)
       +++ ".json")%string in
    exists w' : World,
      session w' = session w
      /\ match json_dumps_plain evidence_data, put_object_error (store w) with
         | Ok body, None =>
             EvidenceEngine.store_evidence EVIDENCE_BUCKET_NAME json_dumps_plain
               control_result_id evidence_data w = (Ok evidence_key, w')
             /\ objects (store w')
                = (EVIDENCE_BUCKET_NAME, evidence_key,
                   mkObject body "application/json" "AES256" []) :: objects (store w)
         | Ok _, Some e | Raise e, _ =>
             EvidenceEngine.store_evidence EVIDENCE_BUCKET_NAME json_dumps_plain
               control_result_id evidence_data w = (Raise e, w')
             /\ store w' = store w
         end.
Proof.
  intros EVIDENCE_BUCKET_NAME json_dumps_plain control_result_id evidence_data w
    evidence_key.
  unfold EvidenceEngine.store_evidence.
  rewrite (bind_ok utcnow _ w _ _ eq_refl). unfold try_except. fold evidence_key.
  destruct (json_dumps_plain evidence_data) as [body | e].
  - unfold bind, put_object. cbn [utcnow snd store].
    destruct (put_object_error (store w)) as [e |];
      eexists; (split; [| split; reflexivity]); reflexivity.
  - eexists. split; [| split; reflexivity]. reflexivity.
Qed.

(** ** The shipped S3 controls against the inventory *)

Lemma put_bucket_attribute_ok (attr : string) (nm v c c' : pyval) :
  put_bucket_attribute attr nm v c = (Ok tt, c') ->
  exists (n : string) (kvs : list (pyval * pyval)) (bs : list pyval),
    nm = PStr n
    /\ c = PDict kvs
    /\ s3_failure c = None
    /\ dict_get "Buckets" kvs = Some (PList bs)
    /\ c' = PDict (dict_set "Buckets" (PList (map (with_attribute attr nm v) bs)) kvs).
Proof.
  unfold put_bucket_attribute. intro H.
  destruct (s3_failure c) eqn:Hfail; [discriminate |].
  destruct (find_bucket nm c) as [b |] eqn:Hfind; [| discriminate].
  destruct c as [| | | | | | | kvs]; try discriminate.
  destruct (dict_get "Buckets" kvs) as [[| | | | | | bs |] |] eqn:Hbs; try discriminate.
  injection H as <-.
  unfold find_bucket in Hfind. cbn [py_get] in Hfind. rewrite Hbs in Hfind.
  apply find_some in Hfind. destruct Hfind as [_ Hnamed].
  unfold bucket_named in Hnamed. destruct nm as [| | | | n | | |]; try discriminate.
  exists n, kvs, bs. repeat split; assumption.
Qed.

Lemma put_bucket_attribute_failed (attr : string) (nm v c c' : pyval) (e : exn) :
  put_bucket_attribute attr nm v c = (Raise e, c') -> c' = c.
Proof.
  unfold put_bucket_attribute. intro H.
  destruct (s3_failure c); [injection H as _ <-; reflexivity |].
  destruct (find_bucket nm c); [| injection H as _ <-; reflexivity].
  destruct c as [| | | | | | | kvs]; try (injection H as _ <-; reflexivity).
  destruct (dict_get "Buckets" kvs) as [[| | | | | | bs |] |];
    try (injection H as _ <-; reflexivity).
  discriminate.
Qed.

Lemma bucket_named_with_attribute (attr : string) (nm nm' v b : pyval) :
  attr <> "Name"%string ->
  bucket_named nm' (with_attribute attr nm v b) = bucket_named nm' b.
Proof.
  intro Hattr. unfold with_attribute.
  destruct b as [| | | | | | | bkvs]; try reflexivity.
  destruct (bucket_named nm (PDict bkvs)); [| reflexivity].
  unfold bucket_named. cbn [py_get].
  rewrite dict_get_set_other by (intro E; apply Hattr; symmetry; exact E).
  reflexivity.
Qed.

Lemma item_name_with_attribute (attr : string) (nm v b : pyval) :
  attr <> "Name"%string ->
  item "Name" (with_attribute attr nm v b) = item "Name" b.
Proof.
  intro Hattr. unfold with_attribute.
  destruct b as [| | | | | | | bkvs]; try reflexivity.
  destruct (bucket_named nm (PDict bkvs)); [| reflexivity].
  unfold item, subscript.
  rewrite dict_get_set_other by (intro E; apply Hattr; symmetry; exact E).
  reflexivity.
Qed.

Lemma find_with_attribute (attr : string) (nm nm' v : pyval) (bs : list pyval) :
  attr <> "Name"%string ->
  find (bucket_named nm') (map (with_attribute attr nm v) bs)
  = option_map (with_attribute attr nm v) (find (bucket_named nm') bs).
Proof.
  intro Hattr. induction bs as [| b rest IH]; [reflexivity |].
  cbn [map find]. rewrite bucket_named_with_attribute by exact Hattr.
  destruct (bucket_named nm' b); [reflexivity | exact IH].
Qed.

Lemma found_by_name (nm b c : pyval) :
  find_bucket nm c = Some b -> exists n : string, nm = PStr n /\ bucket_named nm b = true.
Proof.
  unfold find_bucket. intro Hfind.
  destruct (py_get "Buckets" c) as [[| | | | | | bs |] |]; try discriminate.
  apply find_some in Hfind. destruct Hfind as [_ Hnamed].
  destruct nm as [| | | | n | | |]; try discriminate.
  exists n. split; [reflexivity | exact Hnamed].
Qed.

Lemma named_twice (n n' : string) (b : pyval) :
  bucket_named (PStr n') b = true -> bucket_named (PStr n) b = String.eqb n n'.
Proof.
  unfold bucket_named.
  destruct (py_get "Name" b) as [[| | | | m | | |] |]; try discriminate.
  intro H. apply String.eqb_eq in H. subst m. reflexivity.
Qed.

Lemma dict_set_twice (k : string) (v v' : pyval) (kvs : list (pyval * pyval)) :
  dict_set k v (dict_set k v' kvs) = dict_set k v kvs.
Proof.
  induction kvs as [| [key v0] rest IH]; cbn [dict_set].
  - rewrite key_is_refl. reflexivity.
  - destruct (key_is k key) eqn:E; cbn [dict_set]; rewrite E; [reflexivity |].
    rewrite IH. reflexivity.
Qed.

Lemma with_attribute_twice (attr : string) (nm v b : pyval) :
  attr <> "Name"%string ->
  with_attribute attr nm v (with_attribute attr nm v b) = with_attribute attr nm v b.
Proof.
  intro Hattr.
  pose proof (bucket_named_with_attribute attr nm nm v b Hattr) as Hnamed.
  unfold with_attribute in *.
  destruct b as [| | | | | | | bkvs]; try reflexivity.
  destruct (bucket_named nm (PDict bkvs)) eqn:E.
  - rewrite Hnamed. rewrite dict_set_twice. reflexivity.
  - rewrite E. reflexivity.
Qed.

Section AfterPut.

Variables (attr : string) (n : string) (v : pyval).
Variables (kvs : list (pyval * pyval)) (bs : list pyval).
Hypothesis attr_not_name : attr <> "Name"%string.
Hypothesis no_failure : s3_failure (PDict kvs) = None.
Hypothesis buckets : dict_get "Buckets" kvs = Some (PList bs).

Lemma s3_failure_after_put :
  s3_failure
    (PDict (dict_set "Buckets" (PList (map (with_attribute attr (PStr n) v) bs)) kvs))
  = None.
Proof.
  unfold s3_failure in *. cbn [py_get] in *.
  rewrite dict_get_set_other by discriminate. exact no_failure.
Qed.

Lemma list_buckets_before_put : list_buckets (PDict kvs) = Ok bs.
Proof. unfold list_buckets. rewrite no_failure. cbn [py_get]. rewrite buckets. reflexivity. Qed.

Lemma list_buckets_after_put :
  list_buckets
    (PDict (dict_set "Buckets" (PList (map (with_attribute attr (PStr n) v) bs)) kvs))
  = Ok (map (with_attribute attr (PStr n) v) bs).
Proof.
  unfold list_buckets. rewrite s3_failure_after_put. cbn [py_get].
  rewrite dict_get_set_same. reflexivity.
Qed.

Lemma find_bucket_after_put (nm' : pyval) :
  find_bucket nm'
    (PDict (dict_set "Buckets" (PList (map (with_attribute attr (PStr n) v) bs)) kvs))
  = option_map (with_attribute attr (PStr n) v) (find_bucket nm' (PDict kvs)).
Proof.
  unfold find_bucket. cbn [py_get].
  rewrite dict_get_set_same, buckets. apply find_with_attribute. exact attr_not_name.
Qed.

(** An attribute of a bucket after the call: the new value of [attr] on the
    buckets named [n], the old value elsewhere and for every other
    attribute. *)
Lemma attribute_after_put (k : string) (b : pyval) :
  py_get k (with_attribute attr (PStr n) v b)
  = if String.eqb k attr && bucket_named (PStr n) b then Some v else py_get k b.
Proof.
  unfold with_attribute.
  destruct b as [| | | | | | | bkvs];
    try (cbn [py_get]; rewrite andb_false_r; reflexivity).
  destruct (bucket_named (PStr n) (PDict bkvs)).
  - cbn [py_get]. destruct (String.eqb_spec k attr) as [-> | Hne]; cbn [andb].
    + apply dict_get_set_same.
    + apply dict_get_set_other. exact Hne.
  - rewrite andb_false_r. reflexivity.
Qed.

(** The same call once more changes nothing. *)
Lemma put_bucket_attribute_twice (b0 : pyval) :
  find_bucket (PStr n) (PDict kvs) = Some b0 ->
  put_bucket_attribute attr (PStr n) v
    (PDict (dict_set "Buckets" (PList (map (with_attribute attr (PStr n) v) bs)) kvs))
  = (Ok tt,
     PDict (dict_set "Buckets" (PList (map (with_attribute attr (PStr n) v) bs)) kvs)).
Proof.
  intro Hfind. unfold put_bucket_attribute.
  rewrite s3_failure_after_put, find_bucket_after_put, Hfind. cbn [option_map].
  rewrite dict_get_set_same, dict_set_twice, map_map.
  rewrite (map_ext _ (with_attribute attr (PStr n) v)); [reflexivity |].
  intro b. apply with_attribute_twice. exact attr_not_name.
Qed.

End AfterPut.

Lemma arn_eqb (a b : string) :
  String.eqb ("arn:aws:s3:::" +++ a) ("arn:aws:s3:::" +++ b) = String.eqb a b.
Proof. reflexivity. Qed.

Lemma finding_of_other_bucket (n n' risk : string) :
  of_other_bucket n (bucket_finding (PStr n') risk) = negb (String.eqb n' n).
Proof. reflexivity. Qed.

Lemma blocked_buckets_pass :
  forall (n : string) (kvs : list (pyval * pyval)) (bs bs0 : list pyval)
    (fs : list ControlFinding.t) (v : pyval),
    s3_failure (PDict kvs) = None ->
    dict_get "Buckets" kvs = Some (PList bs) ->
    S3PublicAccessControl.open_to_public
      (PDict [(PStr "PublicAccessBlockConfiguration", v)]) = false ->
    S3PublicAccessControl.detect_buckets bs0 (PDict kvs) = Ok fs ->
    S3PublicAccessControl.detect_buckets
      (map (with_attribute "PublicAccessBlockConfiguration" (PStr n) v) bs0)
      (PDict (dict_set "Buckets"
                (PList (map (with_attribute "PublicAccessBlockConfiguration" (PStr n) v)
                          bs))
                kvs))
    = Ok (filter (of_other_bucket n) fs).
Proof.
  intros n kvs bs bs0 fs v Hfail Hbs Hblocked. revert fs.
  induction bs0 as [| b rest IH]; intros fs Hdetect.
  - injection Hdetect as <-. reflexivity.
  - cbn [map S3PublicAccessControl.detect_buckets] in Hdetect |- *.
    rewrite item_name_with_attribute by discriminate.
    destruct (item "Name" b) as [nm_b | e]; [| discriminate].
    unfold get_public_access_block in *.
    rewrite (s3_failure_after_put _ n v kvs bs Hfail).
    rewrite (find_bucket_after_put _ n v kvs bs) by (discriminate || assumption).
    rewrite Hfail in Hdetect.
    destruct (find_bucket nm_b (PDict kvs)) as [b0 |] eqn:Hfind; [| discriminate].
    cbn [option_map]. rewrite attribute_after_put.
    destruct (found_by_name _ _ _ Hfind) as (n' & -> & Hnamed).
    rewrite (named_twice n n' b0 Hnamed). rewrite String.eqb_refl. cbn [andb].
    destruct (S3PublicAccessControl.detect_buckets rest (PDict kvs)) as [fs_rest | e].
    + specialize (IH fs_rest eq_refl). rewrite IH.
      destruct (String.eqb_spec n n') as [<- | Hne].
      * rewrite Hblocked.
        destruct (py_get "PublicAccessBlockConfiguration" b0) as [cfg |];
          injection Hdetect as <-;
          try match goal with
              | |- context [S3PublicAccessControl.open_to_public ?p] =>
                  destruct (S3PublicAccessControl.open_to_public p)
              end; try reflexivity;
          cbn [filter]; rewrite finding_of_other_bucket, String.eqb_refl; reflexivity.
      * apply String.eqb_neq in Hne.
        destruct (py_get "PublicAccessBlockConfiguration" b0) as [cfg |].
        -- injection Hdetect as <-.
           destruct (S3PublicAccessControl.open_to_public
                       (PDict [(PStr "PublicAccessBlockConfiguration", cfg)]));
             [| reflexivity].
           cbn [filter]. rewrite finding_of_other_bucket, String.eqb_sym, Hne.
           reflexivity.
        -- change (S3PublicAccessControl.open_to_public PNone) with true
             in Hdetect |- *.
           injection Hdetect as <-.
           cbn [filter]. rewrite finding_of_other_bucket, String.eqb_sym, Hne.
           reflexivity.
    + destruct (py_get "PublicAccessBlockConfiguration" b0); discriminate.
Qed.

Lemma encryption_after_block :
  forall (n : string) (kvs : list (pyval * pyval)) (bs bs0 : list pyval) (v : pyval),
    s3_failure (PDict kvs) = None ->
    dict_get "Buckets" kvs = Some (PList bs) ->
    S3EncryptionControl.detect_buckets
      (map (with_attribute "PublicAccessBlockConfiguration" (PStr n) v) bs0)
      (PDict (dict_set "Buckets"
                (PList (map (with_attribute "PublicAccessBlockConfiguration" (PStr n) v)
                          bs))
                kvs))
    = S3EncryptionControl.detect_buckets bs0 (PDict kvs).
Proof.
  intros n kvs bs bs0 v Hfail Hbs.
  induction bs0 as [| b rest IH]; [reflexivity |].
  cbn [map S3EncryptionControl.detect_buckets].
  rewrite item_name_with_attribute by discriminate.
  destruct (item "Name" b) as [nm_b | e]; [| reflexivity].
  unfold get_bucket_encryption.
  rewrite (s3_failure_after_put _ n v kvs bs Hfail), Hfail.
  rewrite (find_bucket_after_put _ n v kvs bs) by (discriminate || assumption).
  destruct (find_bucket nm_b (PDict kvs)) as [b0 |]; [| reflexivity].
  cbn [option_map]. rewrite attribute_after_put.
  cbn [String.eqb Ascii.eqb Bool.eqb andb]. rewrite IH. reflexivity.
Qed.

(** Detection after remediation, for controls built with an AWS client.
    Once the public access control has remediated a finding of bucket [n]
    (not a dry run, and with success), a new detection by the same control
    reports what it reported before except the findings of that bucket: the
    four flags the remediation sets satisfy the two the detection checks.
    The encryption control sees no difference, and remediating the same
    finding again changes nothing at the provider. *)
Theorem blocked_bucket_passes_detection :
  forall (client : AWSClient) (finding : Finding.t) (c c' : pyval)
    (rr : RemediationResult.t) (n : string) (findings : list ControlFinding.t),
    item "bucket" (Finding.evidence finding) = Ok (PStr n) ->
    S3PublicAccessControl.remediate (Some client) finding false c = (Ok rr, c') ->
    RemediationResult.success rr = true ->
    S3PublicAccessControl.detect (Some client) c = Ok findings ->
    S3PublicAccessControl.detect (Some client) c'
    = Ok (filter (of_other_bucket n) findings)
    /\ S3EncryptionControl.detect (Some client) c'
       = S3EncryptionControl.detect (Some client) c
    /\ S3PublicAccessControl.remediate (Some client) finding false c' = (Ok rr, c').
Proof.
  intros client finding c c' rr n findings Hbucket Hrun Hok Hdetect.
  unfold S3PublicAccessControl.remediate in Hrun |- *.
  cbv beta iota zeta in Hrun |- *.
  rewrite Hbucket in Hrun |- *.
  destruct (put_bucket_attribute "PublicAccessBlockConfiguration" (PStr n) _ c)
    as [[[] | e] c1] eqn:Hput.
  2:{ injection Hrun as <- _. discriminate Hok. }
  injection Hrun as Hrr <-.
  destruct (put_bucket_attribute_ok _ _ _ _ _ Hput)
    as (n0 & kvs & bs & Hn & -> & Hfail & Hbs & ->).
  injection Hn as <-.
  assert (Hfound : exists b0, find_bucket (PStr n) (PDict kvs) = Some b0).
  { unfold put_bucket_attribute in Hput. rewrite Hfail in Hput.
    destruct (find_bucket (PStr n) (PDict kvs)) as [b0 |]; [| discriminate].
    exists b0. reflexivity. }
  destruct Hfound as [b0 Hfound].
  split; [| split].
  - unfold S3PublicAccessControl.detect in *. cbv beta iota in Hdetect |- *.
    rewrite (list_buckets_after_put _ n _ kvs bs Hfail).
    rewrite (list_buckets_before_put kvs bs Hfail Hbs) in Hdetect.
    apply blocked_buckets_pass; [exact Hfail | exact Hbs | reflexivity | exact Hdetect].
  - unfold S3EncryptionControl.detect. cbv beta iota.
    rewrite (list_buckets_after_put _ n _ kvs bs Hfail).
    rewrite (list_buckets_before_put kvs bs Hfail Hbs).
    apply encryption_after_block; assumption.
  - rewrite (put_bucket_attribute_twice _ n _ kvs bs) with (b0 := b0);
      try assumption; try discriminate.
    rewrite Hrr. reflexivity.
Qed.

Lemma blocked_bucket_passes_detection_witness :
  S3PublicAccessControl.detect
    (Some (mkAWSClient (CloudAccount.credentials (demo_account None))))
    (cloud fixed_world) = Ok []
  /\ S3EncryptionControl.detect
       (Some (mkAWSClient (CloudAccount.credentials (demo_account None))))
       (cloud fixed_world)
     = S3EncryptionControl.detect
         (Some (mkAWSClient (CloudAccount.credentials (demo_account None))))
         cloud_open.
Proof.
  destruct (blocked_bucket_passes_detection
              (mkAWSClient (CloudAccount.credentials (demo_account None)))
              (Finding.mk (Some "arn:aws:s3:::b1"%string) (Some "S3::Bucket"%string)
                 (PDict [(PStr "bucket", PStr "b1")]) (PDict [(PStr "bucket", PStr "b1")]))
              cloud_open (cloud fixed_world)
              (RemediationResult.mk true (PStr "arn:aws:s3:::b1")
                 (PDict [(PStr "bucket", PStr "b1")])
                 (PDict [(PStr "blocked", PBool true)])
                 (PDict [(PStr "bucket", PStr "b1")]) None)
              "b1" [bucket_finding (PStr "b1") "high"]
              eq_refl eq_refl eq_refl eq_refl)
    as (Hdetect & Hother & _).
  split; [exact Hdetect | exact Hother].
Defined.

Lemma encrypted_buckets_pass :
  forall (n : string) (kvs : list (pyval * pyval)) (bs bs0 : list pyval)
    (fs : list ControlFinding.t) (v : pyval),
    s3_failure (PDict kvs) = None ->
    dict_get "Buckets" kvs = Some (PList bs) ->
    S3EncryptionControl.detect_buckets bs0 (PDict kvs) = Ok fs ->
    S3EncryptionControl.detect_buckets
      (map (with_attribute "ServerSideEncryptionConfiguration" (PStr n) v) bs0)
      (PDict (dict_set "Buckets"
                (PList (map (with_attribute "ServerSideEncryptionConfiguration" (PStr n) v)
                          bs))
                kvs))
    = Ok (filter (of_other_bucket n) fs).
Proof.
  intros n kvs bs bs0 fs v Hfail Hbs. revert fs.
  induction bs0 as [| b rest IH]; intros fs Hdetect.
  - injection Hdetect as <-. reflexivity.
  - cbn [map S3EncryptionControl.detect_buckets] in Hdetect |- *.
    rewrite item_name_with_attribute by discriminate.
    destruct (item "Name" b) as [nm_b | e]; [| discriminate].
    unfold get_bucket_encryption in *.
    rewrite (s3_failure_after_put _ n v kvs bs Hfail).
    rewrite (find_bucket_after_put _ n v kvs bs) by (discriminate || assumption).
    rewrite Hfail in Hdetect.
    destruct (find_bucket nm_b (PDict kvs)) as [b0 |] eqn:Hfind; [| discriminate].
    cbn [option_map]. rewrite attribute_after_put.
    destruct (found_by_name _ _ _ Hfind) as (n' & -> & Hnamed).
    rewrite (named_twice n n' b0 Hnamed). rewrite String.eqb_refl. cbn [andb].
    destruct (S3EncryptionControl.detect_buckets rest (PDict kvs)) as [fs_rest | e].
    + specialize (IH fs_rest eq_refl). rewrite IH.
      destruct (String.eqb_spec n n') as [<- | Hne].
      * cbn [truthy negb].
        destruct (py_get "ServerSideEncryptionConfiguration" b0) as [cfg |];
          cbn [truthy negb] in Hdetect; injection Hdetect as <-; [reflexivity |].
        cbn [filter]. rewrite finding_of_other_bucket, String.eqb_refl. reflexivity.
      * apply String.eqb_neq in Hne.
        destruct (py_get "ServerSideEncryptionConfiguration" b0) as [cfg |];
          cbn [truthy negb] in Hdetect |- *; injection Hdetect as <-; [reflexivity |].
        cbn [filter]. rewrite finding_of_other_bucket, String.eqb_sym, Hne.
        reflexivity.
    + destruct (py_get "ServerSideEncryptionConfiguration" b0); discriminate.
Qed.

Lemma public_access_after_encryption :
  forall (n : string) (kvs : list (pyval * pyval)) (bs bs0 : list pyval) (v : pyval),
    s3_failure (PDict kvs) = None ->
    dict_get "Buckets" kvs = Some (PList bs) ->
    S3PublicAccessControl.detect_buckets
      (map (with_attribute "ServerSideEncryptionConfiguration" (PStr n) v) bs0)
      (PDict (dict_set "Buckets"
                (PList (map (with_attribute "ServerSideEncryptionConfiguration" (PStr n) v)
                          bs))
                kvs))
    = S3PublicAccessControl.detect_buckets bs0 (PDict kvs).
Proof.
  intros n kvs bs bs0 v Hfail Hbs.
  induction bs0 as [| b rest IH]; [reflexivity |].
  cbn [map S3PublicAccessControl.detect_buckets].
  rewrite item_name_with_attribute by discriminate.
  destruct (item "Name" b) as [nm_b | e]; [| reflexivity].
  unfold get_public_access_block.
  rewrite (s3_failure_after_put _ n v kvs bs Hfail), Hfail.
  rewrite (find_bucket_after_put _ n v kvs bs) by (discriminate || assumption).
  destruct (find_bucket nm_b (PDict kvs)) as [b0 |]; [| reflexivity].
  cbn [option_map]. rewrite attribute_after_put.
  cbn [String.eqb Ascii.eqb Bool.eqb andb]. rewrite IH. reflexivity.
Qed.

(** The same for the encryption control built with an AWS client: once it
    has remediated a finding of bucket [n], its next detection reports the
    earlier findings without those of that bucket, the public access control
    sees no difference, and a second remediation changes nothing at the
    provider. *)
Theorem encrypted_bucket_passes_detection :
  forall (client : AWSClient) (finding : Finding.t) (c c' : pyval)
    (rr : RemediationResult.t) (n : string) (findings : list ControlFinding.t),
    item "bucket" (Finding.evidence finding) = Ok (PStr n) ->
    S3EncryptionControl.remediate (Some client) finding false c = (Ok rr, c') ->
    RemediationResult.success rr = true ->
    S3EncryptionControl.detect (Some client) c = Ok findings ->
    S3EncryptionControl.detect (Some client) c'
    = Ok (filter (of_other_bucket n) findings)
    /\ S3PublicAccessControl.detect (Some client) c'
       = S3PublicAccessControl.detect (Some client) c
    /\ S3EncryptionControl.remediate (Some client) finding false c' = (Ok rr, c').
Proof.
  intros client finding c c' rr n findings Hbucket Hrun Hok Hdetect.
  unfold S3EncryptionControl.remediate in Hrun |- *.
  cbv beta iota zeta in Hrun |- *.
  rewrite Hbucket in Hrun |- *.
  destruct (put_bucket_attribute "ServerSideEncryptionConfiguration" (PStr n) _ c)
    as [[[] | e] c1] eqn:Hput.
  2:{ injection Hrun as <- _. discriminate Hok. }
  injection Hrun as Hrr <-.
  destruct (put_bucket_attribute_ok _ _ _ _ _ Hput)
    as (n0 & kvs & bs & Hn & -> & Hfail & Hbs & ->).
  injection Hn as <-.
  assert (Hfound : exists b0, find_bucket (PStr n) (PDict kvs) = Some b0).
  { unfold put_bucket_attribute in Hput. rewrite Hfail in Hput.
    destruct (find_bucket (PStr n) (PDict kvs)) as [b0 |]; [| discriminate].
    exists b0. reflexivity. }
  destruct Hfound as [b0 Hfound].
  split; [| split].
  - unfold S3EncryptionControl.detect in *. cbv beta iota in Hdetect |- *.
    rewrite (list_buckets_after_put _ n _ kvs bs Hfail).
    rewrite (list_buckets_before_put kvs bs Hfail Hbs) in Hdetect.
    apply encrypted_buckets_pass; [exact Hfail | exact Hbs | exact Hdetect].
  - unfold S3PublicAccessControl.detect. cbv beta iota.
    rewrite (list_buckets_after_put _ n _ kvs bs Hfail).
    rewrite (list_buckets_before_put kvs bs Hfail Hbs).
    apply public_access_after_encryption; assumption.
  - rewrite (put_bucket_attribute_twice _ n _ kvs bs) with (b0 := b0);
      try assumption; try discriminate.
    rewrite Hrr. reflexivity.
Qed.

Lemma encrypted_bucket_passes_detection_witness :
  exists c' : pyval,
    S3EncryptionControl.detect
      (Some (mkAWSClient (CloudAccount.credentials (demo_account None)))) c' = Ok []
    /\ S3PublicAccessControl.detect
         (Some (mkAWSClient (CloudAccount.credentials (demo_account None)))) c'
       = S3PublicAccessControl.detect
           (Some (mkAWSClient (CloudAccount.credentials (demo_account None))))
           cloud_open.
Proof.
  edestruct (encrypted_bucket_passes_detection
               (mkAWSClient (CloudAccount.credentials (demo_account None)))
               (Finding.mk (Some "arn:aws:s3:::b1"%string) (Some "S3::Bucket"%string)
                  (PDict [(PStr "bucket", PStr "b1")])
                  (PDict [(PStr "bucket", PStr "b1")]))
               cloud_open)
    as (Hdetect & Hother & _).
  - reflexivity.
  - reflexivity.
  - reflexivity.
  - reflexivity.
  - eexists. split; [exact Hdetect | exact Hother].
Defined.

(** The remediation of the two shipped S3 controls never raises, with or
    without a client: every failure of the S3 call comes back as a result
    with [success = False] and the error text, and then the provider is as
    it was; so does the remediation by a control built without a client,
    unless it is a dry run.  A dry run calls nothing and always reports
    success, whatever the client, the finding and the state of the
    provider.  A success hands the finding's evidence back as rollback
    data. *)
Theorem s3_remediation_never_raises :
  forall (client : option AWSClient) (finding : Finding.t) (dry_run : bool) (c : pyval)
    (control : Control),
    control = S3PublicAccessControl.control \/ control = S3EncryptionControl.control ->
    exists (rr : RemediationResult.t) (c' : pyval),
      remediate control client finding dry_run c = (Ok rr, c')
      /\ (dry_run = true -> RemediationResult.success rr = true /\ c' = c)
      /\ (RemediationResult.success rr = false ->
          c' = c /\ RemediationResult.error_message rr <> None)
      /\ (RemediationResult.success rr = true ->
          RemediationResult.rollback_data rr = Finding.evidence finding
          /\ RemediationResult.before_state rr = Finding.evidence finding)
      /\ (client = None -> dry_run = false -> RemediationResult.success rr = false).
Proof.
  intros client finding dry_run c control [-> | ->];
    cbn [remediate S3PublicAccessControl.control S3EncryptionControl.control].
  - unfold S3PublicAccessControl.remediate. cbv zeta.
    destruct dry_run.
    + do 2 eexists. split; [reflexivity |]. repeat split; discriminate.
    + destruct client as [client |].
      * destruct (item "bucket" (Finding.evidence finding)) as [nm | e].
        -- destruct (put_bucket_attribute "PublicAccessBlockConfiguration" nm _ c)
             as [[[] | e] c1] eqn:Hput.
           ++ do 2 eexists. split; [reflexivity |]. repeat split; discriminate.
           ++ apply put_bucket_attribute_failed in Hput. subst c1.
              do 2 eexists. split; [reflexivity |]. repeat split; discriminate.
        -- do 2 eexists. split; [reflexivity |]. repeat split; discriminate.
      * do 2 eexists. split; [reflexivity |]. repeat split; discriminate.
  - unfold S3EncryptionControl.remediate. cbv zeta.
    destruct dry_run.
    + do 2 eexists. split; [reflexivity |]. repeat split; discriminate.
    + destruct client as [client |].
      * destruct (item "bucket" (Finding.evidence finding)) as [nm | e].
        -- destruct (put_bucket_attribute "ServerSideEncryptionConfiguration" nm _ c)
             as [[[] | e] c1] eqn:Hput.
           ++ do 2 eexists. split; [reflexivity |]. repeat split; discriminate.
           ++ apply put_bucket_attribute_failed in Hput. subst c1.
              do 2 eexists. split; [reflexivity |]. repeat split; discriminate.
        -- do 2 eexists. split; [reflexivity |]. repeat split; discriminate.
      * do 2 eexists. split; [reflexivity |]. repeat split; discriminate.
Qed.

Lemma s3_remediation_never_raises_witness :
  exists (rr : RemediationResult.t) (c' : pyval),
    remediate S3PublicAccessControl.control
      (Some (mkAWSClient (CloudAccount.credentials (demo_account None))))
      (Finding.mk (Some "arn:aws:s3:::b1"%string) (Some "S3::Bucket"%string)
         (PDict [(PStr "bucket", PStr "b1")]) (PDict [(PStr "bucket", PStr "b1")]))
      false cloud_open = (Ok rr, c')
    /\ RemediationResult.success rr = true
    /\ RemediationResult.rollback_data rr = PDict [(PStr "bucket", PStr "b1")]
    /\ c' = cloud fixed_world.
Proof.
  destruct (s3_remediation_never_raises
              (Some (mkAWSClient (CloudAccount.credentials (demo_account None))))
              (Finding.mk (Some "arn:aws:s3:::b1"%string) (Some "S3::Bucket"%string)
                 (PDict [(PStr "bucket", PStr "b1")])
                 (PDict [(PStr "bucket", PStr "b1")]))
              false cloud_open S3PublicAccessControl.control (or_introl eq_refl))
    as (rr & c' & Hrun & _ & _ & Hdone & _).
  exists rr, c'. split; [exact Hrun |].
  assert (Hok : RemediationResult.success rr = true).
  { vm_compute in Hrun. injection Hrun as <- _. reflexivity. }
  split; [exact Hok |]. split; [exact (proj1 (Hdone Hok)) |].
  vm_compute in Hrun. injection Hrun as _ <-. reflexivity.
Defined.

(** ** Findings as the API lists them *)

(** No finding written by a scan is listed as remediable.  [_save_result]
    does not persist the control's [can_auto_remediate] flag, and the
    [result_metadata] column it leaves empty is where the findings endpoint
    looks for it: for every row of a scan, the listed [can_remediate] is
    [False], also for the findings of controls that can remediate. *)
Theorem scanned_findings_are_listed_as_not_remediable :
  forall (AWS_CONTROLS : list Control)
    (ClientSecretCredential : pyval -> pyval -> pyval -> option exn)
    (account_id : Z) (control_ids : option (list string)) (w : World)
    (account : CloudAccount.t),
    get_account account_id (session w) = Some account ->
    CloudAccount.provider account = "aws"%string ->
    exists (r : pyval) (w' : World) (rows : list ControlResult.t),
      DetectionEngine.scan_account AWS_CONTROLS ClientSecretCredential account_id
        control_ids w = (Ok r, w')
      /\ control_results (session w') = control_results (session w) ++ rows
      /\ Forall (fun row =>
                   exists entry : pyval,
                     Api.finding_view row = Ok entry
                     /\ py_get "can_remediate" entry = Some (PBool false)
                     /\ py_get "id" entry = Some (PInt (ControlResult.id row)))
           rows.
Proof.
  intros AWS_CONTROLS ClientSecretCredential account_id control_ids w account Hacc Hprov.
  destruct (scan_account_writes AWS_CONTROLS ClientSecretCredential account_id
              control_ids w account
              (Some (mkAWSClient (CloudAccount.credentials account))) AWS_CONTROLS Hacc)
    as (r & w' & n & rows & entries & scan_entry & Hrun & _ & _ & _ & _ & _
        & _ & _ & Hrows & Hown & _).
  { unfold DetectionEngine.provider_controls. rewrite Hprov. reflexivity. }
  exists r, w', rows. split; [exact Hrun |]. split; [exact Hrows |].
  eapply Forall_impl; [| exact Hown].
  intros row (_ & _ & _ & _ & _ & _ & _ & Hmeta).
  unfold Api.finding_view, Api.can_remediate. rewrite Hmeta. cbn [truthy].
  eexists. split; [reflexivity |]. split; reflexivity.
Qed.

Lemma scanned_findings_are_listed_as_not_remediable_witness :
  exists (r : pyval) (w' : World) (rows : list ControlResult.t),
    DetectionEngine.scan_account demo_controls demo_credential 1
      (Some ["AWS-S3-001"%string]) busy_world = (Ok r, w')
    /\ control_results (session w') = control_results (session busy_world) ++ rows
    /\ Forall (fun row =>
                 exists entry : pyval,
                   Api.finding_view row = Ok entry
                   /\ py_get "can_remediate" entry = Some (PBool false)
                   /\ py_get "id" entry = Some (PInt (ControlResult.id row)))
         rows.
Proof.
  exact (scanned_findings_are_listed_as_not_remediable demo_controls demo_credential 1
           (Some ["AWS-S3-001"%string]) busy_world
           (demo_account (Some "in_progress"%string)) eq_refl eq_refl).
Defined.

(** ** Scans, remediations and the compliance score *)

Lemma score_of_same_rows (account_id organization_id : option Z) (w w' : World) :
  DetectionEngine.scoped_results account_id organization_id (session w')
  = DetectionEngine.scoped_results account_id organization_id (session w) ->
  fst (DetectionEngine.get_compliance_score account_id organization_id w')
  = fst (DetectionEngine.get_compliance_score account_id organization_id w).
Proof.
  intro H. unfold DetectionEngine.get_compliance_score. rewrite !bind_gets, H.
  destruct (DetectionEngine.scoped_results account_id organization_id (session w));
    reflexivity.
Qed.

Lemma rows_of_other_account (account_id other : Z) (scan_id : string)
  (rows : list ControlResult.t) :
  other <> account_id ->
  Forall (written_by_scan account_id scan_id) rows ->
  filter (fun r => opt_int_eqb (Some (ControlResult.cloud_account_id r)) (Some other)) rows
  = [].
Proof.
  intros Hother Hrows. induction Hrows as [| row rest Hrow _ IH]; [reflexivity |].
  cbn [filter]. destruct Hrow as (Hacc & _). rewrite Hacc, IH. cbn [opt_int_eqb].
  destruct (Z.eqb_spec account_id other) as [E | _]; [congruence | reflexivity].
Qed.

Lemma rows_of_this_account (account_id : Z) (scan_id : string)
  (rows : list ControlResult.t) :
  Forall (written_by_scan account_id scan_id) rows ->
  filter (fun r => opt_int_eqb (Some (ControlResult.cloud_account_id r)) (Some account_id))
    rows = rows.
Proof.
  intro Hrows. induction Hrows as [| row rest Hrow _ IH]; [reflexivity |].
  cbn [filter]. destruct Hrow as (Hacc & _). rewrite Hacc, IH. cbn [opt_int_eqb].
  rewrite Z.eqb_refl. reflexivity.
Qed.

(** A scan moves the compliance score of the scanned account only.  The
    rows it appends are all in the scope of that account (when its id is
    not 0, which the score treats as no account), and the score asked for
    any other account answers exactly what it answered before the scan. *)
Theorem scan_changes_only_its_account_score :
  forall (AWS_CONTROLS : list Control)
    (ClientSecretCredential : pyval -> pyval -> pyval -> option exn)
    (account_id : Z) (control_ids : option (list string)) (w : World)
    (account : CloudAccount.t),
    get_account account_id (session w) = Some account ->
    CloudAccount.provider account = "aws"%string ->
    exists (r : pyval) (w' : World) (rows : list ControlResult.t),
      DetectionEngine.scan_account AWS_CONTROLS ClientSecretCredential account_id
        control_ids w = (Ok r, w')
      /\ control_results (session w') = control_results (session w) ++ rows
      /\ (forall (other : Z) (organization_id : option Z),
             other <> account_id -> other <> 0 ->
             fst (DetectionEngine.get_compliance_score (Some other) organization_id w')
             = fst (DetectionEngine.get_compliance_score (Some other) organization_id w))
      /\ (account_id <> 0 ->
          forall organization_id : option Z,
            DetectionEngine.scoped_results (Some account_id) organization_id (session w')
            = DetectionEngine.scoped_results (Some account_id) organization_id
                (session w) ++ rows).
Proof.
  intros AWS_CONTROLS ClientSecretCredential account_id control_ids w account Hacc Hprov.
  destruct (scan_account_writes AWS_CONTROLS ClientSecretCredential account_id
              control_ids w account
              (Some (mkAWSClient (CloudAccount.credentials account))) AWS_CONTROLS Hacc)
    as (r & w' & n & rows & entries & scan_entry & Hrun & _ & _ & _ & _ & _
        & _ & _ & Hrows & Hown & _).
  { unfold DetectionEngine.provider_controls. rewrite Hprov. reflexivity. }
  exists r, w', rows. split; [exact Hrun |]. split; [exact Hrows |]. split.
  - intros other organization_id Hother Hzero. apply score_of_same_rows.
    unfold DetectionEngine.scoped_results. cbn [truthy_int].
    apply Z.eqb_neq in Hzero. rewrite Hzero. cbn [negb].
    rewrite Hrows, filter_app, (rows_of_other_account _ _ _ _ Hother Hown).
    apply app_nil_r.
  - intros Hzero organization_id.
    unfold DetectionEngine.scoped_results. cbn [truthy_int].
    apply Z.eqb_neq in Hzero. rewrite Hzero. cbn [negb].
    rewrite Hrows, filter_app, (rows_of_this_account _ _ _ Hown). reflexivity.
Qed.

Lemma scan_changes_only_its_account_score_witness :
  exists (r : pyval) (w' : World),
    DetectionEngine.scan_account demo_controls demo_credential 1
      (Some ["AWS-S3-001"%string]) busy_world = (Ok r, w')
    /\ fst (DetectionEngine.get_compliance_score (Some 2) None w')
       = fst (DetectionEngine.get_compliance_score (Some 2) None busy_world).
Proof.
  destruct (scan_changes_only_its_account_score demo_controls demo_credential 1
              (Some ["AWS-S3-001"%string]) busy_world
              (demo_account (Some "in_progress"%string)) eq_refl eq_refl)
    as (r & w' & rows & Hrun & _ & Hother & _).
  exists r, w'. split; [exact Hrun |]. apply Hother; discriminate.
Defined.

Lemma filter_all {A : Type} (xs : list A) : filter (fun _ => true) xs = xs.
Proof. induction xs as [| x rest IH]; [reflexivity |]. cbn [filter]. rewrite IH. reflexivity. Qed.

Lemma scoped_results_in_scope (account_id organization_id : option Z) (d : DB) :
  DetectionEngine.scoped_results account_id organization_id d
  = filter (in_scope account_id organization_id (cloud_accounts d)) (control_results d).
Proof.
  unfold DetectionEngine.scoped_results, in_scope.
  destruct (truthy_int account_id); [reflexivity |].
  destruct (truthy_int organization_id); [reflexivity |].
  symmetry. apply filter_all.
Qed.

Lemma in_scope_of_account (account_id organization_id : option Z)
  (accounts : list CloudAccount.t) (r r' : ControlResult.t) :
  ControlResult.cloud_account_id r' = ControlResult.cloud_account_id r ->
  in_scope account_id organization_id accounts r'
  = in_scope account_id organization_id accounts r.
Proof. intro H. unfold in_scope. rewrite H. reflexivity. Qed.

Lemma filter_map_same {A : Type} (p : A -> bool) (f : A -> A) (xs : list A) :
  (forall x, p (f x) = p x) ->
  filter p (map f xs) = map f (filter p xs).
Proof.
  intro H. induction xs as [| x rest IH]; [reflexivity |].
  cbn [map filter]. rewrite H. destruct (p x); cbn [map]; rewrite IH; reflexivity.
Qed.

Lemma NoDup_ids_filter (p : ControlResult.t -> bool) (rows : list ControlResult.t) :
  NoDup (map ControlResult.id rows) -> NoDup (map ControlResult.id (filter p rows)).
Proof.
  induction rows as [| r rest IH]; intro H; [constructor |].
  cbn [map] in H. inversion H as [| x xs Hnotin Hrest]; subst.
  cbn [filter]. destruct (p r); [| exact (IH Hrest)].
  cbn [map]. constructor; [| exact (IH Hrest)].
  intro Hin. apply Hnotin. apply in_map_iff in Hin. destruct Hin as (r' & Hid & Hr').
  apply filter_In in Hr'. apply in_map_iff. exists r'. split; [exact Hid | apply Hr'].
Qed.

Lemma untouched_rows (finding_id : Z) (f : ControlResult.t -> ControlResult.t)
  (rows : list ControlResult.t) :
  ~ In finding_id (map ControlResult.id rows) ->
  map (fun r => if ControlResult.id r =? finding_id then f r else r) rows = rows.
Proof.
  induction rows as [| r rest IH]; intro H; [reflexivity |].
  cbn [map] in *. destruct (Z.eqb_spec (ControlResult.id r) finding_id) as [E | _].
  - exfalso. apply H. left. exact E.
  - rewrite IH; [reflexivity |]. intro Hin. apply H. right. exact Hin.
Qed.

(** Counting by status after one row of a table with unique ids changed. *)
Lemma status_count_after_update (s : string) (finding_id : Z)
  (f : ControlResult.t -> ControlResult.t) (rec : ControlResult.t)
  (rows : list ControlResult.t) :
  NoDup (map ControlResult.id rows) ->
  In rec rows ->
  ControlResult.id rec = finding_id ->
  status_count s (map (fun r => if ControlResult.id r =? finding_id then f r else r) rows)
  = status_count s rows
    - (if String.eqb (ControlResult.status rec) s then 1 else 0)
    + (if String.eqb (ControlResult.status (f rec)) s then 1 else 0).
Proof.
  intros Hnodup Hin Hid. unfold status_count.
  induction rows as [| r rest IH]; [contradiction |].
  cbn [map] in Hnodup. inversion Hnodup as [| x xs Hnotin Hrest]; subst x xs.
  cbn [map]. destruct Hin as [-> | Hin].
  - rewrite Hid, Z.eqb_refl. rewrite untouched_rows by (rewrite <- Hid; exact Hnotin).
    cbn [filter].
    destruct (String.eqb (ControlResult.status rec) s),
             (String.eqb (ControlResult.status (f rec)) s);
      rewrite ?len_cons; lia.
  - destruct (Z.eqb_spec (ControlResult.id r) finding_id) as [E | _].
    + exfalso. apply Hnotin. rewrite E, <- Hid. apply in_map. exact Hin.
    + cbn [filter]. specialize (IH Hrest Hin).
      destruct (String.eqb (ControlResult.status r) s); rewrite ?len_cons; lia.
Qed.

(** The whole table after an executed remediation. *)
Lemma executed_remediation_table :
  forall (AWS_CONTROLS : list Control) (finding_id : Z) (approved_by : option string)
    (w : World) (rec : ControlResult.t) (account : CloudAccount.t) (control : Control)
    (rr : RemediationResult.t) (c' : pyval),
    get_finding finding_id (session w) = Some rec ->
    RemediationEngine.remediable (ControlResult.status rec) = true ->
    get_account (ControlResult.cloud_account_id rec) (session w) = Some account ->
    RemediationEngine.find_control AWS_CONTROLS (ControlResult.control_id rec)
    = Some control ->
    remediate control (RemediationEngine.client_for account)
      (Finding.mk (ControlResult.resource_id rec) (ControlResult.resource_type rec)
         (ControlResult.evidence_before rec) (ControlResult.finding_details rec))
      false (cloud w) = (Ok rr, c') ->
    RemediationResult.success rr = true ->
    exists (r : pyval) (w' : World),
      RemediationEngine.remediate_finding AWS_CONTROLS finding_id false approved_by w
      = (Ok r, w')
      /\ control_results (session w')
         = map (fun row =>
                  if ControlResult.id row =? finding_id
                  then mark_fixed approved_by rr (clock w) (clock w + 1) row else row)
             (control_results (session w))
      /\ cloud_accounts (session w') = cloud_accounts (session w).
Proof.
  intros until c'. intros Hf Hrem Hacc Hctl Hcall Hok.
  unfold RemediationEngine.remediate_finding, bind, gets.
  rewrite Hf, Hrem. cbn [negb]. rewrite Hacc, Hctl.
  unfold call_remediate. rewrite Hcall, Hok.
  cbn -[next_id Z.add String.append find RemediationEngine.actor_of map]. unfold ret.
  do 2 eexists. split; [reflexivity |].
  cbn -[next_id Z.add String.append find RemediationEngine.actor_of map].
  split; [| reflexivity].
  rewrite !map_map. apply map_ext. intro row.
  destruct (ControlResult.id row =? finding_id) eqn:E;
    repeat (progress
              (cbn [ControlResult.id ControlResult.set_status
                      ControlResult.set_remediation_status
                      ControlResult.set_remediation_approved_by
                      ControlResult.set_remediation_executed_at
                      ControlResult.set_evidence_after ControlResult.set_rollback_data
                      ControlResult.set_resolved_at];
               rewrite ?E));
    reflexivity.
Qed.

Lemma score_of_rows (account_id organization_id : option Z) (w : World) :
  DetectionEngine.scoped_results account_id organization_id (session w) <> [] ->
  exists answer : pyval,
    DetectionEngine.get_compliance_score account_id organization_id w = (Ok answer, w)
    /\ py_get "total" answer
       = Some (PInt (len (DetectionEngine.scoped_results account_id organization_id
                            (session w))))
    /\ py_get "pass" answer
       = Some (PInt (status_count "PASS"
                       (DetectionEngine.scoped_results account_id organization_id
                          (session w))))
    /\ py_get "fail" answer
       = Some (PInt (status_count "FAIL"
                       (DetectionEngine.scoped_results account_id organization_id
                          (session w))))
    /\ py_get "fixed" answer
       = Some (PInt (status_count "FIXED"
                       (DetectionEngine.scoped_results account_id organization_id
                          (session w)))).
Proof.
  intro Hrows. unfold DetectionEngine.get_compliance_score. rewrite bind_gets.
  destruct (DetectionEngine.scoped_results account_id organization_id (session w))
    as [| r0 rows]; [contradiction |].
  unfold ret. eexists. split; [reflexivity |].
  cbn [py_get dict_get key_is String.eqb Ascii.eqb Bool.eqb].
  rewrite !count_status_len. repeat split.
Qed.

(** An executed remediation in the compliance score.  On a table with
    unique ids, fixing a FAIL finding moves exactly one finding from [fail]
    to [fixed] in every score whose scope holds the finding, and leaves
    [total] and [pass] as they were. *)
Theorem executed_remediation_moves_the_score :
  forall (AWS_CONTROLS : list Control) (finding_id : Z) (approved_by : option string)
    (account_id organization_id : option Z) (w : World) (rec : ControlResult.t)
    (account : CloudAccount.t) (control : Control) (rr : RemediationResult.t)
    (c' : pyval),
    get_finding finding_id (session w) = Some rec ->
    ControlResult.status rec = "FAIL"%string ->
    get_account (ControlResult.cloud_account_id rec) (session w) = Some account ->
    RemediationEngine.find_control AWS_CONTROLS (ControlResult.control_id rec)
    = Some control ->
    remediate control (RemediationEngine.client_for account)
      (Finding.mk (ControlResult.resource_id rec) (ControlResult.resource_type rec)
         (ControlResult.evidence_before rec) (ControlResult.finding_details rec))
      false (cloud w) = (Ok rr, c') ->
    RemediationResult.success rr = true ->
    NoDup (map ControlResult.id (control_results (session w))) ->
    in_scope account_id organization_id (cloud_accounts (session w)) rec = true ->
    exists (r : pyval) (w' : World) (before after : pyval) (fail fixed : Z),
      RemediationEngine.remediate_finding AWS_CONTROLS finding_id false approved_by w
      = (Ok r, w')
      /\ DetectionEngine.get_compliance_score account_id organization_id w
         = (Ok before, w)
      /\ DetectionEngine.get_compliance_score account_id organization_id w'
         = (Ok after, w')
      /\ py_get "fail" before = Some (PInt fail)
      /\ py_get "fixed" before = Some (PInt fixed)
      /\ py_get "fail" after = Some (PInt (fail - 1))
      /\ py_get "fixed" after = Some (PInt (fixed + 1))
      /\ py_get "total" after = py_get "total" before
      /\ py_get "pass" after = py_get "pass" before.
Proof.
  intros until c'. intros Hf Hst Hacc Hctl Hcall Hok Hnodup Hscope.
  assert (Hrem : RemediationEngine.remediable (ControlResult.status rec) = true)
    by (rewrite Hst; reflexivity).
  destruct (executed_remediation_table AWS_CONTROLS finding_id approved_by w rec account
              control rr c' Hf Hrem Hacc Hctl Hcall Hok)
    as (r & w' & Hrun & Htable & Haccs).
  unfold get_finding in Hf. apply find_some in Hf. destruct Hf as [Hin Hid].
  apply Z.eqb_eq in Hid.
  set (scope := in_scope account_id organization_id (cloud_accounts (session w))) in *.
  set (fixing := fun row : ControlResult.t =>
                   if ControlResult.id row =? finding_id
                   then mark_fixed approved_by rr (clock w) (clock w + 1) row
                   else row) in *.
  assert (Hbefore : DetectionEngine.scoped_results account_id organization_id (session w)
                    = filter scope (control_results (session w)))
    by apply scoped_results_in_scope.
  assert (Hafter : DetectionEngine.scoped_results account_id organization_id (session w')
                   = map fixing (filter scope (control_results (session w)))).
  { rewrite scoped_results_in_scope, Haccs, Htable. fold scope.
    apply filter_map_same. intro row. apply in_scope_of_account.
    unfold fixing. destruct (ControlResult.id row =? finding_id); reflexivity. }
  assert (Hscoped : In rec (filter scope (control_results (session w))))
    by (apply filter_In; split; assumption).
  destruct (score_of_rows account_id organization_id w)
    as (before & Hscore & Htotal & Hpass & Hfail & Hfixed).
  { rewrite Hbefore. intro E. rewrite E in Hscoped. contradiction. }
  destruct (score_of_rows account_id organization_id w')
    as (after & Hscore' & Htotal' & Hpass' & Hfail' & Hfixed').
  { rewrite Hafter. intro E. apply map_eq_nil in E. rewrite E in Hscoped.
    contradiction. }
  rewrite Hbefore in Htotal, Hpass, Hfail, Hfixed.
  rewrite Hafter in Htotal', Hpass', Hfail', Hfixed'.
  pose proof (NoDup_ids_filter scope _ Hnodup) as Hunique.
  unfold fixing in Hpass', Hfail', Hfixed'.
  rewrite (status_count_after_update "PASS" finding_id _ rec _ Hunique Hscoped Hid)
    in Hpass'.
  rewrite (status_count_after_update "FAIL" finding_id _ rec _ Hunique Hscoped Hid)
    in Hfail'.
  rewrite (status_count_after_update "FIXED" finding_id _ rec _ Hunique Hscoped Hid)
    in Hfixed'.
  rewrite Hst in Hpass', Hfail', Hfixed'.
  cbn [mark_fixed ControlResult.status ControlResult.set_status
         ControlResult.set_remediation_status ControlResult.set_remediation_approved_by
         ControlResult.set_remediation_executed_at ControlResult.set_evidence_after
         ControlResult.set_rollback_data ControlResult.set_resolved_at
         String.eqb Ascii.eqb Bool.eqb] in Hpass', Hfail', Hfixed'.
  exists r, w', before, after.
  exists (status_count "FAIL" (filter scope (control_results (session w)))),
    (status_count "FIXED" (filter scope (control_results (session w)))).
  split; [exact Hrun |]. split; [exact Hscore |]. split; [exact Hscore' |].
  split; [exact Hfail |]. split; [exact Hfixed |].
  split; [rewrite Hfail'; do 2 f_equal; lia |].
  split; [rewrite Hfixed'; do 2 f_equal; lia |].
  split.
  - rewrite Htotal', Htotal. unfold len. rewrite length_map. reflexivity.
  - rewrite Hpass', Hpass. do 2 f_equal. lia.
Qed.

Lemma executed_remediation_moves_the_score_witness :
  exists (r : pyval) (w' : World) (before after : pyval),
    RemediationEngine.remediate_finding demo_controls 1 false (Some "a@x"%string)
      open_world = (Ok r, w')
    /\ DetectionEngine.get_compliance_score (Some 1) None open_world
       = (Ok before, open_world)
    /\ DetectionEngine.get_compliance_score (Some 1) None w' = (Ok after, w')
    /\ py_get "total" after = py_get "total" before.
Proof.
  edestruct (executed_remediation_moves_the_score demo_controls 1 (Some "a@x"%string)
               (Some 1) None open_world)
    as (r & w' & before & after & fail & fixed & Hrun & Hbefore & Hafter & _ & _ & _ & _
        & Htotal & _).
  - reflexivity.
  - reflexivity.
  - reflexivity.
  - reflexivity.
  - reflexivity.
  - reflexivity.
  - repeat constructor. intros [].
  - reflexivity.
  - exists r, w', before, after. repeat split; assumption.
Defined.
